(** * Workspace migrator: a shallow embedding of [migrator.py]

    The development follows the Python class [Migrator]: the string helpers
    the code relies on, the request documents it builds, the calls it makes
    to the two backends, the secret store and the local files, and the
    orchestration loop [migrate_workspaces].

    Python [str] values are modelled as UTF-8 byte strings ([string]); the
    order of code points and the order of UTF-8 bytes coincide, and every
    pattern the code searches for is ASCII. *)

From Stdlib Require Import List String Ascii ZArith NArith Bool Lia.
From stdpp Require Import base strings gmap pretty.
Import ListNotations.

Local Open Scope string_scope.

(** ** Python string operations used by the migrator *)

Module PyStr.

Definition nl : string := String "010"%char EmptyString.
Definition cr : string := String "013"%char EmptyString.

(** [a > b] on [str]: lexicographic order on code points. *)
Definition gt (a b : string) : bool := String.ltb b a.

(** [replace_from old new skip s]: the scan of [s.replace(old, new)], with
    [skip] characters of a match still to be dropped. [old] is not empty. *)
Fixpoint replace_from (old new : string) (skip : nat) (s : string) : string :=
  match s with
  | EmptyString => EmptyString
  | String c s' =>
      match skip with
      | S k => replace_from old new k s'
      | O =>
          if String.prefix old s
          then new +:+ replace_from old new (String.length old - 1) s'
          else String c (replace_from old new 0 s')
      end
  end.

Definition replace (old new s : string) : string := replace_from old new 0 s.

(** [s.split(sep)] for a one-character separator. *)
Fixpoint split (sep : ascii) (s : string) : list string :=
  match s with
  | EmptyString => [EmptyString]
  | String c s' =>
      if Ascii.eqb c sep then EmptyString :: split sep s'
      else match split sep s' with
           | h :: t => String c h :: t
           | [] => [String c EmptyString]
           end
  end.

(** [s.split(sep)[-1]] *)
Definition last_segment (sep : ascii) (s : string) : string :=
  List.last (split sep s) EmptyString.

(** [sep.join(parts)] *)
Fixpoint join (sep : string) (parts : list string) : string :=
  match parts with
  | [] => EmptyString
  | [p] => p
  | p :: ps => p +:+ sep +:+ join sep ps
  end.

(** [c * n] for a one-character string *)
Fixpoint repeat_char (c : ascii) (n : nat) : string :=
  match n with
  | O => EmptyString
  | S k => String c (repeat_char c k)
  end.

(** Text read from a file opened in text mode: universal newlines turn
    CR LF and a lone CR into LF. *)
Fixpoint universal_newlines (s : string) : string :=
  match s with
  | EmptyString => EmptyString
  | String c s' =>
      if Ascii.eqb c "013"%char then
        match s' with
        | String d _ =>
            if Ascii.eqb d "010"%char then universal_newlines s'
            else String "010"%char (universal_newlines s')
        | EmptyString => nl
        end
      else String c (universal_newlines s')
  end.

(** [f.readlines()] on text: the lines, each with its terminating LF. *)
Fixpoint readlines (s : string) : list string :=
  match s with
  | EmptyString => []
  | String c s' =>
      if Ascii.eqb c "010"%char then nl :: readlines s'
      else match readlines s' with
           | h :: t => String c h :: t
           | [] => [String c EmptyString]
           end
  end.

(** [drop n s]: [s] without its first [n] characters. *)
Fixpoint drop (n : nat) (s : string) : string :=
  match n, s with
  | O, _ => s
  | S k, String _ s' => drop k s'
  | S _, EmptyString => EmptyString
  end.

End PyStr.

(** ** JSON documents and Python dictionaries *)

Local Set Warnings "-register-all".

(** JSON values as [json.loads] returns them and [json.dumps] takes them.
    Objects keep their keys in insertion order, as Python dictionaries do.
    Floating-point numbers are left out: no document handled here needs one. *)
Inductive json : Type :=
| JNull
| JBool (b : bool)
| JInt (z : Z)
| JStr (s : string)
| JArr (items : list json)
| JObj (fields : list (string * json)).

(** One constructor per kind of request the migrator sends: the routes of
    [fetch_tfc], [write_tfc], [fetch_scalr] and [write_scalr] it uses, the
    state download and the secret-store lookup of [get_workspace_secrets]. *)
Inductive Call : Type :=
| TfcListWorkspaces (org wildcard : string) (page : nat)
| TfcGetStateVersions (org ws_name : string)
| TfcGetVars (org ws_name : string)
| TfcDownload (url : string)
| TfcPost (route : string) (data : json)
| ScalrGetWorkspaces (name env : string)
| ScalrPost (route : string) (data : json)
| SsmGetParametersByPath (path : string).

(** What any step can raise. Every constructor is a subclass of Python's
    [Exception], so the handler of [migrate_workspaces] catches each of them. *)
Inductive exn : Type :=
| KeyError (key : string)
| ValueError (what : string)
| TypeError (what : string)
| FileNotFoundError (path : string)
| JSONDecodeError
| Base64Error
| UnsupportedVersion (version : string)
| CallFailed (c : Call) (err : string).

Module Dict.

(** [d[k]] on an insertion-ordered dictionary *)
Fixpoint get {V : Type} (k : string) (d : list (string * V)) : option V :=
  match d with
  | [] => None
  | (k', v) :: d' => if String.eqb k k' then Some v else get k d'
  end.

(** [d[k] = v]: an existing key keeps its position, a new key goes last. *)
Fixpoint set {V : Type} (k : string) (v : V) (d : list (string * V)) : list (string * V) :=
  match d with
  | [] => [(k, v)]
  | (k', v') :: d' => if String.eqb k k' then (k, v) :: d' else (k', v') :: set k v d'
  end.

End Dict.

Module Json.

(** [j[k]] for a string key: [KeyError] on a dictionary without the key,
    [TypeError] on anything that is not a dictionary. *)
Definition getitem (k : string) (j : json) : exn + json :=
  match j with
  | JObj d => match Dict.get k d with
              | Some v => inr v
              | None => inl (KeyError k)
              end
  | _ => inl (TypeError "string index on a value that is not a dictionary")
  end.

(** [j[p1]...[pn][k] = v] *)
Fixpoint setitem_at (path : list string) (k : string) (v : json) (j : json) : exn + json :=
  match path with
  | [] =>
      match j with
      | JObj d => inr (JObj (Dict.set k v d))
      | _ => inl (TypeError "item assignment on a value that is not a dictionary")
      end
  | p :: ps =>
      match j with
      | JObj d =>
          match Dict.get p d with
          | Some sub =>
              match setitem_at ps k v sub with
              | inr sub' => inr (JObj (Dict.set p sub' d))
              | inl e => inl e
              end
          | None => inl (KeyError p)
          end
      | _ => inl (TypeError "string index on a value that is not a dictionary")
      end
  end.

(** Reading along a path of keys, [None] when a key is missing. *)
Fixpoint lookup_path (path : list string) (j : json) : option json :=
  match path with
  | [] => Some j
  | p :: ps =>
      match j with
      | JObj d => match Dict.get p d with
                  | Some sub => lookup_path ps sub
                  | None => None
                  end
      | _ => None
      end
  end.

End Json.

(** ** Data model *)

(** The [vcs-repo] attribute of a source workspace, when it is not null. *)
Record VcsRepo : Type := {
  display_identifier : json
}.

(** A source workspace as one item of the listing's [data]. *)
Record TfWorkspace : Type := {
  ws_id : string;
  ws_name : string;
  ws_terraform_version : string;
  ws_locked : bool;
  ws_resource_count : Z;
  ws_auto_apply : json;
  ws_operations : json;
  ws_working_directory : json;
  ws_vcs_repo : option VcsRepo
}.

(** A state version of the source as the [state-versions] listing gives it. *)
Record TfStateVersion : Type := {
  sv_serial : json;
  sv_hosted_state_download_url : string
}.

(** A variable of the source as the [vars] listing gives it. *)
Record TfVar : Type := {
  var_key : string;
  var_value : json;
  var_category : json;
  var_sensitive : bool;
  var_description : json
}.

(** The fields [__init__] stores that the migration reads. [environments] is
    the dictionary [fetch_environments] returns (name to identifier, in
    insertion order); [cdktf_directories] is what [glob] finds under
    [projects/], from which [find_cdktf_paths] builds [cdktf_paths]. *)
Record Config : Type := {
  scalr_hostname : string;
  tf_organization : string;
  vcs_id : string;
  workspace_wildcard : string;
  lock : bool;
  ssm_prefix : string;
  environments : list (string * string);
  cdktf_directories : list string
}.

(** The account suffix of a workspace, as lines 152 and 322 compute it. *)
Definition account_of (tf_workspace : TfWorkspace) : string :=
  PyStr.last_segment "-" (ws_name tf_workspace).

(** ** Calls to the outside, and what the outside answers *)

(** The lines [tqdm.write] prints. *)
Inductive Message : Type :=
| SkippingUnsupportedVersion (name version : string)
| SkippingNoResources (name : string)
| AlreadyExists (name : string)
| FailedToMigrate (name : string) (e : exn).

(** The answers of the outside world. [fault n c] is the error text when the
    call [c], sent as the [n]-th call of the run, fails (a status outside the
    accepted ones, or a transport error); the listings are the [data] of the
    answers; [scalr_new_id route n] is the identifier the target backend
    gives the [n]-th resource created on [route]. *)
Record Outside : Type := {
  fault : nat -> Call -> option string;
  tfc_workspace_pages : list (list TfWorkspace);
  tfc_state_versions : string -> list TfStateVersion;
  tfc_vars : string -> list TfVar;
  tfc_download : string -> string;
  ssm_parameters : string -> list (string * string);
  scalr_new_id : string -> nat -> string
}.

(** Library functions the code calls and this development does not define:
    [s.lower()], [hashlib.md5(b).hexdigest()], [json.loads] ([None] for a
    decoding error) and [json.dumps(j, indent=2)]. *)
Record Library : Type := {
  str_lower : string -> string;
  md5_hexdigest : string -> string;
  json_loads : string -> option json;
  json_dumps_indent2 : json -> string
}.

(** Everything a run changes: the resources of the target backend, the
    source workspaces locked, the local files with the log of what was
    written to them, the set [migrated_cdktf_mains], the printed lines and
    the calls sent so far. *)
Record World : Type := {
  scalr_workspaces : list (string * json);
  scalr_state_versions : list json;
  scalr_vars : list json;
  tfc_posts : list (string * json);
  files : gmap string string;
  file_writes : list (string * string);
  migrated_cdktf_mains : gset string;
  out : list Message;
  trace : list Call
}.

Definition set_scalr_workspaces (f : list (string * json) -> list (string * json)) (W : World) : World :=
  {| scalr_workspaces := f (scalr_workspaces W);
     scalr_state_versions := scalr_state_versions W;
     scalr_vars := scalr_vars W;
     tfc_posts := tfc_posts W;
     files := files W;
     file_writes := file_writes W;
     migrated_cdktf_mains := migrated_cdktf_mains W;
     out := out W;
     trace := trace W |}.

Definition set_scalr_state_versions (f : list json -> list json) (W : World) : World :=
  {| scalr_workspaces := scalr_workspaces W;
     scalr_state_versions := f (scalr_state_versions W);
     scalr_vars := scalr_vars W;
     tfc_posts := tfc_posts W;
     files := files W;
     file_writes := file_writes W;
     migrated_cdktf_mains := migrated_cdktf_mains W;
     out := out W;
     trace := trace W |}.

Definition set_scalr_vars (f : list json -> list json) (W : World) : World :=
  {| scalr_workspaces := scalr_workspaces W;
     scalr_state_versions := scalr_state_versions W;
     scalr_vars := f (scalr_vars W);
     tfc_posts := tfc_posts W;
     files := files W;
     file_writes := file_writes W;
     migrated_cdktf_mains := migrated_cdktf_mains W;
     out := out W;
     trace := trace W |}.

Definition set_tfc_posts (f : list (string * json) -> list (string * json)) (W : World) : World :=
  {| scalr_workspaces := scalr_workspaces W;
     scalr_state_versions := scalr_state_versions W;
     scalr_vars := scalr_vars W;
     tfc_posts := f (tfc_posts W);
     files := files W;
     file_writes := file_writes W;
     migrated_cdktf_mains := migrated_cdktf_mains W;
     out := out W;
     trace := trace W |}.

Definition set_files (f : gmap string string -> gmap string string) (W : World) : World :=
  {| scalr_workspaces := scalr_workspaces W;
     scalr_state_versions := scalr_state_versions W;
     scalr_vars := scalr_vars W;
     tfc_posts := tfc_posts W;
     files := f (files W);
     file_writes := file_writes W;
     migrated_cdktf_mains := migrated_cdktf_mains W;
     out := out W;
     trace := trace W |}.

Definition set_file_writes (f : list (string * string) -> list (string * string)) (W : World) : World :=
  {| scalr_workspaces := scalr_workspaces W;
     scalr_state_versions := scalr_state_versions W;
     scalr_vars := scalr_vars W;
     tfc_posts := tfc_posts W;
     files := files W;
     file_writes := f (file_writes W);
     migrated_cdktf_mains := migrated_cdktf_mains W;
     out := out W;
     trace := trace W |}.

Definition set_migrated_cdktf_mains (f : gset string -> gset string) (W : World) : World :=
  {| scalr_workspaces := scalr_workspaces W;
     scalr_state_versions := scalr_state_versions W;
     scalr_vars := scalr_vars W;
     tfc_posts := tfc_posts W;
     files := files W;
     file_writes := file_writes W;
     migrated_cdktf_mains := f (migrated_cdktf_mains W);
     out := out W;
     trace := trace W |}.

Definition set_out (f : list Message -> list Message) (W : World) : World :=
  {| scalr_workspaces := scalr_workspaces W;
     scalr_state_versions := scalr_state_versions W;
     scalr_vars := scalr_vars W;
     tfc_posts := tfc_posts W;
     files := files W;
     file_writes := file_writes W;
     migrated_cdktf_mains := migrated_cdktf_mains W;
     out := f (out W);
     trace := trace W |}.

Definition set_trace (f : list Call -> list Call) (W : World) : World :=
  {| scalr_workspaces := scalr_workspaces W;
     scalr_state_versions := scalr_state_versions W;
     scalr_vars := scalr_vars W;
     tfc_posts := tfc_posts W;
     files := files W;
     file_writes := file_writes W;
     migrated_cdktf_mains := migrated_cdktf_mains W;
     out := out W;
     trace := f (trace W) |}.

(** ** Computations that change the world and may raise *)

Definition M (A : Type) : Type := World -> (exn + A) * World.

Definition ret {A : Type} (a : A) : M A := fun W => (inr a, W).

Definition raise {A : Type} (e : exn) : M A := fun W => (inl e, W).

Definition bind {A B : Type} (m : M A) (f : A -> M B) : M B :=
  fun W => match m W with
           | (inr a, W') => f a W'
           | (inl e, W') => (inl e, W')
           end.

(** [try: m except Exception as e: h e] *)
Definition try_except {A : Type} (m : M A) (h : exn -> M A) : M A :=
  fun W => match m W with
           | (inr a, W') => (inr a, W')
           | (inl e, W') => h e W'
           end.

Definition lift {A : Type} (r : exn + A) : M A := fun W => (r, W).

Definition get_world : M World := fun W => (inr W, W).

Definition modify (f : World -> World) : M unit := fun W => (inr tt, f W).

Declare Scope migr_scope.
Delimit Scope migr_scope with migr.
Notation "x <- m ; k" := (bind m (fun x => k))
  (at level 20, m at level 100, k at level 200, only parsing) : migr_scope.
Local Open Scope migr_scope.

(** [tqdm.write(...)] *)
Definition write_line (m : Message) : M unit := modify (set_out (fun o => (o ++ [m])%list)).

(** ** Base64 as [binascii] does it *)

Module Base64.

Definition alphabet : string :=
  "ABCDEFGHIJKLMNOPQRSTUVWXYZabcdefghijklmnopqrstuvwxyz0123456789+/".

Definition pad : ascii := "="%char.

(** The character of a six-bit value. *)
Definition b2a_char (v : N) : ascii :=
  match String.get (N.to_nat v) alphabet with
  | Some c => c
  | None => pad
  end.

Fixpoint find_char (c : ascii) (s : string) (i : N) : option N :=
  match s with
  | EmptyString => None
  | String d s' => if Ascii.eqb c d then Some i else find_char c s' (N.succ i)
  end.

(** The six-bit value of a character, [None] outside the alphabet. *)
Definition a2b_char (c : ascii) : option N := find_char c alphabet 0%N.

Definition chr (n : N) : string := String (ascii_of_N n) EmptyString.

(** Three bytes give four characters; a last group of one or two bytes is
    padded with [=]. *)
Fixpoint encode (data : string) : string :=
  match data with
  | String a (String b (String c rest)) =>
      let x := N_of_ascii a in
      let y := N_of_ascii b in
      let z := N_of_ascii c in
      String (b2a_char (N.shiftr x 2))
        (String (b2a_char (N.lor (N.shiftl (N.land x 3) 4) (N.shiftr y 4)))
           (String (b2a_char (N.lor (N.shiftl (N.land y 15) 2) (N.shiftr z 6)))
              (String (b2a_char (N.land z 63)) (encode rest))))
  | String a (String b EmptyString) =>
      let x := N_of_ascii a in
      let y := N_of_ascii b in
      String (b2a_char (N.shiftr x 2))
        (String (b2a_char (N.lor (N.shiftl (N.land x 3) 4) (N.shiftr y 4)))
           (String (b2a_char (N.shiftl (N.land y 15) 2))
              (String pad EmptyString)))
  | String a EmptyString =>
      let x := N_of_ascii a in
      String (b2a_char (N.shiftr x 2))
        (String (b2a_char (N.shiftl (N.land x 3) 4))
           (String pad (String pad EmptyString)))
  | EmptyString => EmptyString
  end.

(** [binascii.b2a_base64(data)]: the encoding followed by a newline. *)
Definition b2a_base64 (data : string) : string := encode data +:+ PyStr.nl.

(** The scan of [binascii.a2b_base64] in its default mode: characters outside
    the alphabet are skipped, [quad_pos] counts the characters of the current
    group of four, [leftchar] holds the bits not yet written, and a run of
    [=] that completes a group ends the data. A group left incomplete at the
    end is an error. *)
Fixpoint decode (s : string) (quad_pos : nat) (leftchar : N) (pads : nat) : option string :=
  match s with
  | EmptyString =>
      match quad_pos with
      | O => Some EmptyString
      | _ => None
      end
  | String c s' =>
      if Ascii.eqb c pad then
        if (2 <=? quad_pos)%nat then
          if (4 <=? quad_pos + S pads)%nat then Some EmptyString
          else decode s' quad_pos leftchar (S pads)
        else decode s' quad_pos leftchar pads
      else
        match a2b_char c with
        | None => decode s' quad_pos leftchar pads
        | Some v =>
            match quad_pos with
            | 0%nat => decode s' 1%nat v 0%nat
            | 1%nat =>
                option_map (String (ascii_of_N (N.lor (N.shiftl leftchar 2) (N.shiftr v 4))))
                  (decode s' 2%nat (N.land v 15) 0%nat)
            | 2%nat =>
                option_map (String (ascii_of_N (N.lor (N.shiftl leftchar 4) (N.shiftr v 2))))
                  (decode s' 3%nat (N.land v 3) 0%nat)
            | _ =>
                option_map (String (ascii_of_N (N.lor (N.shiftl leftchar 6) v)))
                  (decode s' 0%nat 0%N 0%nat)
            end
        end
  end.

(** [binascii.a2b_base64(s)], [None] for [binascii.Error]. *)
Definition a2b_base64 (s : string) : option string := decode s 0%nat 0%N 0%nat.

End Base64.

(** Checks run over all byte values, for the arithmetic of [Base64]. *)

Module Base64Check.

Import Base64.

Definition below (n : nat) : list N := map N.of_nat (seq 0 n).

Definition for_bytes (P : N -> N -> bool) : bool :=
  forallb (fun x => forallb (P x) (below 256)) (below 256).

(** A six-bit value is read back from its character, which is not [=]. *)
Definition char_ok (v : N) : bool :=
  match a2b_char (b2a_char v) with
  | Some v' => N.eqb v' v
  | None => false
  end && negb (Ascii.eqb (b2a_char v) pad).

(** The six-bit values of a group of three bytes [x], [y], [z]. *)
Definition sextet0 (x : N) : N := N.shiftr x 2.
Definition sextet1 (x y : N) : N := N.lor (N.shiftl (N.land x 3) 4) (N.shiftr y 4).
Definition sextet2 (y z : N) : N := N.lor (N.shiftl (N.land y 15) 2) (N.shiftr z 6).
Definition sextet3 (z : N) : N := N.land z 63.

Definition single_ok (x _ : N) : bool :=
  (sextet0 x <? 64)%N && (sextet3 x <? 64)%N
  && (N.shiftl (N.land x 3) 4 <? 64)%N && (N.shiftl (N.land x 15) 2 <? 64)%N
  && N.eqb (N.lor (N.shiftl (sextet0 x) 2) (N.shiftr (N.shiftl (N.land x 3) 4) 4)) x
  && N.eqb (N.shiftr (N.shiftl (N.land x 15) 2) 2) (N.land x 15)
  && N.eqb (N.lor (N.shiftl (N.shiftr x 4) 4) (N.land x 15)) x
  && N.eqb (N.lor (N.shiftl (N.shiftr x 6) 6) (sextet3 x)) x.

Definition first_pair_ok (x y : N) : bool :=
  (sextet1 x y <? 64)%N
  && N.eqb (N.lor (N.shiftl (sextet0 x) 2) (N.shiftr (sextet1 x y) 4)) x
  && N.eqb (N.land (sextet1 x y) 15) (N.shiftr y 4).

Definition second_pair_ok (y z : N) : bool :=
  (sextet2 y z <? 64)%N
  && N.eqb (N.shiftr (sextet2 y z) 2) (N.land y 15)
  && N.eqb (N.land (sextet2 y z) 3) (N.shiftr z 6).

End Base64Check.

(** ** Python list operations used by [migrate_cdktf] *)

Module PyList.

(** [l.index(x)], [None] for [ValueError] *)
Fixpoint index (x : string) (l : list string) : option nat :=
  match l with
  | [] => None
  | y :: l' => if String.eqb x y then Some 0%nat else option_map S (index x l')
  end.

(** [l.insert(i, x)] *)
Definition insert (i : nat) (x : string) (l : list string) : list string :=
  (firstn i l ++ x :: skipn i l)%list.

End PyList.

(** ** The class [Migrator] *)

Section Migrator.

Variable cfg : Config.
Variable outside : Outside.
Variable lib : Library.

(** A request: it is appended to the calls sent, and raises when the outside
    makes it fail. *)
Definition request (c : Call) : M unit :=
  fun W =>
    let W' := set_trace (fun t => (t ++ [c])%list) W in
    match fault outside (List.length (trace W)) c with
    | Some err => (inl (CallFailed c err), W')
    | None => (inr tt, W')
    end.

(** [self.environments[account]] *)
Definition environment_of (account : string) : M string :=
  match Dict.get account (environments cfg) with
  | Some env => ret env
  | None => raise (KeyError account)
  end.

(** [find_cdktf_paths]: the directory of each project, under the lower-cased
    last segment of its path. *)
Definition find_cdktf_paths (directories : list string) : gmap string string :=
  fold_left (fun paths directory =>
               <[str_lower lib (PyStr.last_segment "/" directory) := directory]> paths)
    directories ∅.

Definition cdktf_paths : gmap string string := find_cdktf_paths (cdktf_directories cfg).

(** [self.cdktf_paths[projectName]] *)
Definition cdktf_path_of (project : string) : M string :=
  match cdktf_paths !! project with
  | Some dir => ret dir
  | None => raise (KeyError project)
  end.

(** *** The target backend *)

(** The name and the environment a workspace document was created with. *)
Definition document_matches (name env : string) (doc : json) : bool :=
  match Json.lookup_path ["data"; "attributes"; "name"] doc,
        Json.lookup_path ["data"; "relationships"; "environment"; "data"; "id"] doc with
  | Some (JStr n), Some (JStr e) => String.eqb n name && String.eqb e env
  | _, _ => false
  end.

(** The [data] the target answers to the [workspaces] listing filtered by
    name and environment. *)
Definition scalr_find (name env : string) (store : list (string * json)) : list (string * json) :=
  List.filter (fun item => document_matches name env (snd item)) store.

(** [self.fetch_scalr("workspaces", {"filter[name]": name,
    "filter[environment]": env})["data"]] *)
Definition fetch_scalr_workspaces (name env : string) : M (list (string * json)) :=
  _ <- request (ScalrGetWorkspaces name env);
  W <- get_world;
  ret (scalr_find name env (scalr_workspaces W)).

(** [self.write_scalr(route, data)]: the target stores the document and the
    value returned is the identifier in its answer, the one part of the
    answer the callers read. *)
Definition write_scalr (route : string) (data : json) : M string :=
  _ <- request (ScalrPost route data);
  W <- get_world;
  if String.eqb route "workspaces" then
    let id := scalr_new_id outside route (List.length (scalr_workspaces W)) in
    _ <- modify (set_scalr_workspaces (fun l => (l ++ [(id, data)])%list));
    ret id
  else if String.eqb route "state-versions" then
    let id := scalr_new_id outside route (List.length (scalr_state_versions W)) in
    _ <- modify (set_scalr_state_versions (fun l => (l ++ [data])%list));
    ret id
  else if String.eqb route "vars" then
    let id := scalr_new_id outside route (List.length (scalr_vars W)) in
    _ <- modify (set_scalr_vars (fun l => (l ++ [data])%list));
    ret id
  else ret EmptyString.

(** [self.write_tfc(route, data)]; the one route used locks a workspace. *)
Definition write_tfc (route : string) (data : json) : M unit :=
  _ <- request (TfcPost route data);
  modify (set_tfc_posts (fun l => (l ++ [(route, data)])%list)).

(** *** [create_workspace] *)

Definition environment_relationship (env : string) : string * json :=
  ("environment", JObj [("data", JObj [("type", JStr "environments"); ("id", JStr env)])]).

Definition vcs_repo_attribute (tf_workspace : TfWorkspace) (repo : VcsRepo) : string * json :=
  ("vcs-repo", JObj [("identifier", display_identifier repo);
                     ("branch", JStr "main");
                     ("dry-runs-enabled", JBool false);
                     ("trigger-prefixes", JArr [ws_working_directory tf_workspace])]).

Definition vcs_provider_relationship : string * json :=
  ("vcs-provider", JObj [("data", JObj [("type", JStr "vcs-providers"); ("id", JStr (vcs_id cfg))])]).

(** The document [create_workspace] posts, for the environment [env]. *)
Definition workspace_document (tf_workspace : TfWorkspace) (env : string) : json :=
  let attributes :=
    [("deletion-protection-enabled", JBool true);
     ("name", JStr (ws_name tf_workspace));
     ("auto-apply", ws_auto_apply tf_workspace);
     ("operations", ws_operations tf_workspace);
     ("terraform-version", JStr (ws_terraform_version tf_workspace));
     ("working-directory", ws_working_directory tf_workspace)] in
  let relationships := [environment_relationship env] in
  match ws_vcs_repo tf_workspace with
  | Some repo =>
      JObj [("data", JObj [("type", JStr "workspaces");
                           ("attributes", JObj (attributes ++ [vcs_repo_attribute tf_workspace repo])%list);
                           ("relationships", JObj (relationships ++ [vcs_provider_relationship])%list)])]
  | None =>
      JObj [("data", JObj [("type", JStr "workspaces");
                           ("attributes", JObj attributes);
                           ("relationships", JObj relationships)])]
  end.

Definition create_workspace (tf_workspace : TfWorkspace) : M string :=
  let name := ws_name tf_workspace in
  let account := PyStr.last_segment "-" name in
  env <- environment_of account;
  let terraform_version := ws_terraform_version tf_workspace in
  if PyStr.gt terraform_version "1.5.7"
  then raise (UnsupportedVersion terraform_version)
  else write_scalr "workspaces" (workspace_document tf_workspace env).

(** *** [create_state] and [migrate_state] *)

(** [raw_state.json()["lineage"]] *)
Definition lineage_of (content : string) : M json :=
  match json_loads lib content with
  | Some j => lift (Json.getitem "lineage" j)
  | None => raise JSONDecodeError
  end.

Definition state_version_document (serial : json) (md5 : string) (lineage : json)
    (state : string) (workspace_id : string) : json :=
  JObj [("data", JObj [("type", JStr "state-versions");
                       ("attributes", JObj [("serial", serial);
                                            ("md5", JStr md5);
                                            ("lineage", lineage);
                                            ("state", JStr state)]);
                       ("relationships",
                        JObj [("workspace",
                               JObj [("data", JObj [("type", JStr "workspaces");
                                                    ("id", JStr workspace_id)])])])])].

Definition create_state (tfc_state : TfStateVersion) (workspace_id : string) : M string :=
  let url := sv_hosted_state_download_url tfc_state in
  _ <- request (TfcDownload url);
  let content := tfc_download outside url in
  let encoded_state := Base64.b2a_base64 content in
  match Base64.a2b_base64 encoded_state with
  | None => raise Base64Error
  | Some decoded =>
      let md5 := md5_hexdigest lib decoded in
      lineage <- lineage_of content;
      write_scalr "state-versions"
        (state_version_document (sv_serial tfc_state) md5 lineage encoded_state workspace_id)
  end.

Fixpoint create_states (states : list TfStateVersion) (workspace_id : string) : M unit :=
  match states with
  | [] => ret tt
  | tf_state :: rest =>
      _ <- create_state tf_state workspace_id;
      create_states rest workspace_id
  end.

Definition migrate_state (workspace_id workspace_name : string) : M unit :=
  _ <- request (TfcGetStateVersions (tf_organization cfg) workspace_name);
  create_states (tfc_state_versions outside workspace_name) workspace_id.

(** *** [get_workspace_secrets], [create_variable] and [migrate_variables] *)

(** The dictionary [get_workspace_secrets] builds from the parameters found
    under [path]: the last segment of each name, with its value. *)
Definition secrets_under (path : string) : gmap string string :=
  fold_left (fun secrets param => <[PyStr.last_segment "/" (fst param) := snd param]> secrets)
    (ssm_parameters outside path) ∅.

Definition get_workspace_secrets (workspace_name : string) : M (gmap string string) :=
  let path := ssm_prefix cfg +:+ "/" +:+ workspace_name in
  _ <- request (SsmGetParametersByPath path);
  ret (secrets_under path).

Definition workspace_relationship (workspace_id : string) : json :=
  JObj [("workspace", JObj [("data", JObj [("type", JStr "workspaces"); ("id", JStr workspace_id)])])].

Definition variable_document (variable_key : string) (value category : json) (sensitive : bool)
    (description relationships : json) : json :=
  JObj [("data", JObj [("type", JStr "vars");
                       ("attributes", JObj [("key", JStr variable_key);
                                            ("value", value);
                                            ("category", category);
                                            ("sensitive", JBool sensitive);
                                            ("description", description)]);
                       ("relationships", relationships)])].

Definition create_variable (variable_key : string) (value category : json) (sensitive : bool)
    (description relationships : json) : M unit :=
  _ <- write_scalr "vars"
         (variable_document variable_key value category sensitive description relationships);
  ret tt.

(** One turn of the loop over [tfc_vars]. *)
Definition migrate_variable (secrets : gmap string string) (relationships : json)
    (api_var : TfVar) : M unit :=
  if negb (var_sensitive api_var) then
    create_variable (var_key api_var) (var_value api_var) (var_category api_var) false
      (var_description api_var) relationships
  else
    let name := var_key api_var in
    match secrets !! name with
    | None => raise (KeyError name)
    | Some secret =>
        create_variable name (JStr secret) (var_category api_var) true
          (var_description api_var) relationships
    end.

Fixpoint migrate_variable_list (secrets : gmap string string) (relationships : json)
    (tfc_vars : list TfVar) : M unit :=
  match tfc_vars with
  | [] => ret tt
  | api_var :: rest =>
      _ <- migrate_variable secrets relationships api_var;
      migrate_variable_list secrets relationships rest
  end.

Definition migrate_variables (workspace_id workspace_name : string) : M unit :=
  let relationships := workspace_relationship workspace_id in
  _ <- request (TfcGetVars (tf_organization cfg) workspace_name);
  let tfc_vars := tfc_vars outside workspace_name in
  secrets <- (if existsb var_sensitive tfc_vars
              then get_workspace_secrets workspace_name
              else ret ∅);
  migrate_variable_list secrets relationships tfc_vars.

(** *** [lock_tfc_workspace] *)

Definition lock_tfc_workspace (tf_workspace : TfWorkspace) : M unit :=
  if lock cfg && negb (ws_locked tf_workspace)
  then write_tfc ("workspaces/" +:+ ws_id tf_workspace +:+ "/actions/lock")
         (JObj [("reason", JStr "Locked by migrator")])
  else ret tt.

(** *** [migrate_cdktf] *)

Definition js_environments : list string :=
  map (fun kv => PyStr.repeat_char " " 8 +:+ fst kv +:+ ": '" +:+ snd kv +:+ "',")
    (environments cfg).

(** The fragment written into [main.ts]. *)
Definition inject_js : string :=
  PyStr.join PyStr.nl
    [EmptyString;
     "// THIS IS A TEMPORARY INJECTION";
     "app.node.children.forEach((stack) => {";
     "    const scalrEnvironments = {";
     PyStr.join PyStr.nl js_environments;
     "    }";
     "    const infraStack = stack as InfraStack";
     "    const environment = scalrEnvironments[infraStack.configuration.awsConfiguration.accountLabel]";
     "    infraStack.addOverride('terraform.backend.remote.hostname', '" +:+ scalr_hostname cfg +:+ "')";
     "    infraStack.addOverride('terraform.backend.remote.organization', environment)";
     "})";
     "// END OF TEMPORARY INJECTION";
     EmptyString].

Definition synth_line : string := "app.synth()".

(** [open(path, "r+")]: the bytes of the file, [FileNotFoundError] without it. *)
Definition open_rplus (path : string) : M string :=
  W <- get_world;
  match files W !! path with
  | Some raw => ret raw
  | None => raise (FileNotFoundError path)
  end.

(** What a file holding [raw] holds after [f.seek(0, 0); f.write(text)]:
    the text, then whatever of the old content lies beyond it. *)
Definition overwrite (raw text : string) : string :=
  text +:+ PyStr.drop (String.length text) raw.

(** [f.seek(0, 0); f.write(text)] on the file opened at [path] *)
Definition write_from_start (path raw text : string) : M unit :=
  modify (fun W => set_file_writes (fun l => (l ++ [(path, text)])%list)
                     (set_files (fun fs => <[path := overwrite raw text]> fs) W)).

(** The index of the marker line: [content.index("app.synth()\n")], and
    when that raises, [content.index("app.synth()")]. *)
Definition find_synth_index (content : list string) : M nat :=
  match PyList.index (synth_line +:+ PyStr.nl) content with
  | Some i => ret i
  | None =>
      match PyList.index synth_line content with
      | Some i => ret i
      | None => raise (ValueError "'app.synth()' is not in list")
      end
  end.

(** The first [with] block: the fragment goes into [main.ts]. *)
Definition inject_main_ts (projectName : string) : M unit :=
  dir <- cdktf_path_of projectName;
  let path := dir +:+ "/main.ts" in
  raw <- open_rplus path;
  let content := PyStr.readlines (PyStr.universal_newlines raw) in
  synth_index <- find_synth_index content;
  write_from_start path raw (PyStr.join EmptyString (PyList.insert synth_index inject_js content)).

(** The second [with] block: the generated [cdk.tf.json] is patched. *)
Definition patch_cdk_tf_json (projectName envName accountLabel : string) : M unit :=
  dir <- cdktf_path_of projectName;
  let path := dir +:+ "/cdktf.out/stacks/" +:+ envName +:+ "-" +:+ accountLabel +:+ "/cdk.tf.json" in
  raw <- open_rplus path;
  match json_loads lib (PyStr.universal_newlines raw) with
  | None => raise JSONDecodeError
  | Some cdktf =>
      cdktf1 <- lift (Json.setitem_at ["terraform"; "backend"; "remote"] "hostname"
                        (JStr (scalr_hostname cfg)) cdktf);
      env <- environment_of accountLabel;
      cdktf2 <- lift (Json.setitem_at ["terraform"; "backend"; "remote"] "organization"
                        (JStr env) cdktf1);
      cdktf3 <- lift (Json.setitem_at ["//"; "metadata"] "overrides"
                        (JObj [("stack", JArr [JStr "terraform"])]) cdktf2);
      write_from_start path raw (json_dumps_indent2 lib cdktf3)
  end.

Definition migrate_cdktf (workspace_name : string) : M unit :=
  match PyStr.split "-" workspace_name with
  | [projectName; envName; accountLabel] =>
      W <- get_world;
      _ <- (if decide (projectName ∈ migrated_cdktf_mains W) then ret tt
            else
              _ <- inject_main_ts projectName;
              modify (set_migrated_cdktf_mains (fun done => done ∪ {[projectName]})));
      patch_cdk_tf_json projectName envName accountLabel
  | _ => raise (ValueError "unpacking needs exactly 3 values")
  end.

(** *** [migrate_workspaces] *)

(** The first loop: every page of the listing, in order. The source answers
    page [page] with the first element of [pages] and announces a next page
    as long as one is left. *)
Fixpoint fetch_workspace_pages (page : nat) (pages : list (list TfWorkspace))
    : M (list TfWorkspace) :=
  _ <- request (TfcListWorkspaces (tf_organization cfg) (workspace_wildcard cfg) page);
  match pages with
  | [] => ret []
  | data :: more =>
      match more with
      | [] => ret data
      | _ :: _ =>
          rest <- fetch_workspace_pages (S page) more;
          ret (data ++ rest)%list
      end
  end.

(** The version test of the loop: the version without [~>] against the
    ceiling, as strings. *)
Definition version_unsupported (terraform_version : string) : bool :=
  PyStr.gt (PyStr.replace "~>" "" terraform_version) "1.5.7".

(** A workspace the loop does not skip. *)
Definition eligible (tf_workspace : TfWorkspace) : bool :=
  negb (version_unsupported (ws_terraform_version tf_workspace))
  && negb (ws_locked tf_workspace)
  && negb (ws_resource_count tf_workspace =? 0)%Z.

(** Lines 336 to 340: what the [try] block does for a workspace the target
    does not have yet. *)
Definition migrate_new (tf_workspace : TfWorkspace) (workspace_name : string) : M unit :=
  workspace_id <- create_workspace tf_workspace;
  _ <- migrate_state workspace_id workspace_name;
  _ <- migrate_variables workspace_id workspace_name;
  _ <- lock_tfc_workspace tf_workspace;
  migrate_cdktf workspace_name.

(** The body of the second loop for one workspace. *)
Definition migrate_one (tf_workspace : TfWorkspace) : M unit :=
  let terraform_version := ws_terraform_version tf_workspace in
  if version_unsupported terraform_version then
    write_line (SkippingUnsupportedVersion (ws_name tf_workspace) terraform_version)
  else if ws_locked tf_workspace then ret tt
  else if (ws_resource_count tf_workspace =? 0)%Z then
    write_line (SkippingNoResources (ws_name tf_workspace))
  else
    let workspace_name := ws_name tf_workspace in
    let account := PyStr.last_segment "-" workspace_name in
    env <- environment_of account;
    workspace_exists <- fetch_scalr_workspaces workspace_name env;
    try_except
      (match workspace_exists with
       | _ :: _ => write_line (AlreadyExists workspace_name)
       | [] => migrate_new tf_workspace workspace_name
       end)
      (fun e => write_line (FailedToMigrate workspace_name e)).

Fixpoint migrate_loop (workspaces : list TfWorkspace) : M unit :=
  match workspaces with
  | [] => ret tt
  | tf_workspace :: rest =>
      _ <- migrate_one tf_workspace;
      migrate_loop rest
  end.

Definition migrate_workspaces : M unit :=
  workspaces <- fetch_workspace_pages 1 (tfc_workspace_pages outside);
  migrate_loop workspaces.

End Migrator.

(** The world a run starts in: a target holding [existing] workspaces, the
    local [files], and what [__init__] sets up. *)
Definition initial_world (existing : list (string * json)) (fs : gmap string string) : World :=
  {| scalr_workspaces := existing;
     scalr_state_versions := [];
     scalr_vars := [];
     tfc_posts := [];
     files := fs;
     file_writes := [];
     migrated_cdktf_mains := ∅;
     out := [];
     trace := [] |}.

(** ** JSON text

    [json.dumps(j, indent=2)] and [json.loads] on the documents of this
    development: ASCII text, integers as the only numbers. They give
    [Library] its JSON functions wherever a concrete run is evaluated; the
    properties of the migrator are proved for any [Library]. *)

Module JsonText.

Definition dq : ascii := "034"%char.
Definition quote : string := String dq EmptyString.

Definition hex_digit (n : N) : ascii :=
  match String.get (N.to_nat n) "0123456789abcdef" with
  | Some c => c
  | None => "0"%char
  end.

(** The escapes [json.dumps] writes inside a string. *)
Fixpoint escape (s : string) : string :=
  match s with
  | EmptyString => EmptyString
  | String c s' =>
      let n := N_of_ascii c in
      (if Ascii.eqb c dq then String "\" quote
       else if Ascii.eqb c "\" then "\\"
       else if Ascii.eqb c "010" then "\n"
       else if Ascii.eqb c "013" then "\r"
       else if Ascii.eqb c "009" then "\t"
       else if Ascii.eqb c "008" then "\b"
       else if Ascii.eqb c "012" then "\f"
       else if (n <? 32)%N
            then "\u00" +:+ String (hex_digit (N.shiftr n 4)) (String (hex_digit (N.land n 15)) EmptyString)
            else String c EmptyString) +:+ escape s'
  end.

Definition dumps_string (s : string) : string := quote +:+ escape s +:+ quote.

Definition indentation (level : nat) : string := PyStr.repeat_char " " (2 * level).

(** [json.dumps(j, indent=2)], [level] being the depth of [j]. *)
Fixpoint dumps_at (level : nat) (j : json) : string :=
  match j with
  | JNull => "null"
  | JBool true => "true"
  | JBool false => "false"
  | JInt z => pretty z
  | JStr s => dumps_string s
  | JArr [] => "[]"
  | JArr items =>
      "[" +:+ PyStr.nl
      +:+ PyStr.join ("," +:+ PyStr.nl)
            (map (fun item => indentation (S level) +:+ dumps_at (S level) item) items)
      +:+ PyStr.nl +:+ indentation level +:+ "]"
  | JObj [] => "{}"
  | JObj fields =>
      "{" +:+ PyStr.nl
      +:+ PyStr.join ("," +:+ PyStr.nl)
            (map (fun kv => indentation (S level) +:+ dumps_string (fst kv) +:+ ": "
                            +:+ dumps_at (S level) (snd kv)) fields)
      +:+ PyStr.nl +:+ indentation level +:+ "}"
  end.

Definition dumps_indent2 (j : json) : string := dumps_at 0 j.

Definition is_space (c : ascii) : bool :=
  Ascii.eqb c " " || Ascii.eqb c "010" || Ascii.eqb c "013" || Ascii.eqb c "009".

Fixpoint skip_space (s : string) : string :=
  match s with
  | String c s' => if is_space c then skip_space s' else s
  | EmptyString => EmptyString
  end.

Definition digit_value (c : ascii) : option Z :=
  let n := N_of_ascii c in
  if (48 <=? n)%N && (n <=? 57)%N then Some (Z.of_N n - 48)%Z else None.

Definition hex_value (c : ascii) : option N :=
  let n := N_of_ascii c in
  if (48 <=? n)%N && (n <=? 57)%N then Some (n - 48)%N
  else if (97 <=? n)%N && (n <=? 102)%N then Some (n - 87)%N
  else if (65 <=? n)%N && (n <=? 70)%N then Some (n - 55)%N
  else None.

(** The characters of a string after its opening quote, and what follows
    the closing one. Escapes of code points beyond ASCII are not read. *)
Fixpoint loads_string (s : string) : option (string * string) :=
  match s with
  | EmptyString => None
  | String c s' =>
      if Ascii.eqb c dq then Some (EmptyString, s')
      else if Ascii.eqb c "\" then
        match s' with
        | String e s'' =>
            let simple (r : ascii) :=
              option_map (fun p => (String r (fst p), snd p)) (loads_string s'') in
            if Ascii.eqb e dq then simple dq
            else if Ascii.eqb e "\" then simple "\"%char
            else if Ascii.eqb e "/" then simple "/"%char
            else if Ascii.eqb e "n" then simple "010"%char
            else if Ascii.eqb e "r" then simple "013"%char
            else if Ascii.eqb e "t" then simple "009"%char
            else if Ascii.eqb e "b" then simple "008"%char
            else if Ascii.eqb e "f" then simple "012"%char
            else if Ascii.eqb e "u" then
              match s'' with
              | String h1 (String h2 (String h3 (String h4 s3))) =>
                  match hex_value h1, hex_value h2, hex_value h3, hex_value h4 with
                  | Some 0%N, Some 0%N, Some a, Some b =>
                      if (a <? 8)%N
                      then option_map (fun p => (String (ascii_of_N (16 * a + b)) (fst p), snd p))
                             (loads_string s3)
                      else None
                  | _, _, _, _ => None
                  end
              | _ => None
              end
            else None
        | EmptyString => None
        end
      else if (N_of_ascii c <? 32)%N then None
      else option_map (fun p => (String c (fst p), snd p)) (loads_string s')
  end.

(** The digits at the head of [s], read after the value [acc]. *)
Fixpoint loads_digits (acc : Z) (s : string) : Z * string :=
  match s with
  | String c s' =>
      match digit_value c with
      | Some d => loads_digits (10 * acc + d)%Z s'
      | None => (acc, s)
      end
  | EmptyString => (acc, s)
  end.

(** An integer: a lone [0], or digits that do not start with [0]; a
    fraction or an exponent is not read. *)
Definition loads_natural (s : string) : option (Z * string) :=
  match s with
  | String c s' =>
      match digit_value c with
      | Some 0%Z => Some (0%Z, s')
      | Some d => Some (loads_digits d s')
      | None => None
      end
  | EmptyString => None
  end.

Definition no_fraction (s : string) : bool :=
  match s with
  | String c _ => negb (Ascii.eqb c "." || Ascii.eqb c "e" || Ascii.eqb c "E")
  | EmptyString => true
  end.

Definition strip (p s : string) : option string :=
  if String.prefix p s then Some (PyStr.drop (String.length p) s) else None.

Fixpoint loads_value (fuel : nat) (s : string) {struct fuel} : option (json * string) :=
  match fuel with
  | O => None
  | S fuel' =>
      match skip_space s with
      | EmptyString => None
      | String c rest as s0 =>
          if Ascii.eqb c "{" then
            match skip_space rest with
            | String "}" rest' => Some (JObj [], rest')
            | _ => loads_members fuel' rest []
            end
          else if Ascii.eqb c "[" then
            match skip_space rest with
            | String "]" rest' => Some (JArr [], rest')
            | _ => loads_items fuel' rest []
            end
          else if Ascii.eqb c dq then
            option_map (fun p => (JStr (fst p), snd p)) (loads_string rest)
          else if Ascii.eqb c "t" then option_map (pair (JBool true)) (strip "true" s0)
          else if Ascii.eqb c "f" then option_map (pair (JBool false)) (strip "false" s0)
          else if Ascii.eqb c "n" then option_map (pair JNull) (strip "null" s0)
          else if Ascii.eqb c "-" then
            match loads_natural rest with
            | Some (z, rest') => if no_fraction rest' then Some (JInt (- z), rest') else None
            | None => None
            end
          else
            match loads_natural s0 with
            | Some (z, rest') => if no_fraction rest' then Some (JInt z, rest') else None
            | None => None
            end
      end
  end
with loads_members (fuel : nat) (s : string) (acc : list (string * json)) {struct fuel}
    : option (json * string) :=
  match fuel with
  | O => None
  | S fuel' =>
      match skip_space s with
      | String c rest =>
          if Ascii.eqb c dq then
            match loads_string rest with
            | Some (k, rest1) =>
                match skip_space rest1 with
                | String ":" rest2 =>
                    match loads_value fuel' rest2 with
                    | Some (v, rest3) =>
                        match skip_space rest3 with
                        | String "," rest4 => loads_members fuel' rest4 (Dict.set k v acc)
                        | String "}" rest4 => Some (JObj (Dict.set k v acc), rest4)
                        | _ => None
                        end
                    | None => None
                    end
                | _ => None
                end
            | None => None
            end
          else None
      | EmptyString => None
      end
  end
with loads_items (fuel : nat) (s : string) (acc : list json) {struct fuel}
    : option (json * string) :=
  match fuel with
  | O => None
  | S fuel' =>
      match loads_value fuel' s with
      | Some (v, rest) =>
          match skip_space rest with
          | String "," rest' => loads_items fuel' rest' (acc ++ [v])%list
          | String "]" rest' => Some (JArr (acc ++ [v])%list, rest')
          | _ => None
          end
      | None => None
      end
  end.

(** [json.loads(s)]: one value, with nothing but white space after it. *)
Definition loads (s : string) : option json :=
  match loads_value (2 * String.length s + 2) s with
  | Some (j, rest) =>
      match skip_space rest with
      | EmptyString => Some j
      | _ => None
      end
  | None => None
  end.

End JsonText.


(** ** Vocabulary of the properties *)

(** Two worlds hold the same resources: on the target, on the source, in the
    local files and in the set of patched projects. *)
Definition same_resources (W W' : World) : Prop :=
  scalr_workspaces W' = scalr_workspaces W
  /\ scalr_state_versions W' = scalr_state_versions W
  /\ scalr_vars W' = scalr_vars W
  /\ tfc_posts W' = tfc_posts W
  /\ files W' = files W
  /\ file_writes W' = file_writes W
  /\ migrated_cdktf_mains W' = migrated_cdktf_mains W.

(** The existence query of the idempotency gate. *)
Definition is_existence_query (c : Call) : Prop :=
  match c with
  | ScalrGetWorkspaces _ _ => True
  | _ => False
  end.

(** The lookups of the secret store among some calls. *)
Definition is_secret_lookup (c : Call) : bool :=
  match c with
  | SsmGetParametersByPath _ => true
  | _ => false
  end.

Definition secret_lookups (calls : list Call) : nat :=
  List.length (List.filter is_secret_lookup calls).

(** What the specification asks the target to receive for a variable of the
    source: a plain variable as it is, a sensitive one with the value the
    secret set holds for its key, and nothing when the set has no such key. *)
Definition spec_transferred_variable (secrets : gmap string string) (workspace_id : string)
    (v : TfVar) : option json :=
  if var_sensitive v then
    match secrets !! var_key v with
    | Some secret =>
        Some (variable_document (var_key v) (JStr secret) (var_category v) true
                (var_description v) (workspace_relationship workspace_id))
    | None => None
    end
  else
    Some (variable_document (var_key v) (var_value v) (var_category v) (var_sensitive v)
            (var_description v) (workspace_relationship workspace_id)).

(** How many times a file was written. *)
Definition writes_to (path : string) (writes : list (string * string)) : nat :=
  List.length (List.filter (fun w => String.eqb (fst w) path) writes).

(** The last character of a string. *)
Fixpoint last_char (s : string) : option ascii :=
  match s with
  | EmptyString => None
  | String c EmptyString => Some c
  | String _ s' => last_char s'
  end.

(** The part of the world the patch of the build script reads and writes. *)
Definition local_of (W : World) : list (string * string) * gset string :=
  (file_writes W, migrated_cdktf_mains W).

(** A computation that leaves that part as it is. *)
Definition keeps_local {A : Type} (m : M A) : Prop :=
  forall W, local_of (snd (m W)) = local_of W.

(** The build script of every project was written once if the project is
    in [migrated_cdktf_mains], and never otherwise. *)
Definition injected_once (cfg : Config) (lib : Library) (W : World) : Prop :=
  forall project dir,
    cdktf_paths cfg lib !! project = Some dir ->
    writes_to (dir +:+ "/main.ts") (file_writes W)
    = if decide (project ∈ migrated_cdktf_mains W) then 1%nat else 0%nat.

(** An outside where no call fails. *)
Definition fault_free (outside : Outside) : Prop :=
  forall n c, fault outside n c = None.

(** A computation that only adds workspaces to the target. *)
Definition only_grows {A : Type} (m : M A) : Prop :=
  forall W, exists added,
    scalr_workspaces (snd (m W)) = (scalr_workspaces W ++ added)%list.

(** A list of workspaces over which the loop has nothing left to create in
    the world [W]: up to the first account without an environment, where the
    loop ends, every workspace it does not skip is either on the target or
    rejected for its version at creation. *)
Fixpoint quiet (cfg : Config) (W : World) (workspaces : list TfWorkspace) : Prop :=
  match workspaces with
  | [] => True
  | tf_workspace :: rest =>
      if eligible tf_workspace then
        match Dict.get (account_of tf_workspace) (environments cfg) with
        | None => True
        | Some env =>
            (scalr_find (ws_name tf_workspace) env (scalr_workspaces W) <> []
             \/ PyStr.gt (ws_terraform_version tf_workspace) "1.5.7" = true)
            /\ quiet cfg W rest
        end
      else quiet cfg W rest
  end.

(** ** A concrete run

    The scenario of the specification, with two more workspaces around it:
    [orders-prod-acct1] has a sensitive variable [DB_PASS] and a plain one
    [REGION]; [billing-prod-acct1] has a sensitive variable without a secret;
    [orders-dev-acct2] is a second environment of the project [orders]. *)

Module Scenario.

(** [s.lower()] on ASCII text. *)
Fixpoint lower (s : string) : string :=
  match s with
  | EmptyString => EmptyString
  | String c s' =>
      let n := N_of_ascii c in
      String (if (65 <=? n)%N && (n <=? 90)%N then ascii_of_N (n + 32) else c) (lower s')
  end.

(** Stands for [hashlib.md5] where a run is evaluated: every property of the
    migrator is proved for any digest function. *)
Definition digest (data : string) : string := "digest-" +:+ pretty (String.length data).

Definition lib : Library :=
  {| str_lower := lower;
     md5_hexdigest := digest;
     json_loads := JsonText.loads;
     json_dumps_indent2 := JsonText.dumps_indent2 |}.

Definition cfg : Config :=
  {| scalr_hostname := "acme.scalr.io";
     tf_organization := "acme";
     vcs_id := "vcs-42";
     workspace_wildcard := "*";
     lock := true;
     ssm_prefix := "/migration";
     environments := [("acct1", "env-1"); ("acct2", "env-2")];
     cdktf_directories := ["/repo/projects/orders"; "/repo/projects/Billing"] |}.

Definition workspace (id name version : string) (repo : option VcsRepo) : TfWorkspace :=
  {| ws_id := id;
     ws_name := name;
     ws_terraform_version := version;
     ws_locked := false;
     ws_resource_count := 3;
     ws_auto_apply := JBool false;
     ws_operations := JBool true;
     ws_working_directory := JStr "infra";
     ws_vcs_repo := repo |}.

Definition orders_prod : TfWorkspace :=
  workspace "ws-1" "orders-prod-acct1" "1.5.7" (Some {| display_identifier := JStr "acme/infra" |}).

Definition billing_prod : TfWorkspace := workspace "ws-2" "billing-prod-acct1" "1.5.7" None.

Definition orders_dev : TfWorkspace := workspace "ws-3" "orders-dev-acct2" "1.4.6" None.

(** A name of two segments, an account without an environment, and a
    version with a two-digit patch number. *)
Definition legacy : TfWorkspace := workspace "ws-4" "legacy-acct1" "1.5.7" None.

Definition orders_elsewhere : TfWorkspace := workspace "ws-5" "orders-prod-acct9" "1.5.7" None.

Definition orders_newer : TfWorkspace := workspace "ws-6" "orders-prod-acct1" "1.5.10" None.

Definition state_payload : string :=
  JsonText.dumps_indent2
    (JObj [("version", JInt 4); ("serial", JInt 7); ("lineage", JStr "3f1c-77aa");
           ("resources", JArr [])]).

Definition variables_of (workspace_name : string) : list TfVar :=
  if String.eqb workspace_name "orders-prod-acct1" then
    [ {| var_key := "DB_PASS"; var_value := JNull; var_category := JStr "env";
         var_sensitive := true; var_description := JNull |};
      {| var_key := "REGION"; var_value := JStr "us-east-1"; var_category := JStr "terraform";
         var_sensitive := false; var_description := JStr "where to deploy" |} ]
  else if String.eqb workspace_name "billing-prod-acct1" then
    [ {| var_key := "API_KEY"; var_value := JNull; var_category := JStr "env";
         var_sensitive := true; var_description := JNull |} ]
  else [].

Definition parameters_under (path : string) : list (string * string) :=
  if String.eqb path "/migration/orders-prod-acct1"
  then [("/migration/orders-prod-acct1/DB_PASS", "s3cret")]
  else [].

Definition outside : Outside :=
  {| fault := fun _ _ => None;
     tfc_workspace_pages := [[orders_prod; billing_prod]; [orders_dev]];
     tfc_state_versions := fun name =>
       [ {| sv_serial := JInt 7;
            sv_hosted_state_download_url := "https://archivist.example/" +:+ name |} ];
     tfc_vars := variables_of;
     tfc_download := fun _ => state_payload;
     ssm_parameters := parameters_under;
     scalr_new_id := fun route n => route +:+ "-" +:+ pretty n |}.

Definition main_ts : string :=
  PyStr.join PyStr.nl
    ["import { App } from 'cdktf'";
     "const app = new App()";
     "app.synth()";
     EmptyString].

(** A generated configuration file as the build tool writes it. *)
Definition cdk_tf_json (organization : string) : string :=
  JsonText.dumps_indent2
    (JObj [("//", JObj [("metadata", JObj [("backend", JStr "remote");
                                           ("version", JStr "0.20.0")])]);
           ("terraform",
            JObj [("backend",
                   JObj [("remote", JObj [("hostname", JStr "app.terraform.io");
                                          ("organization", JStr organization)])])])]).

Definition local_files : gmap string string :=
  list_to_map
    [("/repo/projects/orders/main.ts", main_ts);
     ("/repo/projects/Billing/main.ts", main_ts);
     ("/repo/projects/orders/cdktf.out/stacks/prod-acct1/cdk.tf.json", cdk_tf_json "acme");
     ("/repo/projects/orders/cdktf.out/stacks/dev-acct2/cdk.tf.json", cdk_tf_json "acme");
     ("/repo/projects/Billing/cdktf.out/stacks/prod-acct1/cdk.tf.json", cdk_tf_json "acme")].

Definition start : World := initial_world [] local_files.

(** The worlds the run of [orders-prod-acct1] goes through. *)
Definition after_query : World :=
  snd (fetch_scalr_workspaces outside "orders-prod-acct1" "env-1" start).

Definition after_creation : World := snd (create_workspace cfg outside orders_prod after_query).

Definition orders_prod_state : TfStateVersion :=
  {| sv_serial := JInt 7;
     sv_hosted_state_download_url := "https://archivist.example/orders-prod-acct1" |}.

Definition after_state_listing : World :=
  snd (request outside (TfcGetStateVersions "acme" "orders-prod-acct1") after_creation).

Definition after_state : World :=
  snd (migrate_state cfg outside lib "workspaces-0" "orders-prod-acct1" after_creation).

(** The world after the first workspace, where the second one starts. *)
Definition after_orders_prod : World := snd (migrate_loop cfg outside lib [orders_prod] start).

Definition billing_query : World :=
  snd (fetch_scalr_workspaces outside "billing-prod-acct1" "env-1" after_orders_prod).

Definition billing_failed : World :=
  snd (migrate_new cfg outside lib billing_prod "billing-prod-acct1" billing_query).

(** The world a whole run ends in. *)
Definition after_run : World := snd (migrate_workspaces cfg outside lib start).

(** The configuration file of a stack that already carries overrides, under
    a longer organization name. *)
Definition regenerated_cdk_tf_json : string :=
  JsonText.dumps_indent2
    (JObj [("//", JObj [("metadata", JObj [("backend", JStr "remote");
                                           ("version", JStr "0.20.0");
                                           ("overrides",
                                            JObj [("stack", JArr [JStr "terraform"])])])]);
           ("terraform",
            JObj [("backend",
                   JObj [("remote", JObj [("hostname", JStr "app.terraform.io");
                                          ("organization", JStr "acme-infrastructure")])])])]).

Definition prod_stack_path : string :=
  "/repo/projects/orders/cdktf.out/stacks/prod-acct1/cdk.tf.json".

Definition regenerated : World :=
  initial_world [] (<[prod_stack_path := regenerated_cdk_tf_json]> local_files).

(** What the patch serializes for that file. *)
Definition patched_document : json :=
  JObj [("//", JObj [("metadata", JObj [("backend", JStr "remote");
                                        ("version", JStr "0.20.0");
                                        ("overrides",
                                         JObj [("stack", JArr [JStr "terraform"])])])]);
        ("terraform",
         JObj [("backend",
                JObj [("remote", JObj [("hostname", JStr "acme.scalr.io");
                                       ("organization", JStr "env-1")])])])].

End Scenario.
(** ** The environment directory: [fetch_environments] *)

(** One answer of the [environments] listing: the name and the identifier
    of each environment in [data], and [links.next]. *)
Record EnvironmentPage : Type := {
  ep_data : list (string * string);
  ep_next : option string
}.

Module Directory.

(** The loop body's [for]: every environment of a page goes into the
    dictionary under its name. *)
Definition add_page (environments : list (string * string)) (data : list (string * string))
    : list (string * string) :=
  fold_left (fun d environment => Dict.set (fst environment) (snd environment) d)
    data environments.

(** The route of the next request: the last segment of [links.next], when
    that link is neither null nor empty. *)
Definition next_route (response : EnvironmentPage) : option string :=
  match ep_next response with
  | Some link => if String.eqb link EmptyString then None else Some (PyStr.last_segment "/" link)
  | None => None
  end.

Section Fetch.

(** [self.fetch_scalr(route)]: the answer, or the exception it raises. *)
Variable fetch_scalr : string -> exn + EnvironmentPage.

(** The [while True] loop, for at most [fuel] requests: [None] when the
    loop is still running after that many. *)
Fixpoint fetch_environments_from (fuel : nat) (next : string)
    (environments : list (string * string)) : option (exn + list (string * string)) :=
  match fuel with
  | O => None
  | S fuel' =>
      match fetch_scalr next with
      | inl e => Some (inl e)
      | inr response =>
          let environments' := add_page environments (ep_data response) in
          match next_route response with
          | Some route => fetch_environments_from fuel' route environments'
          | None => Some (inr environments')
          end
      end
  end.

Definition fetch_environments (fuel : nat) : option (exn + list (string * string)) :=
  fetch_environments_from fuel "environments" [].

(** The pages the loop reads from a route on, and how the reading ends: with
    a page without a next link, or with a request that raises. *)
Inductive reads : string -> list EnvironmentPage -> option exn -> Prop :=
| reads_last (route : string) (response : EnvironmentPage) :
    fetch_scalr route = inr response ->
    next_route response = None ->
    reads route [response] None
| reads_error (route : string) (e : exn) :
    fetch_scalr route = inl e ->
    reads route [] (Some e)
| reads_next (route route' : string) (response : EnvironmentPage)
    (pages : list EnvironmentPage) (ending : option exn) :
    fetch_scalr route = inr response ->
    next_route response = Some route' ->
    reads route' pages ending ->
    reads route (response :: pages) ending.

End Fetch.

(** The last identifier listed for a name. *)
Definition last_listed (name : string) (listed : list (string * string)) : option string :=
  option_map snd (List.find (fun environment => String.eqb (fst environment) name) (rev listed)).

End Directory.

(** ** Relations between the world before and after a step *)

(** A computation after which the world is related to the world before. *)
Definition respects (R : World -> World -> Prop) {A : Type} (m : M A) : Prop :=
  forall W, R W (snd (m W)).

(** The target still holds, in the same order and before anything new, the
    workspaces, the state versions and the variables it held. *)
Definition target_extends (W W' : World) : Prop :=
  (exists added, scalr_workspaces W' = (scalr_workspaces W ++ added)%list)
  /\ (exists added, scalr_state_versions W' = (scalr_state_versions W ++ added)%list)
  /\ (exists added, scalr_vars W' = (scalr_vars W ++ added)%list).

(** Nothing was posted to the source. *)
Definition source_untouched (W W' : World) : Prop := tfc_posts W' = tfc_posts W.

(** The lock action [lock_tfc_workspace] posts for a workspace. *)
Definition lock_action (tf_workspace : TfWorkspace) : string * json :=
  ("workspaces/" +:+ ws_id tf_workspace +:+ "/actions/lock",
   JObj [("reason", JStr "Locked by migrator")]).

(** The document [create_state] posts for a state version of the source,
    when the payload downloaded for it is JSON with a lineage. *)
Definition spec_state_document (outside : Outside) (lib : Library) (workspace_id : string)
    (tfc_state : TfStateVersion) : option json :=
  let content := tfc_download outside (sv_hosted_state_download_url tfc_state) in
  match json_loads lib content with
  | Some payload =>
      match Json.getitem "lineage" payload with
      | inr lineage =>
          Some (state_version_document (sv_serial tfc_state) (md5_hexdigest lib content) lineage
                  (Base64.b2a_base64 content) workspace_id)
      | inl _ => None
      end
  | None => None
  end.

(** The documents [migrate_state] gets to post for the listed state
    versions: one for each, in the order of the listing, up to the first
    whose payload gives none. *)
Fixpoint state_documents (outside : Outside) (lib : Library) (workspace_id : string)
    (states : list TfStateVersion) : list json :=
  match states with
  | [] => []
  | tfc_state :: rest =>
      match spec_state_document outside lib workspace_id tfc_state with
      | Some doc => doc :: state_documents outside lib workspace_id rest
      | None => []
      end
  end.

(** The requests of the listing, from page [page] on. *)
Definition listing_requests (cfg : Config) (page count : nat) : list Call :=
  map (TfcListWorkspaces (tf_organization cfg) (workspace_wildcard cfg)) (seq page count).

(** [c in s] for a character. *)
Fixpoint contains (c : ascii) (s : string) : bool :=
  match s with
  | EmptyString => false
  | String d s' => Ascii.eqb c d || contains c s'
  end.

(** The text before the last segment of [s]: every earlier segment with
    the separator after it. *)
Definition before_last_segment (sep : ascii) (s : string) : string :=
  String.concat EmptyString
    (map (fun segment => segment +:+ String sep EmptyString)
       (removelast (PyStr.split sep s))).

(** Two paths of keys that part at some key: neither leads into what the
    other names. *)
Fixpoint diverge (p q : list string) : bool :=
  match p, q with
  | a :: p', b :: q' => if String.eqb a b then diverge p' q' else true
  | _, _ => false
  end.

(** ** The entry point *)

Module Main.

(** What [parse_args] returns. *)
Record Args : Type := {
  arg_workspace_regex : string;
  arg_cdktf_path : string;
  arg_scalr_account_id : string;
  arg_vcs_id : string;
  arg_scalr_hostname : string;
  arg_tf_hostname : string;
  arg_tf_organization : string;
  arg_aws_profile : string;
  arg_aws_region : string;
  arg_aws_ssm_prefix : string
}.

(** The parameters of [Migrator.__init__] after [self]; none has a default. *)
Definition init_parameters : list string :=
  ["scalr_hostname"; "scalr_token"; "tf_hostname"; "tf_token"; "tf_organization";
   "account_id"; "vcs_id"; "workspace_regex"; "skip_workspace_creation";
   "skip_backend_secrets"; "lock"; "cdktf_path"; "aws_profile"; "aws_region";
   "aws_ssm_prefix"].

(** The keyword arguments of the call [Migrator(...)] in [main]. *)
Definition constructor_call (args : Args) (tfe_token scalr_token : json)
    : list (string * json) :=
  [("lock", JBool true);
   ("scalr_token", scalr_token);
   ("tf_token", tfe_token);
   ("tf_hostname", JStr (arg_tf_hostname args));
   ("scalr_hostname", JStr (arg_scalr_hostname args));
   ("tf_organization", JStr (arg_tf_organization args));
   ("account_id", JStr (arg_scalr_account_id args));
   ("skip_workspace_creation", JBool false);
   ("skip_backend_secrets", JBool false);
   ("cdktf_path", JStr (arg_cdktf_path args));
   ("workspace_regex", JStr (arg_workspace_regex args));
   ("vcs_id", JStr (arg_vcs_id args));
   ("aws_profile", JStr (arg_aws_profile args));
   ("aws_region", JStr (arg_aws_region args))].

Definition mem (name : string) (names : list string) : bool :=
  existsb (String.eqb name) names.

(** A call with keyword arguments only, to a function whose parameters
    have no defaults: a keyword that names no parameter is a [TypeError],
    and so is a parameter no keyword names. *)
Definition bind_keywords (parameters : list string) (keywords : list (string * json))
    : exn + list (string * json) :=
  match filter (fun keyword => negb (mem (fst keyword) parameters)) keywords with
  | (name, _) :: _ => inl (TypeError ("got an unexpected keyword argument: " +:+ name))
  | [] =>
      match filter (fun parameter => negb (mem parameter (map fst keywords))) parameters with
      | [] => inr keywords
      | missing =>
          inl (TypeError ("missing required arguments: " +:+ PyStr.join ", " missing))
      end
  end.

(** [credentials["credentials"][hostname]["token"]] *)
Definition token_of (hostname : string) (credentials : json) : exn + json :=
  match Json.getitem "credentials" credentials with
  | inl e => inl e
  | inr hosts =>
      match Json.getitem hostname hosts with
      | inl e => inl e
      | inr entry => Json.getitem "token" entry
      end
  end.

Section Entry.

Variable lib : Library.

(** The expanded path of [~/.terraform.d/credentials.tfrc.json]. *)
Variable credentials_file : string.

(** The body of [__init__] followed by [migrate_workspaces], from the
    arguments bound to the parameters. *)
Variable construct_and_migrate : list (string * json) -> M unit.

(** [main], from the parsed arguments on. *)
Definition main (args : Args) : M unit :=
  W <- get_world;
  match files W !! credentials_file with
  | None => raise (FileNotFoundError credentials_file)
  | Some raw =>
      match json_loads lib (PyStr.universal_newlines raw) with
      | None => raise JSONDecodeError
      | Some credentials =>
          tfe_token <- lift (token_of (arg_tf_hostname args) credentials);
          scalr_token <- lift (token_of (arg_scalr_hostname args) credentials);
          bound <- lift (bind_keywords init_parameters
                           (constructor_call args tfe_token scalr_token));
          construct_and_migrate bound
      end
  end.

End Entry.

End Main.

(** ** Examples of answers *)

Module Cases.

(** Two pages of environments; the second lists [acct1] again. *)
Definition environment_pages (route : string) : exn + EnvironmentPage :=
  if String.eqb route "environments" then
    inr {| ep_data := [("acct1", "env-1"); ("acct2", "env-2")];
           ep_next := Some "https://acme.scalr.io/api/iacp/v3/environments?page[number]=2" |}
  else if String.eqb route "environments?page[number]=2" then
    inr {| ep_data := [("acct3", "env-3"); ("acct1", "env-9")]; ep_next := None |}
  else inl (KeyError route).

(** The same listing when the request for the second page raises. *)
Definition environment_pages_broken (route : string) : exn + EnvironmentPage :=
  if String.eqb route "environments" then environment_pages route
  else inl JSONDecodeError.

(** A listing whose page names itself as the next one. *)
Definition environment_pages_circular (route : string) : exn + EnvironmentPage :=
  inr {| ep_data := [("acct1", "env-1")];
         ep_next := Some "https://acme.scalr.io/api/iacp/v3/environments" |}.

(** The outside of the scenario when the second page of the listing
    cannot be fetched. *)
Definition outside_listing_down : Outside :=
  {| fault := fun _ c =>
       match c with
       | TfcListWorkspaces _ _ 2 => Some "503 Service Unavailable"
       | _ => None
       end;
     tfc_workspace_pages := tfc_workspace_pages Scenario.outside;
     tfc_state_versions := tfc_state_versions Scenario.outside;
     tfc_vars := tfc_vars Scenario.outside;
     tfc_download := tfc_download Scenario.outside;
     ssm_parameters := ssm_parameters Scenario.outside;
     scalr_new_id := scalr_new_id Scenario.outside |}.

(** The outside of the scenario when the state payload has no lineage. *)
Definition outside_without_lineage : Outside :=
  {| fault := fault Scenario.outside;
     tfc_workspace_pages := tfc_workspace_pages Scenario.outside;
     tfc_state_versions := tfc_state_versions Scenario.outside;
     tfc_vars := tfc_vars Scenario.outside;
     tfc_download := fun _ => JsonText.dumps_indent2 (JObj [("version", JInt 4)]);
     ssm_parameters := ssm_parameters Scenario.outside;
     scalr_new_id := scalr_new_id Scenario.outside |}.

(** A sensitive variable whose key has a slash, and a workspace of a
    project written with a capital. *)
Definition nested_key : TfVar :=
  {| var_key := "db/password"; var_value := JNull; var_category := JStr "env";
     var_sensitive := true; var_description := JNull |}.

Definition pessimistic : TfWorkspace :=
  Scenario.workspace "ws-8" "orders-prod-acct1" "~> 1.5.0" None.

(** The worlds after the injection into the build script of [orders], after
    the patch of its [prod-acct1] stack, and after [migrate_cdktf] for a
    stack of [billing] that was never generated. *)
Definition after_injection : World :=
  snd (inject_main_ts Scenario.cfg Scenario.lib "orders" Scenario.start).

Definition after_patch : World :=
  snd (patch_cdk_tf_json Scenario.cfg Scenario.lib "orders" "prod" "acct1" Scenario.start).

Definition after_missing_stack : World :=
  snd (migrate_cdktf Scenario.cfg Scenario.lib "billing-dev-acct1" Scenario.start).

(** A command line and a credentials file with a token for both hosts. *)
Definition args : Main.Args :=
  {| Main.arg_workspace_regex := "*";
     Main.arg_cdktf_path := "/repo";
     Main.arg_scalr_account_id := "acc-1";
     Main.arg_vcs_id := "vcs-1";
     Main.arg_scalr_hostname := "acme.scalr.io";
     Main.arg_tf_hostname := "app.terraform.io";
     Main.arg_tf_organization := "acme";
     Main.arg_aws_profile := "missing";
     Main.arg_aws_region := "missing";
     Main.arg_aws_ssm_prefix := "/terraform" |}.

Definition credentials : json :=
  JObj [("credentials",
         JObj [("app.terraform.io", JObj [("token", JStr "tfc-token")]);
               ("acme.scalr.io", JObj [("token", JStr "scalr-token")])])].

Definition home : World :=
  set_files (fun fs => <["/home/me/.terraform.d/credentials.tfrc.json"
                         := JsonText.dumps_indent2 credentials]> fs)
    Scenario.start.

End Cases.

(** ** A second run against the source the first run left *)

(** What the source lists for a workspace once the lock actions among
    [posts] have been carried out: a workspace whose lock action was posted
    is listed as locked. The source is the service the migrator talks to,
    not code of the migrator. *)
Definition listed_after (posts : list (string * json)) (tf_workspace : TfWorkspace)
    : TfWorkspace :=
  if existsb (fun post => String.eqb (fst post) (fst (lock_action tf_workspace))) posts then
    {| ws_id := ws_id tf_workspace;
       ws_name := ws_name tf_workspace;
       ws_terraform_version := ws_terraform_version tf_workspace;
       ws_locked := true;
       ws_resource_count := ws_resource_count tf_workspace;
       ws_auto_apply := ws_auto_apply tf_workspace;
       ws_operations := ws_operations tf_workspace;
       ws_working_directory := ws_working_directory tf_workspace;
       ws_vcs_repo := ws_vcs_repo tf_workspace |}
  else tf_workspace.

(** What the body of the loop prints for a workspace the target holds:
    the skips come first, in the order of the tests of lines 309 to 320. *)
Definition rerun_report (tf_workspace : TfWorkspace) : list Message :=
  if version_unsupported (ws_terraform_version tf_workspace) then
    [SkippingUnsupportedVersion (ws_name tf_workspace) (ws_terraform_version tf_workspace)]
  else if ws_locked tf_workspace then []
  else if (ws_resource_count tf_workspace =? 0)%Z then
    [SkippingNoResources (ws_name tf_workspace)]
  else [AlreadyExists (ws_name tf_workspace)].

(** The documents the loop over the variables gets to post when no call
    fails: one for each variable, in the order of the listing, up to the
    first that has none. *)
Fixpoint variable_documents (secrets : gmap string string) (workspace_id : string)
    (vars : list TfVar) : list json :=
  match vars with
  | [] => []
  | v :: rest =>
      match spec_transferred_variable secrets workspace_id v with
      | Some doc => doc :: variable_documents secrets workspace_id rest
      | None => []
      end
  end.

(** A computation that takes no project out of the set of patched ones. *)
Definition keeps_patched {A : Type} (m : M A) : Prop :=
  forall W project,
    project ∈ migrated_cdktf_mains W -> project ∈ migrated_cdktf_mains (snd (m W)).

Module Relisted.

(** The listing of the scenario as the source gives it after the run. *)
Definition workspaces : list TfWorkspace :=
  map (listed_after (tfc_posts Scenario.after_run))
    [Scenario.orders_prod; Scenario.billing_prod; Scenario.orders_dev].

(** The worlds of the first run when the loop reaches [orders-prod-acct1]:
    after the listing, after the existence query, after the [try] block. *)
Definition listed : World :=
  snd (fetch_workspace_pages Scenario.cfg Scenario.outside 1
         (tfc_workspace_pages Scenario.outside) Scenario.start).

Definition queried : World :=
  snd (fetch_scalr_workspaces Scenario.outside "orders-prod-acct1" "env-1" listed).

Definition migrated : World :=
  snd (migrate_new Scenario.cfg Scenario.outside Scenario.lib Scenario.orders_prod
         "orders-prod-acct1" queried).

End Relisted.

(** * Properties *)

(** ** Running computations *)

Ltac run_step :=
  unfold bind, ret, raise, lift, get_world, modify, try_except, write_line in *;
  simpl in *.

Lemma bind_inr {A B : Type} (m : M A) (f : A -> M B) (W W1 : World) (a : A) :
  m W = (inr a, W1) -> bind m f W = f a W1.
Proof. intros H. unfold bind. now rewrite H. Qed.

Lemma bind_inl {A B : Type} (m : M A) (f : A -> M B) (W W1 : World) (e : exn) :
  m W = (inl e, W1) -> bind m f W = (inl e, W1).
Proof. intros H. unfold bind. now rewrite H. Qed.

Lemma bind_result {A B : Type} (m : M A) (f : A -> M B) (W W2 : World) (b : B) :
  bind m f W = (inr b, W2) ->
  exists a W1, m W = (inr a, W1) /\ f a W1 = (inr b, W2).
Proof.
  unfold bind. destruct (m W) as [[e | a] W1]; intros H.
  - discriminate.
  - now exists a, W1.
Qed.

(** ** Facts on strings and lists *)

Lemma append_cons (c : ascii) (s t : string) : String c s +:+ t = String c (s +:+ t).
Proof. reflexivity. Qed.

Lemma append_empty (t : string) : EmptyString +:+ t = t.
Proof. reflexivity. Qed.

Lemma length_append (s t : string) :
  String.length (s +:+ t) = (String.length s + String.length t)%nat.
Proof.
  induction s as [| c s IH]; [reflexivity |].
  rewrite append_cons. cbn [String.length]. now rewrite IH.
Qed.

Lemma append_cancel_right (s1 s2 t : string) : s1 +:+ t = s2 +:+ t -> s1 = s2.
Proof.
  revert s2. induction s1 as [| c s1 IH]; intros [| c' s2] H.
  - reflexivity.
  - apply (f_equal String.length) in H.
    rewrite append_empty, length_append in H. cbn [String.length] in H. lia.
  - apply (f_equal String.length) in H.
    rewrite append_empty, length_append in H. cbn [String.length] in H. lia.
  - rewrite !append_cons in H. injection H as -> H. f_equal. now apply IH.
Qed.

Lemma last_char_append (s t : string) (c : ascii) :
  last_char t = Some c -> last_char (s +:+ t) = Some c.
Proof.
  intros H. induction s as [| d s IH]; [exact H |].
  rewrite append_cons. cbn [last_char].
  destruct (s +:+ t) eqn:E; [discriminate | exact IH].
Qed.

(** The build script of a project and a generated configuration file are
    different files. *)
Lemma main_ts_is_not_cdk_tf_json (dir dir' envName accountLabel : string) :
  dir +:+ "/main.ts"
  <> dir' +:+ "/cdktf.out/stacks/" +:+ envName +:+ "-" +:+ accountLabel +:+ "/cdk.tf.json".
Proof.
  intros H. apply (f_equal last_char) in H.
  rewrite (last_char_append dir "/main.ts" "s" eq_refl) in H.
  rewrite (last_char_append dir' _ "n") in H; [discriminate |].
  repeat apply last_char_append. reflexivity.
Qed.

Lemma index_some (x : string) (l : list string) (i : nat) :
  PyList.index x l = Some i ->
  exists before after,
    l = (before ++ x :: after)%list /\ List.length before = i /\ ~ In x before.
Proof.
  revert i. induction l as [| y l IH]; intros i H; [discriminate |].
  cbn [PyList.index] in H. destruct (String.eqb x y) eqn:E.
  - apply String.eqb_eq in E. subst y. injection H as <-.
    exists [], l. repeat split. intros [].
  - destruct (PyList.index x l) as [j |]; [| discriminate].
    injection H as <-. destruct (IH j eq_refl) as (before & after & -> & Hlen & Hnot).
    exists (y :: before), after. repeat split.
    + simpl. now rewrite Hlen.
    + intros [-> | Hin]; [| contradiction].
      rewrite String.eqb_refl in E. discriminate.
Qed.

Lemma index_none (x : string) (l : list string) :
  PyList.index x l = None -> ~ In x l.
Proof.
  induction l as [| y l IH]; intros H; [intros [] |].
  cbn [PyList.index] in H. destruct (String.eqb x y) eqn:E; [discriminate |].
  destruct (PyList.index x l); [discriminate |].
  intros [-> | Hin].
  - rewrite String.eqb_refl in E. discriminate.
  - now apply IH.
Qed.

Lemma index_not_in (x : string) (l : list string) :
  ~ In x l -> PyList.index x l = None.
Proof.
  intros H. destruct (PyList.index x l) as [i |] eqn:E; [| reflexivity].
  apply index_some in E as (before & after & -> & _). contradiction H.
  apply in_or_app. right. now left.
Qed.

Lemma insert_between (y : string) (before after : list string) :
  PyList.insert (List.length before) y (before ++ after) = (before ++ y :: after)%list.
Proof.
  unfold PyList.insert.
  rewrite firstn_app, Nat.sub_diag, firstn_all, skipn_app, Nat.sub_diag, skipn_all.
  simpl. now rewrite app_nil_r.
Qed.

Lemma writes_to_app (path : string) (l1 l2 : list (string * string)) :
  writes_to path (l1 ++ l2) = (writes_to path l1 + writes_to path l2)%nat.
Proof. unfold writes_to. now rewrite List.filter_app, List.length_app. Qed.

Lemma writes_to_other (path path' text : string) :
  path' <> path -> writes_to path [(path', text)] = 0%nat.
Proof.
  intros H. unfold writes_to. simpl.
  apply String.eqb_neq in H. now rewrite H.
Qed.

Lemma writes_to_same (path text : string) : writes_to path [(path, text)] = 1%nat.
Proof. unfold writes_to. simpl. now rewrite String.eqb_refl. Qed.

(** ** Creating the target workspace *)

Lemma request_result (outside : Outside) (c : Call) (W W' : World) (u : unit) :
  request outside c W = (inr u, W') ->
  W' = set_trace (fun t => (t ++ [c])%list) W.
Proof.
  unfold request. destruct (fault outside _ c); intros H; inversion H; reflexivity.
Qed.

Lemma write_scalr_workspaces_result (outside : Outside) (data : json) (W W' : World) (id : string) :
  write_scalr outside "workspaces" data W = (inr id, W') ->
  scalr_workspaces W' = (scalr_workspaces W ++ [(id, data)])%list
  /\ trace W' = (trace W ++ [ScalrPost "workspaces" data])%list.
Proof.
  unfold write_scalr. intros H.
  apply bind_result in H as (u & W1 & Hreq & H).
  apply request_result in Hreq. subst W1.
  run_step. inversion H; subst. simpl. split; reflexivity.
Qed.

Lemma create_workspace_result (cfg : Config) (outside : Outside) (tf_workspace : TfWorkspace)
    (W W' : World) (id : string) :
  create_workspace cfg outside tf_workspace W = (inr id, W') ->
  exists env,
    Dict.get (PyStr.last_segment "-" (ws_name tf_workspace)) (environments cfg) = Some env
    /\ PyStr.gt (ws_terraform_version tf_workspace) "1.5.7" = false
    /\ write_scalr outside "workspaces" (workspace_document cfg tf_workspace env) W = (inr id, W').
Proof.
  unfold create_workspace, environment_of. intros H.
  destruct (Dict.get _ (environments cfg)) as [env |] eqn:Henv.
  - exists env. split; [reflexivity |].
    run_step.
    destruct (PyStr.gt (ws_terraform_version tf_workspace) "1.5.7") eqn:Hv.
    + discriminate.
    + split; [reflexivity | exact H].
  - run_step. discriminate.
Qed.

(** C7. Whenever [create_workspace] creates a target workspace, the document
    it posts carries a [vcs-repo] attribute (the repository identifier, the
    branch [main], dry runs disabled, the working directory as the one
    trigger prefix) and a [vcs-provider] relationship to the configured
    provider exactly when the source workspace has a VCS repository; without
    one, neither key is in the document. *)
Theorem C7_conditional_vcs_binding (cfg : Config) (outside : Outside)
    (tf_workspace : TfWorkspace) (W W' : World) (id : string) :
  create_workspace cfg outside tf_workspace W = (inr id, W') ->
  exists env doc,
    doc = workspace_document cfg tf_workspace env
    /\ scalr_workspaces W' = (scalr_workspaces W ++ [(id, doc)])%list
    /\ trace W' = (trace W ++ [ScalrPost "workspaces" doc])%list
    /\ match ws_vcs_repo tf_workspace with
       | Some repo =>
           Json.lookup_path ["data"; "attributes"; "vcs-repo"] doc
           = Some (JObj [("identifier", display_identifier repo);
                         ("branch", JStr "main");
                         ("dry-runs-enabled", JBool false);
                         ("trigger-prefixes", JArr [ws_working_directory tf_workspace])])
           /\ Json.lookup_path ["data"; "relationships"; "vcs-provider"] doc
              = Some (JObj [("data", JObj [("type", JStr "vcs-providers");
                                           ("id", JStr (vcs_id cfg))])])
       | None =>
           Json.lookup_path ["data"; "attributes"; "vcs-repo"] doc = None
           /\ Json.lookup_path ["data"; "relationships"; "vcs-provider"] doc = None
       end.
Proof.
  intros H.
  apply create_workspace_result in H as (env & _ & _ & H).
  apply write_scalr_workspaces_result in H as [Hws Htr].
  exists env, (workspace_document cfg tf_workspace env).
  repeat split; try assumption.
  unfold workspace_document.
  destruct (ws_vcs_repo tf_workspace) as [repo |]; split; reflexivity.
Qed.

(** ** Base64: decoding what was encoded *)

Module Base64Facts.

Import Base64 Base64Check.

Lemma forallb_below (P : N -> bool) (n : nat) :
  forallb P (below n) = true -> forall v, (v < N.of_nat n)%N -> P v = true.
Proof.
  intros H v Hv. rewrite forallb_forall in H. apply H.
  unfold below. apply in_map_iff. exists (N.to_nat v). split.
  - apply N2Nat.id.
  - apply in_seq. lia.
Qed.

Lemma for_bytes_spec (P : N -> N -> bool) :
  for_bytes P = true -> forall a b : ascii, P (N_of_ascii a) (N_of_ascii b) = true.
Proof.
  intros H a b. unfold for_bytes in H.
  pose proof (N_ascii_bounded a) as Ha. pose proof (N_ascii_bounded b) as Hb.
  apply (forallb_below _ 256 H) in Ha. now apply (forallb_below _ 256 Ha).
Qed.

Lemma char_roundtrip (v : N) :
  (v < 64)%N -> a2b_char (b2a_char v) = Some v /\ Ascii.eqb (b2a_char v) pad = false.
Proof.
  intros Hv.
  assert (H : char_ok v = true).
  { apply (forallb_below char_ok 64); [vm_compute; reflexivity | exact Hv]. }
  unfold char_ok in H. apply andb_true_iff in H as [H1 H2].
  destruct (a2b_char (b2a_char v)) as [v' |]; [| discriminate].
  apply N.eqb_eq in H1. subst v'. split; [reflexivity |].
  now apply negb_true_iff in H2.
Qed.

Ltac split_checks H :=
  repeat match type of H with
         | (_ && _) = true => let H' := fresh H in apply andb_true_iff in H as [H H']
         end;
  repeat match goal with
         | K : N.eqb _ _ = true |- _ => apply N.eqb_eq in K
         | K : N.ltb _ _ = true |- _ => apply N.ltb_lt in K
         end.

Lemma single_facts (a : ascii) :
  let x := N_of_ascii a in
  (sextet0 x < 64)%N /\ (sextet3 x < 64)%N
  /\ (N.shiftl (N.land x 3) 4 < 64)%N /\ (N.shiftl (N.land x 15) 2 < 64)%N
  /\ N.lor (N.shiftl (sextet0 x) 2) (N.shiftr (N.shiftl (N.land x 3) 4) 4) = x
  /\ N.shiftr (N.shiftl (N.land x 15) 2) 2 = N.land x 15
  /\ N.lor (N.shiftl (N.shiftr x 4) 4) (N.land x 15) = x
  /\ N.lor (N.shiftl (N.shiftr x 6) 6) (sextet3 x) = x.
Proof.
  assert (H : for_bytes single_ok = true) by (vm_compute; reflexivity).
  pose proof (for_bytes_spec _ H a a) as K. unfold single_ok in K.
  split_checks K. intros x. repeat split; assumption.
Qed.

Lemma first_pair_facts (a b : ascii) :
  let x := N_of_ascii a in
  let y := N_of_ascii b in
  (sextet1 x y < 64)%N
  /\ N.lor (N.shiftl (sextet0 x) 2) (N.shiftr (sextet1 x y) 4) = x
  /\ N.land (sextet1 x y) 15 = N.shiftr y 4.
Proof.
  assert (H : for_bytes first_pair_ok = true) by (vm_compute; reflexivity).
  pose proof (for_bytes_spec _ H a b) as K. unfold first_pair_ok in K.
  split_checks K. intros x y. repeat split; assumption.
Qed.

Lemma second_pair_facts (b c : ascii) :
  let y := N_of_ascii b in
  let z := N_of_ascii c in
  (sextet2 y z < 64)%N
  /\ N.shiftr (sextet2 y z) 2 = N.land y 15
  /\ N.land (sextet2 y z) 3 = N.shiftr z 6.
Proof.
  assert (H : for_bytes second_pair_ok = true) by (vm_compute; reflexivity).
  pose proof (for_bytes_spec _ H b c) as K. unfold second_pair_ok in K.
  split_checks K. intros y z. repeat split; assumption.
Qed.

(** One step of the scan on the character of a six-bit value. *)
Lemma decode_value (v : N) (s : string) (quad_pos : nat) (leftchar : N) (pads : nat) :
  (v < 64)%N ->
  decode (String (b2a_char v) s) quad_pos leftchar pads =
  match quad_pos with
  | 0%nat => decode s 1%nat v 0%nat
  | 1%nat =>
      option_map (String (ascii_of_N (N.lor (N.shiftl leftchar 2) (N.shiftr v 4))))
        (decode s 2%nat (N.land v 15) 0%nat)
  | 2%nat =>
      option_map (String (ascii_of_N (N.lor (N.shiftl leftchar 4) (N.shiftr v 2))))
        (decode s 3%nat (N.land v 3) 0%nat)
  | _ =>
      option_map (String (ascii_of_N (N.lor (N.shiftl leftchar 6) v)))
        (decode s 0%nat 0%N 0%nat)
  end.
Proof.
  intros Hv. destruct (char_roundtrip v Hv) as [Hback Hpad].
  cbn [decode]. rewrite Hpad, Hback. reflexivity.
Qed.

Lemma decode_newline (leftchar : N) (pads : nat) :
  decode PyStr.nl 0 leftchar pads = Some EmptyString.
Proof. reflexivity. Qed.

Lemma encode_decode (n : nat) :
  forall data, (String.length data <= n)%nat ->
               decode (encode data +:+ PyStr.nl) 0 0 0 = Some data.
Proof.
  induction n as [n IH] using lt_wf_ind.
  intros [| a [| b [| c rest]]] Hlen.
  - reflexivity.
  - destruct (single_facts a) as (H0 & _ & H1 & _ & Hx & _).
    cbn [encode]. cbv zeta. rewrite !append_cons, ?append_empty.
    rewrite (decode_value _ _ 0), (decode_value _ _ 1) by assumption.
    fold (sextet0 (N_of_ascii a)). rewrite Hx, ascii_N_embedding.
    reflexivity.
  - destruct (single_facts a) as (H0 & _).
    destruct (first_pair_facts a b) as (H1 & Hx & Hl).
    destruct (single_facts b) as (_ & _ & _ & H2 & _ & Hs & Hy & _).
    cbn [encode]. cbv zeta. rewrite !append_cons, ?append_empty.
    fold (sextet0 (N_of_ascii a)) (sextet1 (N_of_ascii a) (N_of_ascii b)).
    rewrite (decode_value _ _ 0), (decode_value _ _ 1), (decode_value _ _ 2) by assumption.
    rewrite Hx, Hl, Hs, Hy, !ascii_N_embedding.
    reflexivity.
  - destruct (single_facts a) as (H0 & _).
    destruct (first_pair_facts a b) as (H1 & Hx & Hl).
    destruct (second_pair_facts b c) as (H2 & Hs & Hr).
    destruct (single_facts b) as (_ & _ & _ & _ & _ & _ & Hy & _).
    destruct (single_facts c) as (_ & H3 & _ & _ & _ & _ & _ & Hz).
    cbn [encode]. cbv zeta. rewrite !append_cons, ?append_empty.
    fold (sextet0 (N_of_ascii a)) (sextet1 (N_of_ascii a) (N_of_ascii b))
      (sextet2 (N_of_ascii b) (N_of_ascii c)) (sextet3 (N_of_ascii c)).
    rewrite (decode_value _ _ 0), (decode_value _ _ 1), (decode_value _ _ 2),
      (decode_value _ _ 3) by assumption.
    rewrite Hx, Hl, Hs, Hy, Hr, Hz, !ascii_N_embedding.
        rewrite (IH (String.length rest)); [reflexivity | simpl in Hlen; lia | lia].
Qed.

(** Decoding the encoding of any bytes gives the bytes back. *)
Lemma a2b_b2a (data : string) : a2b_base64 (b2a_base64 data) = Some data.
Proof. exact (encode_decode (String.length data) data (le_n _)). Qed.

End Base64Facts.

(** ** Transferring a state version *)

Lemma write_scalr_state_versions_result (outside : Outside) (data : json) (W W' : World)
    (id : string) :
  write_scalr outside "state-versions" data W = (inr id, W') ->
  scalr_state_versions W' = (scalr_state_versions W ++ [data])%list
  /\ trace W' = (trace W ++ [ScalrPost "state-versions" data])%list.
Proof.
  unfold write_scalr. intros H.
  apply bind_result in H as (u & W1 & Hreq & H).
  apply request_result in Hreq. subst W1.
  run_step. inversion H; subst. simpl. split; reflexivity.
Qed.


(** ** The loop over the workspaces *)

Section Loop.

Variable cfg : Config.
Variable outside : Outside.
Variable lib : Library.

(** For a workspace the loop does not skip, the body is the look-up of the
    environment, the existence query, and the [try] block. *)
Lemma migrate_one_eligible (tf_workspace : TfWorkspace) :
  eligible tf_workspace = true ->
  migrate_one cfg outside lib tf_workspace
  = (env <- environment_of cfg (account_of tf_workspace);
     workspace_exists <- fetch_scalr_workspaces outside (ws_name tf_workspace) env;
     try_except
       (match workspace_exists with
        | _ :: _ => write_line (AlreadyExists (ws_name tf_workspace))
        | [] => migrate_new cfg outside lib tf_workspace (ws_name tf_workspace)
        end)
       (fun e => write_line (FailedToMigrate (ws_name tf_workspace) e)))%migr.
Proof.
  unfold eligible, migrate_one. intros H.
  apply andb_true_iff in H as [H H3]. apply andb_true_iff in H as [H1 H2].
  apply negb_true_iff in H1, H2, H3. rewrite H1, H2, H3. reflexivity.
Qed.

(** A workspace the loop skips changes nothing but the printed lines. *)
Lemma migrate_one_skipped (tf_workspace : TfWorkspace) (W : World) :
  eligible tf_workspace = false ->
  exists lines,
    migrate_one cfg outside lib tf_workspace W
    = (inr tt, set_out (fun o => (o ++ lines)%list) W)
    /\ forall name, ~ In (AlreadyExists name) lines.
Proof.
  unfold eligible, migrate_one. intros H.
  destruct (version_unsupported (ws_terraform_version tf_workspace)).
  - eexists. split; [reflexivity |]. intros name [K | []]. discriminate.
  - destruct (ws_locked tf_workspace).
    + exists []. split; [| intros name []].
      unfold ret, set_out. destruct W. simpl. now rewrite app_nil_r.
    + destruct (ws_resource_count tf_workspace =? 0)%Z; [| discriminate].
      eexists. split; [reflexivity |]. intros name [K | []]. discriminate.
Qed.

Lemma fetch_scalr_workspaces_eq (name env : string) (W : World) :
  fetch_scalr_workspaces outside name env W
  = match fault outside (List.length (trace W)) (ScalrGetWorkspaces name env) with
    | Some err =>
        (inl (CallFailed (ScalrGetWorkspaces name env) err),
         set_trace (fun t => (t ++ [ScalrGetWorkspaces name env])%list) W)
    | None =>
        (inr (scalr_find name env (scalr_workspaces W)),
         set_trace (fun t => (t ++ [ScalrGetWorkspaces name env])%list) W)
    end.
Proof.
  unfold fetch_scalr_workspaces, bind, request.
  destruct (fault outside _ _); reflexivity.
Qed.

(** The idempotency gate: for a workspace the target already has, the body
    sends the existence query, prints one line and does nothing else. *)
Lemma migrate_one_existing (tf_workspace : TfWorkspace) (env : string) (W : World) :
  eligible tf_workspace = true ->
  Dict.get (account_of tf_workspace) (environments cfg) = Some env ->
  scalr_find (ws_name tf_workspace) env (scalr_workspaces W) <> [] ->
  fault outside (List.length (trace W)) (ScalrGetWorkspaces (ws_name tf_workspace) env) = None ->
  migrate_one cfg outside lib tf_workspace W
  = (inr tt,
     set_out (fun o => (o ++ [AlreadyExists (ws_name tf_workspace)])%list)
       (set_trace (fun t => (t ++ [ScalrGetWorkspaces (ws_name tf_workspace) env])%list) W)).
Proof.
  intros Hel Henv Hfind Hfault.
  rewrite (migrate_one_eligible _ Hel).
  unfold environment_of. rewrite Henv.
  unfold bind at 1. unfold ret at 1.
  unfold bind. rewrite fetch_scalr_workspaces_eq, Hfault.
  destruct (scalr_find _ env (scalr_workspaces W)) as [| item found]; [contradiction |].
  reflexivity.
Qed.

(** An exception of the [try] block is caught: the failure is printed and
    the loop goes on. *)
Lemma failure_in_try_block (tf_workspace : TfWorkspace) (rest : list TfWorkspace)
    (env : string) (e : exn) (W W1 W2 : World) :
  eligible tf_workspace = true ->
  Dict.get (account_of tf_workspace) (environments cfg) = Some env ->
  fetch_scalr_workspaces outside (ws_name tf_workspace) env W = (inr [], W1) ->
  migrate_new cfg outside lib tf_workspace (ws_name tf_workspace) W1 = (inl e, W2) ->
  migrate_loop cfg outside lib (tf_workspace :: rest) W
  = migrate_loop cfg outside lib rest
      (set_out (fun o => (o ++ [FailedToMigrate (ws_name tf_workspace) e])%list) W2).
Proof.
  intros Hel Henv Hfetch Hnew.
  cbn [migrate_loop].
  rewrite (migrate_one_eligible _ Hel).
  unfold environment_of. rewrite Henv.
  unfold bind at 1. unfold bind at 1. unfold ret at 1.
  unfold bind at 1. rewrite Hfetch.
  unfold try_except. rewrite Hnew.
  reflexivity.
Qed.

(** C2. An exception raised by the steps of the [try] block (creation,
    state, variables, lock, patch) for one workspace is caught there: the
    loop prints the failure with the name of the workspace and the error,
    and goes on with the workspaces that follow, from the world the failed
    steps left. *)
Theorem C2_failure_isolation (tf_workspace : TfWorkspace) (rest : list TfWorkspace)
    (env : string) (e : exn) (W W1 W2 : World) :
  eligible tf_workspace = true ->
  Dict.get (account_of tf_workspace) (environments cfg) = Some env ->
  fetch_scalr_workspaces outside (ws_name tf_workspace) env W = (inr [], W1) ->
  migrate_new cfg outside lib tf_workspace (ws_name tf_workspace) W1 = (inl e, W2) ->
  migrate_loop cfg outside lib (tf_workspace :: rest) W
  = migrate_loop cfg outside lib rest
      (set_out (fun o => (o ++ [FailedToMigrate (ws_name tf_workspace) e])%list) W2).
Proof. exact (failure_in_try_block tf_workspace rest env e W W1 W2). Qed.

Lemma same_resources_refl (W : World) : same_resources W W.
Proof. repeat split. Qed.

Lemma migrate_loop_cons (tf_workspace : TfWorkspace) (rest : list TfWorkspace) (W : World) :
  migrate_loop cfg outside lib (tf_workspace :: rest) W
  = match migrate_one cfg outside lib tf_workspace W with
    | (inr _, W1) => migrate_loop cfg outside lib rest W1
    | (inl e, W1) => (inl e, W1)
    end.
Proof. reflexivity. Qed.

(** The look-up of line 328 is outside the [try] block: an account without
    an environment ends the body with [KeyError]. *)
Lemma migrate_one_unknown_environment (tf_workspace : TfWorkspace) (W : World) :
  eligible tf_workspace = true ->
  Dict.get (account_of tf_workspace) (environments cfg) = None ->
  migrate_one cfg outside lib tf_workspace W = (inl (KeyError (account_of tf_workspace)), W).
Proof.
  intros Hel Henv. rewrite (migrate_one_eligible _ Hel).
  unfold environment_of. rewrite Henv. reflexivity.
Qed.

(** So is the existence query: its failure ends the body too. *)
Lemma migrate_one_query_failed (tf_workspace : TfWorkspace) (env err : string) (W : World) :
  eligible tf_workspace = true ->
  Dict.get (account_of tf_workspace) (environments cfg) = Some env ->
  fault outside (List.length (trace W)) (ScalrGetWorkspaces (ws_name tf_workspace) env) = Some err ->
  migrate_one cfg outside lib tf_workspace W
  = (inl (CallFailed (ScalrGetWorkspaces (ws_name tf_workspace) env) err),
     set_trace (fun t => (t ++ [ScalrGetWorkspaces (ws_name tf_workspace) env])%list) W).
Proof.
  intros Hel Henv Hfault. rewrite (migrate_one_eligible _ Hel).
  unfold environment_of. rewrite Henv.
  unfold bind at 1. unfold ret at 1.
  unfold bind. rewrite fetch_scalr_workspaces_eq, Hfault. reflexivity.
Qed.

(** With it the loop ends: the workspaces that follow are not reached. *)
Lemma migrate_loop_unknown_environment (tf_workspace : TfWorkspace) (rest : list TfWorkspace)
    (W : World) :
  eligible tf_workspace = true ->
  Dict.get (account_of tf_workspace) (environments cfg) = None ->
  migrate_loop cfg outside lib (tf_workspace :: rest) W
  = (inl (KeyError (account_of tf_workspace)), W).
Proof.
  intros Hel Henv. rewrite migrate_loop_cons.
  now rewrite (migrate_one_unknown_environment _ _ Hel Henv).
Qed.

(** What the body prints for a workspace it skips. *)
Lemma migrate_one_skipped_report (tf_workspace : TfWorkspace) (W : World) :
  eligible tf_workspace = false ->
  migrate_one cfg outside lib tf_workspace W
  = (inr tt, set_out (fun o => (o ++ rerun_report tf_workspace)%list) W).
Proof.
  unfold eligible, migrate_one, rerun_report. intros H.
  destruct (version_unsupported (ws_terraform_version tf_workspace)); [reflexivity |].
  destruct (ws_locked tf_workspace).
  - unfold ret, set_out. destruct W. simpl. now rewrite app_nil_r.
  - destruct (ws_resource_count tf_workspace =? 0)%Z; [reflexivity | discriminate].
Qed.

Lemma rerun_report_eligible (tf_workspace : TfWorkspace) :
  eligible tf_workspace = true ->
  rerun_report tf_workspace = [AlreadyExists (ws_name tf_workspace)].
Proof.
  unfold eligible, rerun_report.
  destruct (version_unsupported _), (ws_locked _), (_ =? _)%Z; try discriminate.
  reflexivity.
Qed.

(** A workspace listed as locked is passed over: no call, no line. *)
Lemma migrate_one_locked (tf_workspace : TfWorkspace) (W : World) :
  version_unsupported (ws_terraform_version tf_workspace) = false ->
  ws_locked tf_workspace = true ->
  migrate_one cfg outside lib tf_workspace W = (inr tt, W).
Proof. unfold migrate_one. intros -> ->. reflexivity. Qed.

(** C1. A run over workspaces that the target already holds, each under its
    name and environment, sends nothing but existence queries: the resources
    of the target, the source, the local files and the set of patched
    projects are left as they were. When the run reaches its end, what it
    printed is [rerun_report] of the workspaces in order: a workspace the
    loop did not skip was reported as already existing, and a workspace
    listed as locked, as the source lists one the first run locked, was
    passed over without a call and without a line. *)
Theorem C1_rerun_leaves_existing_untouched (workspaces : list TfWorkspace) (W : World) :
  (forall tf_workspace env,
      In tf_workspace workspaces ->
      eligible tf_workspace = true ->
      Dict.get (account_of tf_workspace) (environments cfg) = Some env ->
      scalr_find (ws_name tf_workspace) env (scalr_workspaces W) <> []) ->
  exists queries lines,
    same_resources W (snd (migrate_loop cfg outside lib workspaces W))
    /\ trace (snd (migrate_loop cfg outside lib workspaces W)) = (trace W ++ queries)%list
    /\ Forall is_existence_query queries
    /\ out (snd (migrate_loop cfg outside lib workspaces W)) = (out W ++ lines)%list
    /\ (fst (migrate_loop cfg outside lib workspaces W) = inr tt ->
        lines = flat_map rerun_report workspaces
        /\ forall tf_workspace,
            In tf_workspace workspaces ->
            eligible tf_workspace = true ->
            In (AlreadyExists (ws_name tf_workspace)) lines)
    /\ (forall tf_workspace W',
           version_unsupported (ws_terraform_version tf_workspace) = false ->
           ws_locked tf_workspace = true ->
           rerun_report tf_workspace = []
           /\ migrate_one cfg outside lib tf_workspace W' = (inr tt, W')).
Proof.
  assert (Hlocked : forall tf_workspace W',
             version_unsupported (ws_terraform_version tf_workspace) = false ->
             ws_locked tf_workspace = true ->
             rerun_report tf_workspace = []
             /\ migrate_one cfg outside lib tf_workspace W' = (inr tt, W')).
  { intros w W' Hv Hl. split; [| now apply migrate_one_locked].
    unfold rerun_report. now rewrite Hv, Hl. }
  revert W. induction workspaces as [| w rest IH]; intros W Hexists.
  - exists [], []. simpl. rewrite !app_nil_r.
    split; [apply same_resources_refl |].
    split; [reflexivity |]. split; [constructor |]. split; [reflexivity |].
    split; [intros _; split; [reflexivity | intros w []] | exact Hlocked].
  - rewrite migrate_loop_cons.
    destruct (eligible w) eqn:Hel.
    + destruct (Dict.get (account_of w) (environments cfg)) as [env |] eqn:Henv.
      * destruct (fault outside (List.length (trace W)) (ScalrGetWorkspaces (ws_name w) env))
          as [err |] eqn:Hfault.
        -- rewrite (migrate_one_query_failed _ _ _ _ Hel Henv Hfault).
           exists [ScalrGetWorkspaces (ws_name w) env], []. simpl.
           rewrite app_nil_r.
           split; [repeat split |].
           split; [reflexivity |].
           split; [constructor; [exact I | constructor] |].
           split; [reflexivity |]. split; [discriminate | exact Hlocked].
        -- pose proof (Hexists w env (or_introl eq_refl) Hel Henv) as Hfound.
           rewrite (migrate_one_existing _ _ _ Hel Henv Hfound Hfault).
           set (W1 := set_out _ _).
           destruct (IH W1) as (queries & lines & Hsame & Htrace & Hq & Hout & Hrep & _).
           { intros w' env' Hin. apply Hexists. now right. }
           exists (ScalrGetWorkspaces (ws_name w) env :: queries),
                  (AlreadyExists (ws_name w) :: lines).
           split; [exact Hsame |].
           split; [rewrite Htrace; simpl; now rewrite <- app_assoc |].
           split; [constructor; [exact I | exact Hq] |].
           split; [rewrite Hout; simpl; now rewrite <- app_assoc |].
           split; [| exact Hlocked].
           intros Hdone. destruct (Hrep Hdone) as [Hlines Hall]. split.
           ++ cbn [flat_map]. rewrite (rerun_report_eligible _ Hel), Hlines. reflexivity.
           ++ intros w' [-> | Hin] Hel'; [now left | right; now apply Hall].
      * rewrite (migrate_one_unknown_environment _ _ Hel Henv).
        exists [], []. simpl. rewrite !app_nil_r.
        split; [apply same_resources_refl |].
        split; [reflexivity |]. split; [constructor |]. split; [reflexivity |].
        split; [discriminate | exact Hlocked].
    + rewrite (migrate_one_skipped_report w W Hel).
      set (W1 := set_out _ W).
      destruct (IH W1) as (queries & lines & Hsame & Htrace & Hq & Hout & Hrep & _).
      { intros w' env' Hin. apply Hexists. now right. }
      exists queries, (rerun_report w ++ lines)%list.
      split; [exact Hsame |].
      split; [exact Htrace |].
      split; [exact Hq |].
      split; [rewrite Hout; simpl; now rewrite <- app_assoc |].
      split; [| exact Hlocked].
      intros Hdone. destruct (Hrep Hdone) as [Hlines Hall]. split.
      * cbn [flat_map]. now rewrite Hlines.
      * intros w' [-> | Hin] Hel'; [congruence |].
        apply in_or_app. right. now apply Hall.
Qed.

End Loop.

(** ** Transferring the variables *)

Section Variables.

Variable cfg : Config.
Variable outside : Outside.
Variable lib : Library.

Lemma request_eq (c : Call) (W : World) :
  request outside c W
  = match fault outside (List.length (trace W)) c with
    | Some err => (inl (CallFailed c err), set_trace (fun t => (t ++ [c])%list) W)
    | None => (inr tt, set_trace (fun t => (t ++ [c])%list) W)
    end.
Proof. reflexivity. Qed.

Lemma write_scalr_vars_eq (data : json) (W : World) :
  write_scalr outside "vars" data W
  = match fault outside (List.length (trace W)) (ScalrPost "vars" data) with
    | Some err =>
        (inl (CallFailed (ScalrPost "vars" data) err),
         set_trace (fun t => (t ++ [ScalrPost "vars" data])%list) W)
    | None =>
        (inr (scalr_new_id outside "vars" (List.length (scalr_vars W))),
         set_scalr_vars (fun l => (l ++ [data])%list)
           (set_trace (fun t => (t ++ [ScalrPost "vars" data])%list) W))
    end.
Proof.
  unfold write_scalr, bind, request.
  destruct (fault outside _ _); reflexivity.
Qed.

Lemma secret_lookups_app (l1 l2 : list Call) :
  secret_lookups (l1 ++ l2) = (secret_lookups l1 + secret_lookups l2)%nat.
Proof. unfold secret_lookups. now rewrite List.filter_app, List.length_app. Qed.

(** One turn of the loop over the variables. *)
Lemma migrate_variable_spec (secrets : gmap string string) (workspace_id : string)
    (v : TfVar) (W : World) :
  let r := migrate_variable outside secrets (workspace_relationship workspace_id) v W in
  match spec_transferred_variable secrets workspace_id v with
  | None => r = (inl (KeyError (var_key v)), W)
  | Some doc =>
      trace (snd r) = (trace W ++ [ScalrPost "vars" doc])%list
      /\ (fst r = inr tt -> scalr_vars (snd r) = (scalr_vars W ++ [doc])%list)
      /\ (fst r <> inr tt -> scalr_vars (snd r) = scalr_vars W)
  end.
Proof.
  unfold migrate_variable, spec_transferred_variable, create_variable.
  destruct (var_sensitive v); cbn [negb].
  - destruct (secrets !! var_key v) as [secret |]; [| reflexivity].
    unfold bind. rewrite write_scalr_vars_eq.
    destruct (fault outside _ _); simpl; repeat split; congruence.
  - unfold bind. rewrite write_scalr_vars_eq.
    destruct (fault outside _ _); simpl; repeat split; congruence.
Qed.

Lemma spec_transferred_plain (secrets secrets' : gmap string string) (workspace_id : string)
    (v : TfVar) :
  var_sensitive v = false ->
  spec_transferred_variable secrets workspace_id v
  = spec_transferred_variable secrets' workspace_id v.
Proof. unfold spec_transferred_variable. now intros ->. Qed.

(** The loop over the variables: the documents posted are those the
    specification asks for, in order, for the variables reached; no secret
    is looked up; a variable without a document stops the loop. *)
Lemma migrate_variable_list_spec (secrets : gmap string string) (workspace_id : string)
    (vars : list TfVar) :
  forall W,
    let r := migrate_variable_list outside secrets (workspace_relationship workspace_id) vars W in
    exists done posted calls,
      (exists rest, vars = (done ++ rest)%list)
      /\ Forall2 (fun v doc => spec_transferred_variable secrets workspace_id v = Some doc)
           done posted
      /\ scalr_vars (snd r) = (scalr_vars W ++ posted)%list
      /\ trace (snd r) = (trace W ++ calls)%list
      /\ secret_lookups calls = 0%nat
      /\ (fst r = inr tt -> done = vars)
      /\ ((exists v, In v vars /\ spec_transferred_variable secrets workspace_id v = None) ->
          exists e, fst r = inl e).
Proof.
  induction vars as [| v rest IH]; intros W r.
  - exists [], [], []. subst r. simpl. rewrite !app_nil_r.
    split; [now exists [] |]. split; [constructor |].
    repeat split. intros (v & [] & _).
  - subst r. cbn [migrate_variable_list]. unfold bind.
    pose proof (migrate_variable_spec secrets workspace_id v W) as Hstep.
    cbv zeta in Hstep.
    destruct (spec_transferred_variable secrets workspace_id v) as [doc |] eqn:Hdoc.
    + destruct (migrate_variable outside secrets _ v W) as [[e | []] W1] eqn:Hrun;
        simpl in Hstep; destruct Hstep as (Htr & Hok & Hko).
      * exists [], [], [ScalrPost "vars" doc]. simpl. rewrite app_nil_r.
        split; [now exists (v :: rest) |]. split; [constructor |].
        split; [apply Hko; discriminate |]. split; [exact Htr |].
        split; [reflexivity |]. split; [discriminate | intros _; now exists e].
      * specialize (IH W1). cbv zeta in IH.
        destruct IH as (done & posted & calls & (rest' & Hrest) & Hall & Hvars & Htrace
                        & Hnone & Hdone & Hmiss).
        exists (v :: done), (doc :: posted), (ScalrPost "vars" doc :: calls).
        split; [exists rest'; simpl; now rewrite Hrest |].
        split; [constructor; assumption |].
        split; [rewrite Hvars, (Hok eq_refl); now rewrite <- app_assoc |].
        split; [rewrite Htrace, Htr; now rewrite <- app_assoc |].
        split; [exact Hnone |].
        split; [intros Hfin; now rewrite (Hdone Hfin) |].
        intros (v' & [-> | Hin] & Hv'); [congruence |].
        apply Hmiss. now exists v'.
    + rewrite Hstep. exists [], [], []. simpl. rewrite !app_nil_r.
      split; [now exists (v :: rest) |]. split; [constructor |].
      repeat split; try discriminate.
      intros _. now exists (KeyError (var_key v)).
Qed.

Lemma existsb_sensitive_false (vars : list TfVar) :
  existsb var_sensitive vars = false ->
  forall v, In v vars -> var_sensitive v = false.
Proof.
  intros H v Hin. destruct (var_sensitive v) eqn:Hv; [| reflexivity].
  assert (existsb var_sensitive vars = true) by (apply existsb_exists; now exists v).
  congruence.
Qed.

Lemma Forall2_spec_transferred_plain (secrets secrets' : gmap string string)
    (workspace_id : string) (done : list TfVar) (posted : list json) :
  (forall v, In v done -> var_sensitive v = false) ->
  Forall2 (fun v doc => spec_transferred_variable secrets workspace_id v = Some doc) done posted ->
  Forall2 (fun v doc => spec_transferred_variable secrets' workspace_id v = Some doc) done posted.
Proof.
  intros Hplain H. induction H as [| v doc done posted Hv H IH]; constructor.
  - rewrite <- Hv. apply spec_transferred_plain. apply Hplain. now left.
  - apply IH. intros v' Hin. apply Hplain. now right.
Qed.

(** What [migrate_new] does when the variables fail after a successful
    creation and state transfer. *)
Lemma migrate_new_variables_failed (tf_workspace : TfWorkspace) (workspace_id : string)
    (e : exn) (W1 W2 W3 W4 : World) :
  create_workspace cfg outside tf_workspace W1 = (inr workspace_id, W2) ->
  migrate_state cfg outside lib workspace_id (ws_name tf_workspace) W2 = (inr tt, W3) ->
  migrate_variables cfg outside workspace_id (ws_name tf_workspace) W3 = (inl e, W4) ->
  migrate_new cfg outside lib tf_workspace (ws_name tf_workspace) W1 = (inl e, W4).
Proof.
  intros Hc Hs Hv. unfold migrate_new.
  rewrite (bind_inr _ _ _ _ _ Hc), (bind_inr _ _ _ _ _ Hs).
  now apply bind_inl.
Qed.

(** [migrate_variables] once the listing of the variables has answered. *)
Lemma migrate_variables_eq (workspace_id workspace_name : string) (W : World) :
  fault outside (List.length (trace W)) (TfcGetVars (tf_organization cfg) workspace_name) = None ->
  migrate_variables cfg outside workspace_id workspace_name W
  = let W1 := set_trace (fun t => (t ++ [TfcGetVars (tf_organization cfg) workspace_name])%list) W in
    let path := ssm_prefix cfg +:+ "/" +:+ workspace_name in
    if existsb var_sensitive (tfc_vars outside workspace_name) then
      match fault outside (List.length (trace W1)) (SsmGetParametersByPath path) with
      | Some err =>
          (inl (CallFailed (SsmGetParametersByPath path) err),
           set_trace (fun t => (t ++ [SsmGetParametersByPath path])%list) W1)
      | None =>
          migrate_variable_list outside (secrets_under outside path)
            (workspace_relationship workspace_id) (tfc_vars outside workspace_name)
            (set_trace (fun t => (t ++ [SsmGetParametersByPath path])%list) W1)
      end
    else
      migrate_variable_list outside ∅ (workspace_relationship workspace_id)
        (tfc_vars outside workspace_name) W1.
Proof.
  intros Hlist. unfold migrate_variables.
  unfold bind at 1. rewrite request_eq, Hlist. cbv zeta.
  destruct (existsb var_sensitive (tfc_vars outside workspace_name)).
  - unfold get_workspace_secrets, bind. rewrite request_eq.
    match goal with
    | |- context [fault outside ?n (SsmGetParametersByPath ?p)] =>
        destruct (fault outside n (SsmGetParametersByPath p))
    end; reflexivity.
  - reflexivity.
Qed.

(** Without a failing call, a variable that has a document is posted. *)
Lemma migrate_variable_posts (secrets : gmap string string) (workspace_id : string)
    (v : TfVar) (doc : json) (W : World) :
  fault outside (List.length (trace W)) (ScalrPost "vars" doc) = None ->
  spec_transferred_variable secrets workspace_id v = Some doc ->
  migrate_variable outside secrets (workspace_relationship workspace_id) v W
  = (inr tt,
     set_scalr_vars (fun l => (l ++ [doc])%list)
       (set_trace (fun t => (t ++ [ScalrPost "vars" doc])%list) W)).
Proof.
  unfold migrate_variable, spec_transferred_variable, create_variable.
  intros Hfault Hdoc.
  destruct (var_sensitive v); cbn [negb].
  - destruct (secrets !! var_key v) as [secret |]; [| discriminate].
    injection Hdoc as <-. unfold bind. now rewrite write_scalr_vars_eq, Hfault.
  - injection Hdoc as <-. unfold bind. now rewrite write_scalr_vars_eq, Hfault.
Qed.

Lemma spec_transferred_none (secrets : gmap string string) (workspace_id : string) (v : TfVar) :
  spec_transferred_variable secrets workspace_id v = None
  <-> var_sensitive v = true /\ secrets !! var_key v = None.
Proof.
  unfold spec_transferred_variable.
  destruct (var_sensitive v); [destruct (secrets !! var_key v) |];
    split; try discriminate; try tauto; intros [H1 H2]; discriminate.
Qed.

(** Without failing calls the loop posts [variable_documents], and returns
    normally exactly when every variable has a document. *)
Lemma migrate_variable_list_exact (secrets : gmap string string) (workspace_id : string)
    (vars : list TfVar) :
  fault_free outside ->
  forall W,
    let r := migrate_variable_list outside secrets (workspace_relationship workspace_id) vars W in
    scalr_vars (snd r) = (scalr_vars W ++ variable_documents secrets workspace_id vars)%list
    /\ (fst r = inr tt
        <-> forall v, In v vars -> spec_transferred_variable secrets workspace_id v <> None).
Proof.
  intros Hfree. induction vars as [| v rest IH]; intros W r; subst r.
  - cbn. rewrite app_nil_r. split; [reflexivity |]. split; [intros _ v [] | reflexivity].
  - cbn [migrate_variable_list variable_documents]. unfold bind.
    destruct (spec_transferred_variable secrets workspace_id v) as [doc |] eqn:Hdoc.
    + rewrite (migrate_variable_posts _ _ _ doc W (Hfree _ _) Hdoc).
      destruct (IH (set_scalr_vars (fun l => (l ++ [doc])%list)
                      (set_trace (fun t => (t ++ [ScalrPost "vars" doc])%list) W)))
        as [Hvars Hok].
      cbv zeta in Hvars, Hok. rewrite Hvars.
      cbn [scalr_vars set_scalr_vars set_trace]. rewrite <- app_assoc.
      split; [reflexivity |]. rewrite Hok. split.
      * intros Hall v' [<- | Hin]; [congruence | now apply Hall].
      * intros Hall v' Hin. apply Hall. now right.
    + pose proof (migrate_variable_spec secrets workspace_id v W) as Hstep.
      cbv zeta in Hstep. rewrite Hdoc in Hstep. rewrite Hstep.
      cbn [fst snd]. rewrite app_nil_r. split; [reflexivity |].
      split; [discriminate |]. intros Hall. exfalso. exact (Hall v (or_introl eq_refl) Hdoc).
Qed.

Lemma variable_documents_plain (secrets secrets' : gmap string string) (workspace_id : string)
    (vars : list TfVar) :
  (forall v, In v vars -> var_sensitive v = false) ->
  variable_documents secrets workspace_id vars = variable_documents secrets' workspace_id vars.
Proof.
  induction vars as [| v rest IH]; intros Hplain; [reflexivity |].
  cbn [variable_documents].
  rewrite (spec_transferred_plain secrets secrets' workspace_id v (Hplain v (or_introl eq_refl))).
  rewrite IH; [reflexivity |]. intros v' Hin. apply Hplain. now right.
Qed.


End Variables.

(** ** Patching the local files *)

Section Cdktf.

Variable cfg : Config.
Variable outside : Outside.
Variable lib : Library.

Lemma bind_always_fails {A B : Type} (m : M A) (f : A -> M B) :
  (forall a W, exists e W', f a W = (inl e, W')) ->
  forall W, exists e W', bind m f W = (inl e, W').
Proof.
  intros Hf W. unfold bind. destruct (m W) as [[e | a] W1].
  - now exists e, W1.
  - apply Hf.
Qed.

(** The unpacking of line 359 needs exactly three segments. *)
Lemma migrate_cdktf_unpacking (workspace_name : string) (W : World) :
  List.length (PyStr.split "-" workspace_name) <> 3%nat ->
  migrate_cdktf cfg lib workspace_name W
  = (inl (ValueError "unpacking needs exactly 3 values"), W).
Proof.
  unfold migrate_cdktf. intros Hlen.
  destruct (PyStr.split "-" workspace_name) as [| a [| b [| c [| d l]]]];
    try reflexivity.
  now contradiction Hlen.
Qed.

(** C10. For a workspace whose name does not split into exactly three
    segments at the hyphens, the patch step raises [ValueError] before it
    touches anything, so the steps of the [try] block never end without an
    exception, whatever the creation, the state, the variables and the lock
    did before. *)
Theorem C10_three_segments_required (tf_workspace : TfWorkspace) (W : World) :
  List.length (PyStr.split "-" (ws_name tf_workspace)) <> 3%nat ->
  migrate_cdktf cfg lib (ws_name tf_workspace) W
  = (inl (ValueError "unpacking needs exactly 3 values"), W)
  /\ exists e W', migrate_new cfg outside lib tf_workspace (ws_name tf_workspace) W = (inl e, W').
Proof.
  intros Hlen. split; [now apply migrate_cdktf_unpacking |].
  unfold migrate_new.
  apply bind_always_fails. intros workspace_id W1.
  apply bind_always_fails. intros _ W2.
  apply bind_always_fails. intros _ W3.
  apply bind_always_fails. intros _ W4.
  rewrite (migrate_cdktf_unpacking _ W4 Hlen). eauto.
Qed.

(** *** Steps that do not touch the local files *)

Lemma keeps_local_ret {A : Type} (a : A) : keeps_local (ret a).
Proof. intros W. reflexivity. Qed.

Lemma keeps_local_raise {A : Type} (e : exn) : keeps_local (@raise A e).
Proof. intros W. reflexivity. Qed.

Lemma keeps_local_lift {A : Type} (r : exn + A) : keeps_local (lift r).
Proof. intros W. reflexivity. Qed.

Lemma keeps_local_get_world : keeps_local get_world.
Proof. intros W. reflexivity. Qed.

Lemma keeps_local_bind {A B : Type} (m : M A) (f : A -> M B) :
  keeps_local m -> (forall a, keeps_local (f a)) -> keeps_local (bind m f).
Proof.
  intros Hm Hf W. unfold bind. specialize (Hm W).
  destruct (m W) as [[e | a] W1]; simpl in *.
  - exact Hm.
  - now rewrite Hf.
Qed.

Lemma keeps_local_try_except {A : Type} (m : M A) (h : exn -> M A) :
  keeps_local m -> (forall e, keeps_local (h e)) -> keeps_local (try_except m h).
Proof.
  intros Hm Hh W. unfold try_except. specialize (Hm W).
  destruct (m W) as [[e | a] W1]; simpl in *.
  - now rewrite Hh.
  - exact Hm.
Qed.

Lemma keeps_local_modify (f : World -> World) :
  (forall W, local_of (f W) = local_of W) -> keeps_local (modify f).
Proof. intros Hf W. apply Hf. Qed.

Lemma keeps_local_request (c : Call) : keeps_local (request outside c).
Proof. intros W. unfold request. now destruct (fault outside _ c). Qed.

Lemma keeps_local_write_line (m : Message) : keeps_local (write_line m).
Proof. intros W. reflexivity. Qed.

Create HintDb local_frame.

Hint Resolve keeps_local_ret keeps_local_raise keeps_local_lift keeps_local_get_world
  keeps_local_request keeps_local_write_line : local_frame.

Ltac frame :=
  repeat first
    [ solve [auto with local_frame]
    | progress cbv zeta
    | apply keeps_local_bind
    | apply keeps_local_try_except
    | apply keeps_local_modify; intros ?; reflexivity
    | match goal with
      | |- forall _, _ => intro
      | |- keeps_local (if ?b then _ else _) => destruct b
      | |- keeps_local (match ?x with _ => _ end) => destruct x
      end ];
  auto with local_frame.

Lemma keeps_local_write_scalr (route : string) (data : json) :
  keeps_local (write_scalr outside route data).
Proof. unfold write_scalr. frame. Qed.

Lemma keeps_local_write_tfc (route : string) (data : json) :
  keeps_local (write_tfc outside route data).
Proof. unfold write_tfc. frame. Qed.

Hint Resolve keeps_local_write_scalr keeps_local_write_tfc : local_frame.

Lemma keeps_local_fetch_scalr_workspaces (name env : string) :
  keeps_local (fetch_scalr_workspaces outside name env).
Proof. unfold fetch_scalr_workspaces. frame. Qed.

Lemma keeps_local_create_workspace (tf_workspace : TfWorkspace) :
  keeps_local (create_workspace cfg outside tf_workspace).
Proof. unfold create_workspace, environment_of. frame. Qed.

Lemma keeps_local_create_state (tfc_state : TfStateVersion) (workspace_id : string) :
  keeps_local (create_state outside lib tfc_state workspace_id).
Proof. unfold create_state, lineage_of. frame. Qed.

Hint Resolve keeps_local_create_state : local_frame.

Lemma keeps_local_create_states (states : list TfStateVersion) (workspace_id : string) :
  keeps_local (create_states outside lib states workspace_id).
Proof. induction states; cbn [create_states]; frame. Qed.

Hint Resolve keeps_local_create_states : local_frame.

Lemma keeps_local_migrate_state (workspace_id workspace_name : string) :
  keeps_local (migrate_state cfg outside lib workspace_id workspace_name).
Proof. unfold migrate_state. frame. Qed.

Lemma keeps_local_migrate_variable (secrets : gmap string string) (relationships : json)
    (v : TfVar) :
  keeps_local (migrate_variable outside secrets relationships v).
Proof. unfold migrate_variable, create_variable. frame. Qed.

Hint Resolve keeps_local_migrate_variable : local_frame.

Lemma keeps_local_migrate_variable_list (secrets : gmap string string) (relationships : json)
    (vars : list TfVar) :
  keeps_local (migrate_variable_list outside secrets relationships vars).
Proof. induction vars; cbn [migrate_variable_list]; frame. Qed.

Hint Resolve keeps_local_migrate_variable_list : local_frame.

Lemma keeps_local_migrate_variables (workspace_id workspace_name : string) :
  keeps_local (migrate_variables cfg outside workspace_id workspace_name).
Proof. unfold migrate_variables, get_workspace_secrets. frame. Qed.

Lemma keeps_local_lock_tfc_workspace (tf_workspace : TfWorkspace) :
  keeps_local (lock_tfc_workspace cfg outside tf_workspace).
Proof. unfold lock_tfc_workspace. frame. Qed.

Hint Resolve keeps_local_fetch_scalr_workspaces keeps_local_create_workspace
  keeps_local_migrate_state keeps_local_migrate_variables keeps_local_lock_tfc_workspace
  : local_frame.

(** *** The build script *)

(** A project is filed under the lower-cased last segment of its directory,
    so two projects never share a directory. *)
Lemma find_cdktf_paths_key (directories : list string) (project dir : string) :
  find_cdktf_paths lib directories !! project = Some dir ->
  project = str_lower lib (PyStr.last_segment "/" dir).
Proof.
  unfold find_cdktf_paths.
  assert (H : forall (paths : gmap string string),
             (forall p d, paths !! p = Some d -> p = str_lower lib (PyStr.last_segment "/" d)) ->
             forall p d,
               fold_left (fun paths directory =>
                            <[str_lower lib (PyStr.last_segment "/" directory) := directory]> paths)
                 directories paths !! p = Some d ->
               p = str_lower lib (PyStr.last_segment "/" d)).
  { induction directories as [| directory rest IH]; intros paths Hpaths p d Hp.
    - now apply Hpaths.
    - cbn [fold_left] in Hp. apply (IH _) in Hp; [exact Hp |].
      intros p' d' Hp'. apply lookup_insert_Some in Hp' as [[<- <-] | [_ Hp']].
      + reflexivity.
      + now apply Hpaths. }
  apply H. intros p d Hp. rewrite lookup_empty in Hp. discriminate.
Qed.

Lemma cdktf_paths_injective (project project' dir : string) :
  cdktf_paths cfg lib !! project = Some dir ->
  cdktf_paths cfg lib !! project' = Some dir ->
  project = project'.
Proof.
  unfold cdktf_paths. intros H H'.
  apply find_cdktf_paths_key in H, H'. congruence.
Qed.

(** The world after [f.seek(0, 0); f.write(text)] on the file at [path]. *)
Lemma write_from_start_eq (path raw text : string) (W : World) :
  write_from_start path raw text W
  = (inr tt, set_file_writes (fun l => (l ++ [(path, text)])%list)
               (set_files (fun fs => <[path := overwrite raw text]> fs) W)).
Proof. reflexivity. Qed.

(** The first [with] block either raises and leaves the world as it is, or
    writes the lines of the file with the fragment put before the first
    marker line. *)
Lemma inject_main_ts_cases (projectName : string) (W : World) :
  (exists e, inject_main_ts cfg lib projectName W = (inl e, W))
  \/ (exists dir raw before marker after,
         cdktf_paths cfg lib !! projectName = Some dir
         /\ files W !! (dir +:+ "/main.ts") = Some raw
         /\ PyStr.readlines (PyStr.universal_newlines raw) = (before ++ marker :: after)%list
         /\ ~ In marker before
         /\ (marker = synth_line +:+ PyStr.nl
             \/ marker = synth_line
                /\ ~ In (synth_line +:+ PyStr.nl) (PyStr.readlines (PyStr.universal_newlines raw)))
         /\ inject_main_ts cfg lib projectName W
            = (inr tt,
               set_file_writes
                 (fun l => (l ++ [(dir +:+ "/main.ts",
                                   PyStr.join EmptyString
                                     (before ++ inject_js cfg :: marker :: after))])%list)
                 (set_files
                    (fun fs => <[dir +:+ "/main.ts"
                                 := overwrite raw
                                      (PyStr.join EmptyString
                                         (before ++ inject_js cfg :: marker :: after))]> fs)
                    W))).
Proof.
  unfold inject_main_ts, cdktf_path_of, open_rplus, find_synth_index, write_from_start,
    bind, ret, raise, get_world, modify.
  cbv beta iota zeta.
  destruct (cdktf_paths cfg lib !! projectName) as [dir |] eqn:Hdir;
    [| left; eexists; reflexivity].
  cbv beta iota zeta.
  destruct (files W !! (dir +:+ "/main.ts")) as [raw |] eqn:Hraw;
    [| left; eexists; reflexivity].
  cbv beta iota zeta.
  set (content := PyStr.readlines (PyStr.universal_newlines raw)).
  destruct (PyList.index (synth_line +:+ PyStr.nl) content) as [i |] eqn:Hi.
  - right. apply index_some in Hi as (before & after & Hcontent & <- & Hnot).
    exists dir, raw, before, (synth_line +:+ PyStr.nl), after.
    split; [reflexivity |]. split; [exact Hraw |]. split; [exact Hcontent |].
    split; [exact Hnot |]. split; [now left |].
    cbv beta iota zeta. rewrite Hcontent, insert_between. reflexivity.
  - destruct (PyList.index synth_line content) as [i |] eqn:Hj.
    + right. apply index_some in Hj as (before & after & Hcontent & <- & Hnot).
      exists dir, raw, before, synth_line, after.
      split; [reflexivity |]. split; [exact Hraw |]. split; [exact Hcontent |].
      split; [exact Hnot |]. split; [right; split; [reflexivity | now apply index_none] |].
      cbv beta iota zeta. rewrite Hcontent, insert_between. reflexivity.
    + left. eexists. reflexivity.
Qed.

(** The second [with] block either raises and leaves the world as it is, or
    writes the generated configuration file of the stack. *)
Lemma patch_cdk_tf_json_cases (projectName envName accountLabel : string) (W : World) :
  (exists e, patch_cdk_tf_json cfg lib projectName envName accountLabel W = (inl e, W))
  \/ (exists dir raw text,
         cdktf_paths cfg lib !! projectName = Some dir
         /\ patch_cdk_tf_json cfg lib projectName envName accountLabel W
            = (inr tt,
               set_file_writes
                 (fun l => (l ++ [(dir +:+ "/cdktf.out/stacks/" +:+ envName +:+ "-"
                                     +:+ accountLabel +:+ "/cdk.tf.json", text)])%list)
                 (set_files
                    (fun fs => <[dir +:+ "/cdktf.out/stacks/" +:+ envName +:+ "-"
                                   +:+ accountLabel +:+ "/cdk.tf.json"
                                 := overwrite raw text]> fs)
                    W))).
Proof.
  unfold patch_cdk_tf_json, cdktf_path_of, open_rplus, environment_of, write_from_start,
    bind, ret, raise, lift, get_world, modify.
  cbv beta iota zeta.
  destruct (cdktf_paths cfg lib !! projectName) as [dir |] eqn:Hdir;
    [| left; eexists; reflexivity].
  cbv beta iota zeta.
  match goal with
  | |- context [files W !! ?p] => destruct (files W !! p) as [raw |] eqn:Hraw
  end; [| left; eexists; reflexivity].
  cbv beta iota zeta.
  destruct (json_loads lib (PyStr.universal_newlines raw)) as [cdktf |];
    [| left; eexists; reflexivity].
  cbv beta iota zeta.
  destruct (Json.setitem_at _ "hostname" _ cdktf) as [e | cdktf1];
    [left; eexists; reflexivity |].
  cbv beta iota zeta.
  destruct (Dict.get accountLabel (environments cfg)) as [env |];
    [| left; eexists; reflexivity].
  cbv beta iota zeta.
  destruct (Json.setitem_at _ "organization" _ cdktf1) as [e | cdktf2];
    [left; eexists; reflexivity |].
  cbv beta iota zeta.
  destruct (Json.setitem_at _ "overrides" _ cdktf2) as [e | cdktf3];
    [left; eexists; reflexivity |].
  right. exists dir, raw, (json_dumps_indent2 lib cdktf3).
  split; reflexivity.
Qed.

(** A text shorter than the old content leaves the end of the old content
    in the file. *)
Lemma overwrite_shorter (raw text : string) :
  (String.length text < String.length raw)%nat -> overwrite raw text <> text.
Proof.
  intros Hlen H. apply (f_equal String.length) in H.
  unfold overwrite in H. rewrite length_append in H.
  assert (Hdrop : forall n s, (n < String.length s)%nat ->
                              (0 < String.length (PyStr.drop n s))%nat).
  { induction n as [| n IH]; intros [| c s] Hs; simpl in *; try lia.
    apply IH. lia. }
  specialize (Hdrop _ _ Hlen). lia.
Qed.

(** A text at least as long as the old content replaces it. *)
Lemma overwrite_longer (raw text : string) :
  (String.length raw <= String.length text)%nat -> overwrite raw text = text.
Proof.
  intros Hlen. unfold overwrite.
  assert (Hdrop : forall n s, (String.length s <= n)%nat -> PyStr.drop n s = EmptyString).
  { induction n as [| n IH]; intros [| c s] Hs; simpl in *; try reflexivity; try lia.
    apply IH. lia. }
  rewrite (Hdrop _ _ Hlen). clear Hlen Hdrop.
  induction text as [| c text IH]; [reflexivity |].
  rewrite append_cons. now f_equal.
Qed.

(** *** The set of patched projects counts the writes of the build scripts *)

Lemma injected_once_local (W W' : World) :
  local_of W' = local_of W -> injected_once cfg lib W -> injected_once cfg lib W'.
Proof.
  unfold local_of, injected_once. intros H Hinv project dir Hdir.
  injection H as -> ->. now apply Hinv.
Qed.

Lemma injected_once_keeps_local {A : Type} (m : M A) (W : World) :
  keeps_local m -> injected_once cfg lib W -> injected_once cfg lib (snd (m W)).
Proof. intros Hm. apply injected_once_local, Hm. Qed.

Lemma injected_once_cdk_tf_json (dir envName accountLabel text : string)
    (f : gmap string string -> gmap string string) (W : World) :
  injected_once cfg lib W ->
  injected_once cfg lib
    (set_file_writes
       (fun l => (l ++ [(dir +:+ "/cdktf.out/stacks/" +:+ envName +:+ "-"
                           +:+ accountLabel +:+ "/cdk.tf.json", text)])%list)
       (set_files f W)).
Proof.
  intros Hinv project dir' Hdir'. cbn [file_writes migrated_cdktf_mains set_file_writes set_files].
  rewrite writes_to_app, writes_to_other, Nat.add_0_r; [now apply Hinv |].
  intros H. symmetry in H. now apply main_ts_is_not_cdk_tf_json in H.
Qed.

Lemma injected_once_main_ts (projectName dir text : string)
    (f : gmap string string -> gmap string string) (W : World) :
  injected_once cfg lib W ->
  projectName ∉ migrated_cdktf_mains W ->
  cdktf_paths cfg lib !! projectName = Some dir ->
  injected_once cfg lib
    (set_migrated_cdktf_mains (fun done => done ∪ {[projectName]})
       (set_file_writes (fun l => (l ++ [(dir +:+ "/main.ts", text)])%list) (set_files f W))).
Proof.
  intros Hinv Hnew Hdir project dir' Hdir'.
  cbn [file_writes migrated_cdktf_mains set_migrated_cdktf_mains set_file_writes set_files].
  rewrite writes_to_app, (Hinv project dir' Hdir').
  destruct (decide (project = projectName)) as [-> | Hne].
  - assert (dir' = dir) as -> by congruence.
    rewrite writes_to_same.
    destruct (decide (projectName ∈ migrated_cdktf_mains W)); [contradiction |].
    destruct (decide (projectName ∈ migrated_cdktf_mains W ∪ {[projectName]})) as [Hin | Hout];
      [reflexivity | exfalso].
    apply Hout, elem_of_union. right. now apply elem_of_singleton.
  - rewrite writes_to_other, Nat.add_0_r.
    + destruct (decide (project ∈ migrated_cdktf_mains W)) as [Hin | Hout],
        (decide (project ∈ migrated_cdktf_mains W ∪ {[projectName]})) as [Hin' | Hout'];
        try reflexivity; exfalso.
      * apply Hout', elem_of_union. now left.
      * apply elem_of_union in Hin' as [Hin' | Hin']; [contradiction |].
        apply elem_of_singleton in Hin'. contradiction.
    + intros H. apply append_cancel_right in H. subst dir'.
      apply Hne. symmetry. exact (cdktf_paths_injective _ _ _ Hdir Hdir').
Qed.

Lemma injected_once_patch_cdk_tf_json (projectName envName accountLabel : string) (W : World) :
  injected_once cfg lib W ->
  injected_once cfg lib (snd (patch_cdk_tf_json cfg lib projectName envName accountLabel W)).
Proof.
  intros Hinv.
  destruct (patch_cdk_tf_json_cases projectName envName accountLabel W)
    as [[e He] | (dir & raw & text & _ & He)]; rewrite He; cbn [snd].
  - exact Hinv.
  - now apply injected_once_cdk_tf_json.
Qed.

Lemma injected_once_migrate_cdktf (workspace_name : string) (W : World) :
  injected_once cfg lib W ->
  injected_once cfg lib (snd (migrate_cdktf cfg lib workspace_name W)).
Proof.
  intros Hinv. unfold migrate_cdktf.
  destruct (PyStr.split "-" workspace_name) as [| p [| en [| ac [| x l]]]]; try exact Hinv.
  unfold bind at 1. unfold get_world. cbv beta iota.
  destruct (decide (p ∈ migrated_cdktf_mains W)) as [Hin | Hnew].
  - unfold bind, ret. now apply injected_once_patch_cdk_tf_json.
  - destruct (inject_main_ts_cases p W)
      as [[err He] | (dir & raw & before & marker & after & Hdir & Hraw & Hlines & Hfirst & Hm & He)].
    + unfold bind. rewrite He. exact Hinv.
    + unfold bind. rewrite He. unfold modify. cbv beta iota.
      apply injected_once_patch_cdk_tf_json.
      now apply injected_once_main_ts.
Qed.

Lemma injected_once_bind {A B : Type} (m : M A) (f : A -> M B) :
  (forall W, injected_once cfg lib W -> injected_once cfg lib (snd (m W))) ->
  (forall a W, injected_once cfg lib W -> injected_once cfg lib (snd (f a W))) ->
  forall W, injected_once cfg lib W -> injected_once cfg lib (snd (bind m f W)).
Proof.
  intros Hm Hf W Hinv. unfold bind. specialize (Hm W Hinv).
  destruct (m W) as [[e | a] W1]; cbn [snd] in *; [exact Hm | now apply Hf].
Qed.

Lemma injected_once_migrate_new (tf_workspace : TfWorkspace) (workspace_name : string) (W : World) :
  injected_once cfg lib W ->
  injected_once cfg lib (snd (migrate_new cfg outside lib tf_workspace workspace_name W)).
Proof.
  revert W. unfold migrate_new.
  apply injected_once_bind;
    [intros W; apply injected_once_keeps_local, keeps_local_create_workspace |].
  intros workspace_id. apply injected_once_bind;
    [intros W; apply injected_once_keeps_local, keeps_local_migrate_state |].
  intros _. apply injected_once_bind;
    [intros W; apply injected_once_keeps_local, keeps_local_migrate_variables |].
  intros _. apply injected_once_bind;
    [intros W; apply injected_once_keeps_local, keeps_local_lock_tfc_workspace |].
  intros _ W. apply injected_once_migrate_cdktf.
Qed.

Lemma injected_once_migrate_one (tf_workspace : TfWorkspace) (W : World) :
  injected_once cfg lib W ->
  injected_once cfg lib (snd (migrate_one cfg outside lib tf_workspace W)).
Proof.
  revert W. unfold migrate_one.
  destruct (version_unsupported _);
    [intros W; apply injected_once_keeps_local, keeps_local_write_line |].
  destruct (ws_locked _); [intros W; apply injected_once_keeps_local, keeps_local_ret |].
  destruct (_ =? _)%Z; [intros W; apply injected_once_keeps_local, keeps_local_write_line |].
  apply injected_once_bind.
  { intros W. apply injected_once_keeps_local. unfold environment_of. frame. }
  intros env. apply injected_once_bind;
    [intros W; apply injected_once_keeps_local, keeps_local_fetch_scalr_workspaces |].
  intros found W Hinv. unfold try_except.
  destruct found as [| item found].
  - pose proof (injected_once_migrate_new tf_workspace (ws_name tf_workspace) W Hinv) as H.
    destruct (migrate_new _ _ _ _ _ W) as [[e | []] W1]; exact H.
  - exact Hinv.
Qed.

Lemma injected_once_migrate_loop (workspaces : list TfWorkspace) (W : World) :
  injected_once cfg lib W ->
  injected_once cfg lib (snd (migrate_loop cfg outside lib workspaces W)).
Proof.
  revert W. induction workspaces as [| w rest IH]; intros W Hinv; [exact Hinv |].
  cbn [migrate_loop]. revert W Hinv. apply injected_once_bind.
  - intros W. apply injected_once_migrate_one.
  - intros _. exact IH.
Qed.

Lemma keeps_local_fetch_workspace_pages (pages : list (list TfWorkspace)) :
  forall page, keeps_local (fetch_workspace_pages cfg outside page pages).
Proof.
  induction pages as [| data more IH]; intros page; cbn [fetch_workspace_pages].
  - frame.
  - apply keeps_local_bind; [frame |]. intros _.
    destruct more; [frame |].
    apply keeps_local_bind; [apply IH | frame].
Qed.

Lemma injected_once_initial (existing : list (string * json)) (fs : gmap string string) :
  injected_once cfg lib (initial_world existing fs).
Proof. intros project dir _. reflexivity. Qed.

(** *** A patched project stays patched *)

Lemma keeps_patched_local {A : Type} (m : M A) : keeps_local m -> keeps_patched m.
Proof.
  intros Hm W project Hin. specialize (Hm W). unfold local_of in Hm.
  injection Hm as _ Hmains. now rewrite Hmains.
Qed.

Lemma keeps_patched_bind {A B : Type} (m : M A) (f : A -> M B) :
  keeps_patched m -> (forall a, keeps_patched (f a)) -> keeps_patched (bind m f).
Proof.
  intros Hm Hf W project Hin. unfold bind. specialize (Hm W project Hin).
  destruct (m W) as [[e | a] W1]; cbn [snd] in *; [exact Hm | now apply Hf].
Qed.

Lemma keeps_patched_patch_cdk_tf_json (projectName envName accountLabel : string) :
  keeps_patched (patch_cdk_tf_json cfg lib projectName envName accountLabel).
Proof.
  intros W project Hin.
  destruct (patch_cdk_tf_json_cases projectName envName accountLabel W)
    as [[e He] | (dir & raw & text & _ & He)]; rewrite He; exact Hin.
Qed.

Lemma keeps_patched_migrate_cdktf (workspace_name : string) :
  keeps_patched (migrate_cdktf cfg lib workspace_name).
Proof.
  intros W project Hin. unfold migrate_cdktf.
  destruct (PyStr.split "-" workspace_name) as [| p [| en [| ac [| x l]]]]; try exact Hin.
  unfold bind at 1. unfold get_world. cbv beta iota.
  destruct (decide (p ∈ migrated_cdktf_mains W)) as [Hp | Hnew].
  - unfold bind, ret. now apply keeps_patched_patch_cdk_tf_json.
  - destruct (inject_main_ts_cases p W)
      as [[err He] | (dir & raw & before & marker & after & _ & _ & _ & _ & _ & He)];
      unfold bind; rewrite He; [exact Hin |].
    unfold modify. cbv beta iota.
    apply keeps_patched_patch_cdk_tf_json.
    cbn [migrated_cdktf_mains set_migrated_cdktf_mains set_file_writes set_files].
    apply elem_of_union. now left.
Qed.

Lemma keeps_patched_migrate_new (tf_workspace : TfWorkspace) (workspace_name : string) :
  keeps_patched (migrate_new cfg outside lib tf_workspace workspace_name).
Proof.
  unfold migrate_new.
  apply keeps_patched_bind; [apply keeps_patched_local, keeps_local_create_workspace |].
  intros workspace_id.
  apply keeps_patched_bind; [apply keeps_patched_local, keeps_local_migrate_state |].
  intros _.
  apply keeps_patched_bind; [apply keeps_patched_local, keeps_local_migrate_variables |].
  intros _.
  apply keeps_patched_bind; [apply keeps_patched_local, keeps_local_lock_tfc_workspace |].
  intros _. apply keeps_patched_migrate_cdktf.
Qed.

Lemma keeps_patched_migrate_one (tf_workspace : TfWorkspace) :
  keeps_patched (migrate_one cfg outside lib tf_workspace).
Proof.
  unfold migrate_one.
  destruct (version_unsupported _); [apply keeps_patched_local, keeps_local_write_line |].
  destruct (ws_locked _); [apply keeps_patched_local, keeps_local_ret |].
  destruct (_ =? _)%Z; [apply keeps_patched_local, keeps_local_write_line |].
  apply keeps_patched_bind.
  { apply keeps_patched_local. unfold environment_of. frame. }
  intros env.
  apply keeps_patched_bind;
    [apply keeps_patched_local, keeps_local_fetch_scalr_workspaces |].
  intros found W project Hin. unfold try_except.
  destruct found as [| item found]; [| exact Hin].
  pose proof (keeps_patched_migrate_new tf_workspace (ws_name tf_workspace) W project Hin) as H.
  destruct (migrate_new _ _ _ _ _ W) as [[e | []] W1]; exact H.
Qed.

Lemma keeps_patched_migrate_loop (workspaces : list TfWorkspace) :
  keeps_patched (migrate_loop cfg outside lib workspaces).
Proof.
  induction workspaces as [| w rest IH]; [intros W project Hin; exact Hin |].
  cbn [migrate_loop]. apply keeps_patched_bind.
  - apply keeps_patched_migrate_one.
  - intros _. exact IH.
Qed.

(** *** A migrated workspace has its project patched *)

(** The patch step returns normally only for a name of three segments, and
    then the project is in the set of patched ones. *)
Lemma migrate_cdktf_records (workspace_name : string) (W W' : World) :
  migrate_cdktf cfg lib workspace_name W = (inr tt, W') ->
  exists projectName envName accountLabel dir,
    PyStr.split "-" workspace_name = [projectName; envName; accountLabel]
    /\ cdktf_paths cfg lib !! projectName = Some dir
    /\ projectName ∈ migrated_cdktf_mains W'.
Proof.
  unfold migrate_cdktf.
  destruct (PyStr.split "-" workspace_name) as [| p [| en [| ac [| x l]]]]; try discriminate.
  unfold bind at 1. unfold get_world. cbv beta iota.
  destruct (decide (p ∈ migrated_cdktf_mains W)) as [Hp | Hnew].
  - unfold bind, ret.
    destruct (patch_cdk_tf_json_cases p en ac W)
      as [[e He] | (dir & raw & text & Hdir & He)]; rewrite He; [discriminate |].
    intros [= <-]. exists p, en, ac, dir. repeat split; assumption.
  - destruct (inject_main_ts_cases p W)
      as [[err He] | (dir & raw & before & marker & after & Hdir & _ & _ & _ & _ & He)];
      unfold bind; rewrite He; [discriminate |].
    unfold modify. cbv beta iota.
    match goal with
    | |- context [patch_cdk_tf_json cfg lib p en ac ?W1] =>
        destruct (patch_cdk_tf_json_cases p en ac W1)
          as [[e' He'] | (dir' & raw' & text' & _ & He')]; rewrite He'; [discriminate |]
    end.
    intros [= <-]. exists p, en, ac, dir. split; [reflexivity |]. split; [exact Hdir |].
    cbn [migrated_cdktf_mains set_migrated_cdktf_mains set_file_writes set_files].
    apply elem_of_union. right. now apply elem_of_singleton.
Qed.

(** The steps of the [try] block end with the patch step. *)
Lemma migrate_new_ends_with_patch (tf_workspace : TfWorkspace) (workspace_name : string)
    (W W' : World) :
  migrate_new cfg outside lib tf_workspace workspace_name W = (inr tt, W') ->
  exists W4, migrate_cdktf cfg lib workspace_name W4 = (inr tt, W').
Proof.
  unfold migrate_new. intros H.
  apply bind_result in H as (workspace_id & W1 & _ & H).
  apply bind_result in H as (u2 & W2 & _ & H).
  apply bind_result in H as (u3 & W3 & _ & H).
  apply bind_result in H as (u4 & W4 & _ & H).
  now exists W4.
Qed.

(** A [try] block that ends normally ends the body of the loop. *)
Lemma success_in_try_block (tf_workspace : TfWorkspace) (env : string) (W W1 W2 : World) :
  eligible tf_workspace = true ->
  Dict.get (account_of tf_workspace) (environments cfg) = Some env ->
  fetch_scalr_workspaces outside (ws_name tf_workspace) env W = (inr [], W1) ->
  migrate_new cfg outside lib tf_workspace (ws_name tf_workspace) W1 = (inr tt, W2) ->
  migrate_one cfg outside lib tf_workspace W = (inr tt, W2).
Proof.
  intros Hel Henv Hfetch Hnew.
  rewrite (migrate_one_eligible cfg outside lib _ Hel).
  unfold environment_of. rewrite Henv.
  unfold bind at 1. unfold ret at 1.
  unfold bind at 1. rewrite Hfetch.
  unfold try_except. rewrite Hnew.
  reflexivity.
Qed.

Lemma migrate_loop_app (before after : list TfWorkspace) (W W1 : World) :
  migrate_loop cfg outside lib before W = (inr tt, W1) ->
  migrate_loop cfg outside lib (before ++ after) W = migrate_loop cfg outside lib after W1.
Proof.
  revert W. induction before as [| w before IH]; intros W H.
  - cbn in H. injection H as <-. reflexivity.
  - cbn [app]. rewrite migrate_loop_cons in *.
    destruct (migrate_one cfg outside lib w W) as [[e | u] W0]; [discriminate |].
    now apply IH.
Qed.


End Cdktf.


(** ** Running the migration a second time *)

Section Rerun.

Variable cfg : Config.
Variable outside : Outside.
Variable lib : Library.

Lemma only_grows_ret {A : Type} (a : A) : only_grows (ret a).
Proof. intros W. exists []. symmetry. apply app_nil_r. Qed.

Lemma only_grows_raise {A : Type} (e : exn) : only_grows (@raise A e).
Proof. intros W. exists []. symmetry. apply app_nil_r. Qed.

Lemma only_grows_lift {A : Type} (r : exn + A) : only_grows (lift r).
Proof. intros W. exists []. symmetry. apply app_nil_r. Qed.

Lemma only_grows_get_world : only_grows get_world.
Proof. intros W. exists []. symmetry. apply app_nil_r. Qed.

Lemma only_grows_bind {A B : Type} (m : M A) (f : A -> M B) :
  only_grows m -> (forall a, only_grows (f a)) -> only_grows (bind m f).
Proof.
  intros Hm Hf W. unfold bind. destruct (Hm W) as [added Hadded].
  destruct (m W) as [[e | a] W1]; cbn [snd] in *.
  - now exists added.
  - destruct (Hf a W1) as [added' Hadded'].
    exists (added ++ added')%list. now rewrite Hadded', Hadded, app_assoc.
Qed.

Lemma only_grows_try_except {A : Type} (m : M A) (h : exn -> M A) :
  only_grows m -> (forall e, only_grows (h e)) -> only_grows (try_except m h).
Proof.
  intros Hm Hh W. unfold try_except. destruct (Hm W) as [added Hadded].
  destruct (m W) as [[e | a] W1]; cbn [snd] in *.
  - destruct (Hh e W1) as [added' Hadded'].
    exists (added ++ added')%list. now rewrite Hadded', Hadded, app_assoc.
  - now exists added.
Qed.

Lemma only_grows_same (f : World -> World) :
  (forall W, scalr_workspaces (f W) = scalr_workspaces W) -> only_grows (modify f).
Proof. intros Hf W. exists []. cbn [modify snd]. now rewrite Hf, app_nil_r. Qed.

Lemma only_grows_append (item : string * json) :
  only_grows (modify (set_scalr_workspaces (fun l => (l ++ [item])%list))).
Proof. intros W. now exists [item]. Qed.

Lemma only_grows_request (c : Call) : only_grows (request outside c).
Proof.
  intros W. exists []. unfold request.
  destruct (fault outside _ c); cbn [snd]; symmetry; apply app_nil_r.
Qed.

Lemma only_grows_write_line (m : Message) : only_grows (write_line m).
Proof. apply only_grows_same. reflexivity. Qed.

Create HintDb target_frame.

Hint Resolve only_grows_ret only_grows_raise only_grows_lift only_grows_get_world
  only_grows_request only_grows_write_line only_grows_append : target_frame.

Ltac grow :=
  repeat first
    [ solve [auto with target_frame]
    | progress cbv zeta
    | apply only_grows_bind
    | apply only_grows_try_except
    | apply only_grows_same; intros ?; reflexivity
    | match goal with
      | |- forall _, _ => intro
      | |- only_grows (if ?b then _ else _) => destruct b
      | |- only_grows (match ?x with _ => _ end) => destruct x
      end ];
  auto with target_frame.

Lemma only_grows_write_scalr (route : string) (data : json) :
  only_grows (write_scalr outside route data).
Proof. unfold write_scalr. grow. Qed.

Lemma only_grows_write_tfc (route : string) (data : json) :
  only_grows (write_tfc outside route data).
Proof. unfold write_tfc. grow. Qed.

Hint Resolve only_grows_write_scalr only_grows_write_tfc : target_frame.

Lemma only_grows_create_state (tfc_state : TfStateVersion) (workspace_id : string) :
  only_grows (create_state outside lib tfc_state workspace_id).
Proof. unfold create_state, lineage_of. grow. Qed.

Hint Resolve only_grows_create_state : target_frame.

Lemma only_grows_create_states (states : list TfStateVersion) (workspace_id : string) :
  only_grows (create_states outside lib states workspace_id).
Proof. induction states; cbn [create_states]; grow. Qed.

Hint Resolve only_grows_create_states : target_frame.

Lemma only_grows_migrate_state (workspace_id workspace_name : string) :
  only_grows (migrate_state cfg outside lib workspace_id workspace_name).
Proof. unfold migrate_state. grow. Qed.

Lemma only_grows_migrate_variable (secrets : gmap string string) (relationships : json)
    (v : TfVar) :
  only_grows (migrate_variable outside secrets relationships v).
Proof. unfold migrate_variable, create_variable. grow. Qed.

Hint Resolve only_grows_migrate_variable : target_frame.

Lemma only_grows_migrate_variable_list (secrets : gmap string string) (relationships : json)
    (vars : list TfVar) :
  only_grows (migrate_variable_list outside secrets relationships vars).
Proof. induction vars; cbn [migrate_variable_list]; grow. Qed.

Hint Resolve only_grows_migrate_variable_list : target_frame.

Lemma only_grows_migrate_variables (workspace_id workspace_name : string) :
  only_grows (migrate_variables cfg outside workspace_id workspace_name).
Proof. unfold migrate_variables, get_workspace_secrets. grow. Qed.

Lemma only_grows_lock_tfc_workspace (tf_workspace : TfWorkspace) :
  only_grows (lock_tfc_workspace cfg outside tf_workspace).
Proof. unfold lock_tfc_workspace. grow. Qed.

Lemma only_grows_migrate_cdktf (workspace_name : string) :
  only_grows (migrate_cdktf cfg lib workspace_name).
Proof.
  unfold migrate_cdktf, inject_main_ts, patch_cdk_tf_json, cdktf_path_of, open_rplus,
    find_synth_index, write_from_start, environment_of.
  grow.
Qed.

Hint Resolve only_grows_migrate_state only_grows_migrate_variables
  only_grows_lock_tfc_workspace only_grows_migrate_cdktf : target_frame.

Lemma only_grows_migrate_rest (tf_workspace : TfWorkspace) (workspace_id : string) :
  only_grows (_ <- migrate_state cfg outside lib workspace_id (ws_name tf_workspace);
              _ <- migrate_variables cfg outside workspace_id (ws_name tf_workspace);
              _ <- lock_tfc_workspace cfg outside tf_workspace;
              migrate_cdktf cfg lib (ws_name tf_workspace))%migr.
Proof. grow. Qed.

Lemma only_grows_migrate_one (tf_workspace : TfWorkspace) :
  only_grows (migrate_one cfg outside lib tf_workspace).
Proof.
  unfold migrate_one, migrate_new, fetch_scalr_workspaces, create_workspace, environment_of.
  grow.
Qed.

Lemma only_grows_migrate_loop (workspaces : list TfWorkspace) :
  only_grows (migrate_loop cfg outside lib workspaces).
Proof.
  induction workspaces as [| w rest IH]; cbn [migrate_loop].
  - apply only_grows_ret.
  - apply only_grows_bind; [apply only_grows_migrate_one | intros _; exact IH].
Qed.

Lemma scalr_find_grows (name env : string) (store added : list (string * json)) :
  scalr_find name env store <> [] -> scalr_find name env (store ++ added) <> [].
Proof.
  unfold scalr_find. rewrite List.filter_app.
  destruct (List.filter _ store); [contradiction | discriminate].
Qed.

(** The document a workspace is created with is found under the name of
    the workspace and the environment it was created for. *)
Lemma workspace_document_matches (tf_workspace : TfWorkspace) (env : string) :
  document_matches (ws_name tf_workspace) env (workspace_document cfg tf_workspace env) = true.
Proof.
  unfold workspace_document, document_matches.
  destruct (ws_vcs_repo tf_workspace); simpl; now rewrite !String.eqb_refl.
Qed.

Lemma write_scalr_workspaces_eq (data : json) (W : World) :
  write_scalr outside "workspaces" data W
  = match fault outside (List.length (trace W)) (ScalrPost "workspaces" data) with
    | Some err =>
        (inl (CallFailed (ScalrPost "workspaces" data) err),
         set_trace (fun t => (t ++ [ScalrPost "workspaces" data])%list) W)
    | None =>
        (inr (scalr_new_id outside "workspaces" (List.length (scalr_workspaces W))),
         set_scalr_workspaces
           (fun l => (l ++ [(scalr_new_id outside "workspaces" (List.length (scalr_workspaces W)),
                             data)])%list)
           (set_trace (fun t => (t ++ [ScalrPost "workspaces" data])%list) W))
    end.
Proof.
  unfold write_scalr, bind, request.
  destruct (fault outside _ _); reflexivity.
Qed.

(** A workspace rejected for its version at creation: the failure is
    printed and nothing is created. *)
Lemma migrate_one_rejected (tf_workspace : TfWorkspace) (env : string) (W : World) :
  eligible tf_workspace = true ->
  Dict.get (account_of tf_workspace) (environments cfg) = Some env ->
  scalr_find (ws_name tf_workspace) env (scalr_workspaces W) = [] ->
  fault outside (List.length (trace W)) (ScalrGetWorkspaces (ws_name tf_workspace) env) = None ->
  PyStr.gt (ws_terraform_version tf_workspace) "1.5.7" = true ->
  migrate_one cfg outside lib tf_workspace W
  = (inr tt,
     set_out (fun o => (o ++ [FailedToMigrate (ws_name tf_workspace)
                                (UnsupportedVersion (ws_terraform_version tf_workspace))])%list)
       (set_trace (fun t => (t ++ [ScalrGetWorkspaces (ws_name tf_workspace) env])%list) W)).
Proof.
  intros Hel Henv Hfind Hfault Hgt.
  rewrite (migrate_one_eligible _ _ _ _ Hel).
  unfold environment_of. rewrite Henv.
  unfold bind at 1. unfold ret at 1.
  unfold bind at 1. rewrite fetch_scalr_workspaces_eq, Hfault, Hfind.
  unfold try_except, migrate_new, create_workspace, environment_of.
  fold (account_of tf_workspace). rewrite Henv, Hgt.
  reflexivity.
Qed.

(** A workspace the target does not have, at an accepted version: it is
    created, the other steps follow, and their failure is printed. *)
Lemma migrate_one_creates (tf_workspace : TfWorkspace) (env : string) (W : World) :
  fault_free outside ->
  eligible tf_workspace = true ->
  Dict.get (account_of tf_workspace) (environments cfg) = Some env ->
  scalr_find (ws_name tf_workspace) env (scalr_workspaces W) = [] ->
  PyStr.gt (ws_terraform_version tf_workspace) "1.5.7" = false ->
  let doc := workspace_document cfg tf_workspace env in
  let id := scalr_new_id outside "workspaces" (List.length (scalr_workspaces W)) in
  let W2 :=
    set_scalr_workspaces (fun l => (l ++ [(id, doc)])%list)
      (set_trace (fun t => (t ++ [ScalrPost "workspaces" doc])%list)
         (set_trace (fun t => (t ++ [ScalrGetWorkspaces (ws_name tf_workspace) env])%list) W)) in
  migrate_one cfg outside lib tf_workspace W
  = match (_ <- migrate_state cfg outside lib id (ws_name tf_workspace);
           _ <- migrate_variables cfg outside id (ws_name tf_workspace);
           _ <- lock_tfc_workspace cfg outside tf_workspace;
           migrate_cdktf cfg lib (ws_name tf_workspace))%migr W2 with
    | (inr _, W3) => (inr tt, W3)
    | (inl e, W3) =>
        (inr tt, set_out (fun o => (o ++ [FailedToMigrate (ws_name tf_workspace) e])%list) W3)
    end.
Proof.
  intros Hfree Hel Henv Hfind Hgt doc id W2.
  rewrite (migrate_one_eligible _ _ _ _ Hel).
  unfold environment_of. rewrite Henv.
  unfold bind at 1. unfold ret at 1.
  unfold bind at 1. rewrite fetch_scalr_workspaces_eq, (Hfree _ _), Hfind.
  unfold try_except, migrate_new.
  unfold bind at 1. unfold create_workspace, environment_of.
  fold (account_of tf_workspace). rewrite Henv.
  unfold bind at 1. unfold ret at 1. rewrite Hgt.
  rewrite write_scalr_workspaces_eq, (Hfree _ _).
  fold doc. cbn [scalr_workspaces set_trace]. fold id. fold W2.
  destruct (bind _ _ W2) as [[e | []] W3]; reflexivity.
Qed.

(** Without failing calls, the body of the loop leaves a workspace it did
    not skip, and whose account has an environment, on the target or
    rejected for its version, and does not end the loop. *)
Lemma migrate_one_settles (tf_workspace : TfWorkspace) (env : string) (W : World) :
  fault_free outside ->
  eligible tf_workspace = true ->
  Dict.get (account_of tf_workspace) (environments cfg) = Some env ->
  fst (migrate_one cfg outside lib tf_workspace W) = inr tt
  /\ (scalr_find (ws_name tf_workspace) env
        (scalr_workspaces (snd (migrate_one cfg outside lib tf_workspace W))) <> []
      \/ PyStr.gt (ws_terraform_version tf_workspace) "1.5.7" = true).
Proof.
  intros Hfree Hel Henv.
  destruct (scalr_find (ws_name tf_workspace) env (scalr_workspaces W)) as [| item found] eqn:Hfind.
  - destruct (PyStr.gt (ws_terraform_version tf_workspace) "1.5.7") eqn:Hgt.
    + rewrite (migrate_one_rejected _ _ _ Hel Henv Hfind (Hfree _ _) Hgt).
      split; [reflexivity | now right].
    + rewrite (migrate_one_creates _ _ _ Hfree Hel Henv Hfind Hgt). cbv zeta.
      set (id := scalr_new_id outside "workspaces" _).
      set (W2 := set_scalr_workspaces _ _).
      assert (Hnew : scalr_find (ws_name tf_workspace) env (scalr_workspaces W2) <> []).
      { subst W2. cbn [scalr_workspaces set_scalr_workspaces set_trace].
        unfold scalr_find. rewrite List.filter_app. cbn [List.filter snd].
        rewrite workspace_document_matches.
        destruct (List.filter _ (scalr_workspaces W)); discriminate. }
      destruct (only_grows_migrate_rest tf_workspace id W2) as [added Hadded].
      destruct (bind _ _ W2) as [[e | []] W3]; cbn [fst snd set_out scalr_workspaces] in *;
        (split; [reflexivity |]); left; rewrite Hadded; now apply scalr_find_grows.
  - assert (Hfound : scalr_find (ws_name tf_workspace) env (scalr_workspaces W) <> [])
      by (rewrite Hfind; discriminate).
    rewrite (migrate_one_existing _ _ _ _ _ _ Hel Henv Hfound (Hfree _ _)).
    split; [reflexivity | left; exact Hfound].
Qed.

Lemma same_resources_trans (W1 W2 W3 : World) :
  same_resources W1 W2 -> same_resources W2 W3 -> same_resources W1 W3.
Proof.
  unfold same_resources.
  intros (A1 & A2 & A3 & A4 & A5 & A6 & A7) (B1 & B2 & B3 & B4 & B5 & B6 & B7).
  repeat split; congruence.
Qed.

Lemma quiet_grows (W W' : World) (added : list (string * json)) (workspaces : list TfWorkspace) :
  scalr_workspaces W' = (scalr_workspaces W ++ added)%list ->
  quiet cfg W workspaces -> quiet cfg W' workspaces.
Proof.
  intros Hstore. induction workspaces as [| w rest IH]; [trivial |].
  cbn [quiet]. destruct (eligible w); [| exact IH].
  destruct (Dict.get (account_of w) (environments cfg)) as [env |]; [| trivial].
  intros [[Hfound | Hgt] Hrest]; (split; [| now apply IH]).
  - left. rewrite Hstore. now apply scalr_find_grows.
  - now right.
Qed.

(** Over a list with nothing left to create, a run changes no resource. *)
Lemma quiet_run_changes_nothing (workspaces : list TfWorkspace) :
  fault_free outside ->
  forall W, quiet cfg W workspaces ->
            same_resources W (snd (migrate_loop cfg outside lib workspaces W)).
Proof.
  intros Hfree. induction workspaces as [| w rest IH]; intros W Hquiet.
  - apply same_resources_refl.
  - rewrite migrate_loop_cons. cbn [quiet] in Hquiet.
    destruct (eligible w) eqn:Hel.
    + destruct (Dict.get (account_of w) (environments cfg)) as [env |] eqn:Henv.
      * destruct Hquiet as [Hsettled Hrest].
        destruct (scalr_find (ws_name w) env (scalr_workspaces W)) as [| item found] eqn:Hfind.
        -- destruct Hsettled as [Hfound | Hgt]; [contradiction |].
           rewrite (migrate_one_rejected _ _ _ Hel Henv Hfind (Hfree _ _) Hgt).
           set (W1 := set_out _ _).
           apply (same_resources_trans W W1); [repeat split |].
           apply IH. apply (quiet_grows W W1 []); [| exact Hrest].
           symmetry. apply app_nil_r.
        -- assert (Hfound : scalr_find (ws_name w) env (scalr_workspaces W) <> [])
             by (rewrite Hfind; discriminate).
           rewrite (migrate_one_existing _ _ _ _ _ _ Hel Henv Hfound (Hfree _ _)).
           set (W1 := set_out _ _).
           apply (same_resources_trans W W1); [repeat split |].
           apply IH. apply (quiet_grows W W1 []); [| exact Hrest].
           symmetry. apply app_nil_r.
      * rewrite (migrate_one_unknown_environment _ _ _ _ _ Hel Henv).
        apply same_resources_refl.
    + destruct (migrate_one_skipped cfg outside lib w W Hel) as (lines & Hskip & _).
      rewrite Hskip. set (W1 := set_out _ W).
      apply (same_resources_trans W W1); [repeat split |].
      apply IH. apply (quiet_grows W W1 []); [| exact Hquiet].
      symmetry. apply app_nil_r.
Qed.

(** After a run without failing calls, nothing is left to create. *)
Lemma quiet_after_run (workspaces : list TfWorkspace) :
  fault_free outside ->
  forall W, quiet cfg (snd (migrate_loop cfg outside lib workspaces W)) workspaces.
Proof.
  intros Hfree. induction workspaces as [| w rest IH]; intros W; [exact I |].
  rewrite migrate_loop_cons. cbn [quiet].
  destruct (eligible w) eqn:Hel.
  - destruct (Dict.get (account_of w) (environments cfg)) as [env |] eqn:Henv; [| exact I].
    destruct (migrate_one_settles w env W Hfree Hel Henv) as [Hok Hsettled].
    destruct (migrate_one cfg outside lib w W) as [[e | []] W1]; [discriminate |].
    cbn [snd] in Hsettled. split; [| apply IH].
    destruct Hsettled as [Hfound | Hgt]; [left | now right].
    destruct (only_grows_migrate_loop rest W1) as [added Hadded].
    rewrite Hadded. now apply scalr_find_grows.
  - destruct (migrate_one_skipped cfg outside lib w W Hel) as (lines & Hskip & _).
    rewrite Hskip. apply IH.
Qed.

(** X1. Running the loop again over the same workspaces, from the world the
    first run left and without failing calls, changes no resource: not on
    the target, not on the source, not in the local files. *)
Theorem second_run_changes_nothing (workspaces : list TfWorkspace) (W : World) :
  fault_free outside ->
  same_resources (snd (migrate_loop cfg outside lib workspaces W))
    (snd (migrate_loop cfg outside lib workspaces
            (snd (migrate_loop cfg outside lib workspaces W)))).
Proof.
  intros Hfree. apply quiet_run_changes_nothing; [exact Hfree |].
  now apply quiet_after_run.
Qed.

End Rerun.
(** ** The scenario, evaluated *)

Module ScenarioFacts.

Import Scenario.

(** The scenario of the specification: one workspace created under the
    environment of [acct1], one state version with the serial kept, the two
    variables with the secret in place of the sensitive value, the source
    locked, and the two local files of the project written once each. *)
Example orders_prod_migrated :
  fst (migrate_loop cfg outside lib [orders_prod] start) = inr tt
  /\ out after_orders_prod = []
  /\ map fst (scalr_workspaces after_orders_prod) = ["workspaces-0"]
  /\ map (Json.lookup_path ["data"; "attributes"; "serial"]) (scalr_state_versions after_orders_prod)
     = [Some (JInt 7)]
  /\ map (Json.lookup_path ["data"; "attributes"; "value"]) (scalr_vars after_orders_prod)
     = [Some (JStr "s3cret"); Some (JStr "us-east-1")]
  /\ map fst (tfc_posts after_orders_prod) = ["workspaces/ws-1/actions/lock"]
  /\ map fst (file_writes after_orders_prod)
     = ["/repo/projects/orders/main.ts"; prod_stack_path].
Proof. vm_compute. repeat split. Qed.

(** Three workspaces, the second of which has a sensitive variable without
    a secret: its failure is printed, the first and the third are migrated
    to the end. *)
Example second_of_three_fails :
  fst (migrate_workspaces cfg outside lib start) = inr tt
  /\ out after_run = [FailedToMigrate "billing-prod-acct1" (KeyError "API_KEY")]
  /\ map fst (scalr_workspaces after_run) = ["workspaces-0"; "workspaces-1"; "workspaces-2"]
  /\ List.length (scalr_state_versions after_run) = 3%nat
  /\ map fst (tfc_posts after_run)
     = ["workspaces/ws-1/actions/lock"; "workspaces/ws-3/actions/lock"]
  /\ map fst (file_writes after_run)
     = ["/repo/projects/orders/main.ts"; prod_stack_path;
        "/repo/projects/orders/cdktf.out/stacks/dev-acct2/cdk.tf.json"].
Proof. vm_compute. repeat split. Qed.

(** Two environments of the project [orders] in one run: its build script
    is written once. *)
Example two_environments_one_injection :
  writes_to "/repo/projects/orders/main.ts" (file_writes after_run) = 1%nat.
Proof. vm_compute. reflexivity. Qed.

(** A second run over the world the first one left and over the listing
    as it was before the locks: three lines, no new resource. *)
Example second_run_reports_existing :
  fst (migrate_workspaces cfg outside lib after_run) = inr tt
  /\ out (snd (migrate_workspaces cfg outside lib after_run))
     = (out after_run ++ [AlreadyExists "orders-prod-acct1"; AlreadyExists "billing-prod-acct1";
                          AlreadyExists "orders-dev-acct2"])%list
  /\ scalr_workspaces (snd (migrate_workspaces cfg outside lib after_run))
     = scalr_workspaces after_run
  /\ scalr_vars (snd (migrate_workspaces cfg outside lib after_run)) = scalr_vars after_run
  /\ file_writes (snd (migrate_workspaces cfg outside lib after_run)) = file_writes after_run.
Proof. vm_compute. repeat split. Qed.

Lemma C1_witness :
  exists queries lines,
    same_resources after_run (snd (migrate_loop cfg outside lib Relisted.workspaces after_run))
    /\ trace (snd (migrate_loop cfg outside lib Relisted.workspaces after_run))
       = (trace after_run ++ queries)%list
    /\ Forall is_existence_query queries
    /\ out (snd (migrate_loop cfg outside lib Relisted.workspaces after_run))
       = (out after_run ++ lines)%list
    /\ (fst (migrate_loop cfg outside lib Relisted.workspaces after_run) = inr tt ->
        lines = flat_map rerun_report Relisted.workspaces
        /\ forall tf_workspace,
            In tf_workspace Relisted.workspaces ->
            eligible tf_workspace = true ->
            In (AlreadyExists (ws_name tf_workspace)) lines)
    /\ (forall tf_workspace W',
           version_unsupported (ws_terraform_version tf_workspace) = false ->
           ws_locked tf_workspace = true ->
           rerun_report tf_workspace = []
           /\ migrate_one cfg outside lib tf_workspace W' = (inr tt, W')).
Proof.
  apply (C1_rerun_leaves_existing_untouched cfg outside lib Relisted.workspaces after_run).
  intros w env Hin Hel Henv.
  cbv [Relisted.workspaces map In] in Hin.
  destruct Hin as [<- | [<- | [<- | []]]]; vm_compute in Hel; try discriminate Hel;
    vm_compute in Henv; injection Henv as <-; vm_compute; intros Hnone; discriminate Hnone.
Defined.

(** C1, the counterexample. A workspace the target holds is not always
    reported: after the run of the scenario the target holds
    [orders-prod-acct1] under [env-1], the run has locked the workspace on
    the source, and the second run, over the listing the source then gives,
    ends without a line for it; the one workspace it reports is the one the
    first run created and failed on before the lock. *)
Lemma C1_locked_workspace_is_not_reported :
  scalr_find "orders-prod-acct1" "env-1" (scalr_workspaces after_run) <> []
  /\ In (lock_action orders_prod) (tfc_posts after_run)
  /\ ws_locked (listed_after (tfc_posts after_run) orders_prod) = true
  /\ fst (migrate_loop cfg outside lib Relisted.workspaces after_run) = inr tt
  /\ out (snd (migrate_loop cfg outside lib Relisted.workspaces after_run))
     = (out after_run ++ [AlreadyExists "billing-prod-acct1"])%list
  /\ ~ In (AlreadyExists "orders-prod-acct1")
         (out (snd (migrate_loop cfg outside lib Relisted.workspaces after_run))).
Proof.
  split; [vm_compute; discriminate |].
  split; [vm_compute; now left |].
  split; [vm_compute; reflexivity |].
  split; [vm_compute; reflexivity |].
  split; [vm_compute; reflexivity |].
  vm_compute. intros [H | [H | []]]; discriminate.
Qed.

Lemma C2_witness :
  migrate_loop cfg outside lib [billing_prod; orders_dev] after_orders_prod
  = migrate_loop cfg outside lib [orders_dev]
      (set_out (fun o => (o ++ [FailedToMigrate "billing-prod-acct1" (KeyError "API_KEY")])%list)
         billing_failed).
Proof.
  apply (C2_failure_isolation cfg outside lib billing_prod [orders_dev] "env-1"
           (KeyError "API_KEY") after_orders_prod billing_query billing_failed).
  - reflexivity.
  - reflexivity.
  - vm_compute. reflexivity.
  - vm_compute. reflexivity.
Defined.



Lemma C7_witness :
  exists env doc,
    doc = workspace_document cfg orders_prod env
    /\ scalr_workspaces after_creation = (scalr_workspaces after_query ++ [("workspaces-0", doc)])%list
    /\ trace after_creation = (trace after_query ++ [ScalrPost "workspaces" doc])%list
    /\ Json.lookup_path ["data"; "attributes"; "vcs-repo"] doc
       = Some (JObj [("identifier", JStr "acme/infra");
                     ("branch", JStr "main");
                     ("dry-runs-enabled", JBool false);
                     ("trigger-prefixes", JArr [JStr "infra"])])
    /\ Json.lookup_path ["data"; "relationships"; "vcs-provider"] doc
       = Some (JObj [("data", JObj [("type", JStr "vcs-providers"); ("id", JStr "vcs-42")])]).
Proof.
  destruct (C7_conditional_vcs_binding cfg outside orders_prod after_query after_creation
              "workspaces-0")
    as (env & doc & Hdoc & Hstore & Htrace & Hrepo & Hprovider).
  - vm_compute. reflexivity.
  - exists env, doc.
    exact (conj Hdoc (conj Hstore (conj Htrace (conj Hrepo Hprovider)))).
Defined.


Lemma C10_witness :
  List.length (PyStr.split "-" (ws_name legacy)) <> 3%nat
  /\ migrate_cdktf cfg lib (ws_name legacy) start
     = (inl (ValueError "unpacking needs exactly 3 values"), start)
  /\ exists e W', migrate_new cfg outside lib legacy (ws_name legacy) start = (inl e, W').
Proof.
  assert (H : List.length (PyStr.split "-" (ws_name legacy)) <> 3%nat)
    by (vm_compute; discriminate).
  split; [exact H |].
  exact (C10_three_segments_required cfg outside lib legacy start H).
Defined.

(** The steps before the patch accept the name of two segments: the
    workspace is created, its state and variables are transferred and the
    source is locked before the patch raises. *)
Example two_segments_migrated_until_patch :
  eligible legacy = true
  /\ out (snd (migrate_loop cfg outside lib [legacy] start))
     = [FailedToMigrate "legacy-acct1" (ValueError "unpacking needs exactly 3 values")]
  /\ map fst (scalr_workspaces (snd (migrate_loop cfg outside lib [legacy] start)))
     = ["workspaces-0"]
  /\ List.length (scalr_state_versions (snd (migrate_loop cfg outside lib [legacy] start))) = 1%nat
  /\ map fst (tfc_posts (snd (migrate_loop cfg outside lib [legacy] start)))
     = ["workspaces/ws-4/actions/lock"]
  /\ file_writes (snd (migrate_loop cfg outside lib [legacy] start)) = [].
Proof. vm_compute. repeat split. Qed.

(** C3. The version test is a comparison of strings: [1.5.10] is below
    [1.5.7] in it, so a workspace at version 1.5.10 is neither skipped by the
    loop nor rejected at creation, and the target receives a workspace at
    that version; the version at the ceiling passes and 1.6.0 is skipped. *)
Theorem C3_two_digit_patch_passes_version_checks :
  version_unsupported "1.5.7" = false
  /\ version_unsupported "1.6.0" = true
  /\ version_unsupported "1.5.10" = false
  /\ PyStr.gt "1.5.10" "1.5.7" = false
  /\ eligible orders_newer = true
  /\ fst (migrate_loop cfg outside lib [orders_newer] start) = inr tt
  /\ out (snd (migrate_loop cfg outside lib [orders_newer] start)) = []
  /\ map (fun item => Json.lookup_path ["data"; "attributes"; "terraform-version"] (snd item))
       (scalr_workspaces (snd (migrate_loop cfg outside lib [orders_newer] start)))
     = [Some (JStr "1.5.10")].
Proof. vm_compute. repeat split. Qed.

(** The two version tests do not normalize alike: a version written with
    the pessimistic operator passes the test of the loop, whatever follows
    the operator and a blank, and is rejected at creation, even below the
    ceiling. *)
Example pessimistic_operator_fails_at_creation :
  version_unsupported "~> 1.6.0" = false
  /\ version_unsupported "~> 1.5.0" = false
  /\ out (snd (migrate_loop cfg outside lib
                 [workspace "ws-7" "orders-prod-acct1" "~> 1.5.0" None] start))
     = [FailedToMigrate "orders-prod-acct1" (UnsupportedVersion "~> 1.5.0")].
Proof. vm_compute. repeat split. Qed.

(** C4. An account suffix without an environment ends the whole run: the
    look-up before the [try] block raises [KeyError], nothing is printed for
    the workspace, and the workspaces after it are not processed. *)
Theorem C4_unknown_account_aborts_run :
  eligible orders_elsewhere = true
  /\ Dict.get (account_of orders_elsewhere) (environments cfg) = None
  /\ migrate_loop cfg outside lib [orders_elsewhere; orders_prod] start
     = (inl (KeyError "acct9"), start).
Proof. vm_compute. repeat split. Qed.

(** C9. The patch writes the new text over the start of the file and keeps
    what the old content has beyond it: for a stack whose file already
    carries the overrides and names a longer organization, the file ends up
    with seventeen bytes of the old text after the serialized document, and
    is not JSON any more. *)
Theorem C9_patch_leaves_stale_bytes :
  JsonText.loads regenerated_cdk_tf_json <> None
  /\ fst (patch_cdk_tf_json cfg lib "orders" "prod" "acct1" regenerated) = inr tt
  /\ file_writes (snd (patch_cdk_tf_json cfg lib "orders" "prod" "acct1" regenerated))
     = [(prod_stack_path, JsonText.dumps_indent2 patched_document)]
  /\ files (snd (patch_cdk_tf_json cfg lib "orders" "prod" "acct1" regenerated)) !! prod_stack_path
     = Some (JsonText.dumps_indent2 patched_document
             +:+ PyStr.join PyStr.nl ["    }"; "    }"; "  }"; "}"])
  /\ files (snd (patch_cdk_tf_json cfg lib "orders" "prod" "acct1" regenerated)) !! prod_stack_path
     <> Some (JsonText.dumps_indent2 patched_document)
  /\ JsonText.loads (JsonText.dumps_indent2 patched_document
                     +:+ PyStr.join PyStr.nl ["    }"; "    }"; "  }"; "}"]) = None.
Proof. vm_compute. repeat split; discriminate. Qed.

End ScenarioFacts.

(** * Properties of the rest of the code *)

(** ** Dictionaries *)

Lemma dict_get_set_same {V : Type} (k : string) (v : V) (d : list (string * V)) :
  Dict.get k (Dict.set k v d) = Some v.
Proof.
  induction d as [| [k' v'] d IH]; cbn [Dict.set Dict.get].
  - now rewrite String.eqb_refl.
  - destruct (String.eqb k k') eqn:E; cbn [Dict.get].
    + now rewrite String.eqb_refl.
    + now rewrite E.
Qed.

Lemma dict_get_set_other {V : Type} (k k' : string) (v : V) (d : list (string * V)) :
  k <> k' -> Dict.get k (Dict.set k' v d) = Dict.get k d.
Proof.
  intros Hne. induction d as [| [k'' v''] d IH]; cbn [Dict.set Dict.get].
  - apply String.eqb_neq in Hne. now rewrite Hne.
  - destruct (String.eqb k' k'') eqn:E; cbn [Dict.get].
    + apply String.eqb_eq in E. subst k''.
      apply String.eqb_neq in Hne. now rewrite Hne.
    + now rewrite IH.
Qed.

Lemma dict_set_keys {V : Type} (k k' : string) (v : V) (d : list (string * V)) :
  In k (map fst (Dict.set k' v d)) <-> k = k' \/ In k (map fst d).
Proof.
  induction d as [| [k'' v''] d IH]; cbn [Dict.set map fst In].
  - split; [intros [<- | []]; now left | intros [-> | []]; now left].
  - destruct (String.eqb k' k'') eqn:E; cbn [map fst In].
    + apply String.eqb_eq in E. subst k''. split.
      * intros [<- | H]; [now left | right; now right].
      * intros [-> | [<- | H]]; [now left | now left | now right].
    + rewrite IH. split.
      * intros [<- | [-> | H]]; [right; now left | now left | right; now right].
      * intros [-> | [<- | H]]; [right; now left | now left | right; now right].
Qed.

Lemma dict_set_nodup {V : Type} (k : string) (v : V) (d : list (string * V)) :
  List.NoDup (map fst d) -> List.NoDup (map fst (Dict.set k v d)).
Proof.
  induction d as [| [k' v'] d IH]; intros Hd; cbn [Dict.set map fst].
  - constructor; [intros [] | constructor].
  - inversion Hd as [| ? ? Hnot Hrest]; subst.
    destruct (String.eqb k k') eqn:E; cbn [map fst].
    + apply String.eqb_eq in E. subst k'. now constructor.
    + constructor; [| now apply IH].
      rewrite dict_set_keys. intros [-> | H]; [| contradiction].
      rewrite String.eqb_refl in E. discriminate.
Qed.

(** ** The environment directory *)

Module DirectoryFacts.

Import Directory.

Lemma add_page_nodup (data environments : list (string * string)) :
  List.NoDup (map fst environments) -> List.NoDup (map fst (add_page environments data)).
Proof.
  revert environments. induction data as [| [name id] data IH]; intros environments Hd.
  - exact Hd.
  - cbn [add_page fold_left]. apply IH. now apply dict_set_nodup.
Qed.

Lemma add_page_app (environments data data' : list (string * string)) :
  add_page environments (data ++ data') = add_page (add_page environments data) data'.
Proof. unfold add_page. apply fold_left_app. Qed.

(** In the dictionary a listing builds, a name has the identifier it was
    listed with last, or the one it had before. *)
Lemma add_page_get (name : string) (data environments : list (string * string)) :
  Dict.get name (add_page environments data)
  = match last_listed name data with
    | Some id => Some id
    | None => Dict.get name environments
    end.
Proof.
  unfold last_listed.
  induction data as [| [name' id'] data IH] using rev_ind; [reflexivity |].
  rewrite add_page_app, rev_app_distr. cbn [add_page fold_left rev app find fst snd].
  destruct (String.eqb name' name) eqn:E.
  - apply String.eqb_eq in E. subst name'. cbn [option_map snd].
    apply dict_get_set_same.
  - rewrite dict_get_set_other; [exact IH |].
    intros ->. rewrite String.eqb_refl in E. discriminate.
Qed.

Section Fetch.

Variable fetch_scalr : string -> exn + EnvironmentPage.

(** With enough requests allowed, the loop ends as the reading does. *)
Lemma fetch_environments_from_reads (route : string) (pages : list EnvironmentPage)
    (ending : option exn) :
  reads fetch_scalr route pages ending ->
  forall fuel environments,
    (List.length pages < fuel)%nat ->
    fetch_environments_from fetch_scalr fuel route environments
    = Some match ending with
           | Some e => inl e
           | None => inr (add_page environments (concat (map ep_data pages)))
           end.
Proof.
  induction 1 as [route response Hfetch Hnext | route e Hfetch
                  | route route' response pages ending Hfetch Hnext Hreads IH];
    intros [| fuel] environments Hfuel; cbn [List.length] in Hfuel; try lia;
    cbn [fetch_environments_from]; rewrite Hfetch.
  - rewrite Hnext. cbn [map concat]. now rewrite app_nil_r.
  - reflexivity.
  - rewrite Hnext. rewrite IH by lia.
    destruct ending; [reflexivity |].
    cbn [map concat]. now rewrite add_page_app.
Qed.

(** X2. The directory [fetch_environments] returns when the listing ends after
    finitely many pages: its names are distinct, and each name has the
    identifier it was listed with last, over all pages in order. *)
Theorem fetch_environments_directory (pages : list EnvironmentPage) (fuel : nat) :
  reads fetch_scalr "environments" pages None ->
  (List.length pages < fuel)%nat ->
  exists environments,
    fetch_environments fetch_scalr fuel = Some (inr environments)
    /\ List.NoDup (map fst environments)
    /\ forall name,
        Dict.get name environments = last_listed name (concat (map ep_data pages)).
Proof.
  intros Hreads Hfuel. eexists. split; [| split].
  - unfold fetch_environments.
    exact (fetch_environments_from_reads _ _ _ Hreads fuel [] Hfuel).
  - apply add_page_nodup. constructor.
  - intros name. rewrite add_page_get.
    now destruct (last_listed name (concat (map ep_data pages))).
Qed.

(** X3. A request that raises ends [fetch_environments] with that exception,
    whatever the pages before it listed. *)
Theorem fetch_environments_failure (pages : list EnvironmentPage) (e : exn) (fuel : nat) :
  reads fetch_scalr "environments" pages (Some e) ->
  (List.length pages < fuel)%nat ->
  fetch_environments fetch_scalr fuel = Some (inl e).
Proof.
  intros Hreads Hfuel. unfold fetch_environments.
  exact (fetch_environments_from_reads _ _ _ Hreads fuel [] Hfuel).
Qed.

(** X4. A page whose next link leads back to its own route keeps the loop going
    for ever: no number of requests ends it. *)
Theorem fetch_environments_circular (route : string) (response : EnvironmentPage) :
  fetch_scalr route = inr response ->
  next_route response = Some route ->
  forall fuel environments,
    fetch_environments_from fetch_scalr fuel route environments = None.
Proof.
  intros Hfetch Hnext. induction fuel as [| fuel IH]; intros environments; [reflexivity |].
  cbn [fetch_environments_from]. rewrite Hfetch, Hnext. apply IH.
Qed.

End Fetch.

Lemma example_listing_reads :
  reads Cases.environment_pages "environments"
    [ {| ep_data := [("acct1", "env-1"); ("acct2", "env-2")];
         ep_next := Some "https://acme.scalr.io/api/iacp/v3/environments?page[number]=2" |};
      {| ep_data := [("acct3", "env-3"); ("acct1", "env-9")]; ep_next := None |} ]
    None.
Proof.
  apply (reads_next _ _ "environments?page[number]=2"); [reflexivity | reflexivity |].
  apply reads_last; reflexivity.
Qed.

Lemma fetch_environments_directory_witness :
  exists environments,
    fetch_environments Cases.environment_pages 3 = Some (inr environments)
    /\ List.NoDup (map fst environments)
    /\ forall name,
        Dict.get name environments
        = last_listed name
            (concat (map ep_data
               [ {| ep_data := [("acct1", "env-1"); ("acct2", "env-2")];
                    ep_next := Some "https://acme.scalr.io/api/iacp/v3/environments?page[number]=2" |};
                 {| ep_data := [("acct3", "env-3"); ("acct1", "env-9")]; ep_next := None |} ])).
Proof.
  apply (fetch_environments_directory Cases.environment_pages _ 3 example_listing_reads).
  simpl. lia.
Defined.

(** The listing of the example: [acct1] keeps its first place and has the
    identifier of its second listing. *)
Example fetch_environments_example :
  fetch_environments Cases.environment_pages 3
  = Some (inr [("acct1", "env-9"); ("acct2", "env-2"); ("acct3", "env-3")]).
Proof. reflexivity. Qed.

Lemma fetch_environments_failure_witness :
  fetch_environments Cases.environment_pages_broken 2 = Some (inl JSONDecodeError).
Proof.
  apply (fetch_environments_failure Cases.environment_pages_broken
           [ {| ep_data := [("acct1", "env-1"); ("acct2", "env-2")];
                ep_next := Some "https://acme.scalr.io/api/iacp/v3/environments?page[number]=2" |} ]
           JSONDecodeError 2).
  - apply (reads_next _ _ "environments?page[number]=2"); [reflexivity | reflexivity |].
    apply reads_error. reflexivity.
  - simpl. lia.
Defined.

Lemma fetch_environments_circular_witness :
  fetch_environments_from Cases.environment_pages_circular 1000 "environments" [] = None.
Proof.
  apply (fetch_environments_circular Cases.environment_pages_circular "environments"
           {| ep_data := [("acct1", "env-1")];
              ep_next := Some "https://acme.scalr.io/api/iacp/v3/environments" |});
    reflexivity.
Defined.

End DirectoryFacts.

(** ** Segments of names *)

Lemma split_not_nil (sep : ascii) (s : string) : PyStr.split sep s <> [].
Proof.
  induction s as [| c s IH]; cbn [PyStr.split]; [discriminate |].
  destruct (Ascii.eqb c sep); [discriminate |].
  destruct (PyStr.split sep s); discriminate.
Qed.

Lemma split_segments_no_separator (sep : ascii) (s : string) :
  Forall (fun segment => contains sep segment = false) (PyStr.split sep s).
Proof.
  induction s as [| c s IH]; cbn [PyStr.split].
  - constructor; [reflexivity | constructor].
  - destruct (Ascii.eqb c sep) eqn:E.
    + constructor; [reflexivity | exact IH].
    + destruct (PyStr.split sep s) as [| h t].
      * constructor; [| constructor]. cbn [contains].
        now rewrite Ascii.eqb_sym, E.
      * inversion IH as [| ? ? Hh Ht]; subst. constructor; [| exact Ht].
        cbn [contains]. now rewrite Ascii.eqb_sym, E.
Qed.

Lemma last_in (l : list string) (d : string) : l <> [] -> In (List.last l d) l.
Proof.
  induction l as [| x l IH]; [contradiction |]. intros _.
  destruct l as [| y l]; [now left |].
  right. apply IH. discriminate.
Qed.

(** The last segment holds no separator. *)
Lemma last_segment_no_separator (sep : ascii) (s : string) :
  contains sep (PyStr.last_segment sep s) = false.
Proof.
  unfold PyStr.last_segment.
  pose proof (split_segments_no_separator sep s) as H.
  rewrite List.Forall_forall in H. apply H, last_in, split_not_nil.
Qed.

Lemma append_empty_r (s : string) : s +:+ EmptyString = s.
Proof. induction s as [| c s IH]; [reflexivity |]. rewrite append_cons. now f_equal. Qed.

Lemma append_assoc (s t u : string) : (s +:+ t) +:+ u = s +:+ (t +:+ u).
Proof. induction s as [| c s IH]; [reflexivity |]. rewrite !append_cons. now f_equal. Qed.

(** Joining the segments with the separator gives the text back. *)
Lemma join_split (sep : ascii) (s : string) :
  PyStr.join (String sep EmptyString) (PyStr.split sep s) = s.
Proof.
  induction s as [| c s IH]; [reflexivity |].
  cbn [PyStr.split]. destruct (Ascii.eqb c sep) eqn:E.
  - apply Ascii.eqb_eq in E. subst c.
    pose proof (split_not_nil sep s) as Hs.
    destruct (PyStr.split sep s) as [| h t]; [contradiction |].
    cbn [PyStr.join] in *. rewrite append_empty, append_cons, append_empty. now f_equal.
  - destruct (PyStr.split sep s) as [| h t].
    + cbn [PyStr.join] in *. now subst s.
    + destruct t as [| h' t]; cbn [PyStr.join] in *; rewrite ?append_cons; now f_equal.
Qed.

Lemma join_cons (sep : string) (y : string) (l : list string) :
  l <> [] -> PyStr.join sep (y :: l) = y +:+ sep +:+ PyStr.join sep l.
Proof. destruct l; [contradiction | reflexivity]. Qed.

Lemma concat_empty_cons (y : string) (l : list string) :
  String.concat EmptyString (y :: l) = y +:+ String.concat EmptyString l.
Proof.
  destruct l as [| z l]; cbn [String.concat].
  - symmetry. apply append_empty_r.
  - now rewrite append_empty.
Qed.

Lemma join_snoc (sep : ascii) (init : list string) (x : string) :
  PyStr.join (String sep EmptyString) (init ++ [x])
  = String.concat EmptyString (map (fun segment => segment +:+ String sep EmptyString) init) +:+ x.
Proof.
  induction init as [| y init IH]; [reflexivity |].
  cbn [app map]. rewrite join_cons by (destruct init; discriminate).
  rewrite IH, concat_empty_cons. now rewrite !append_assoc.
Qed.

(** A text is its last segment after [before_last_segment]. *)
Lemma last_segment_suffix (sep : ascii) (s : string) :
  s = before_last_segment sep s +:+ PyStr.last_segment sep s.
Proof.
  unfold before_last_segment, PyStr.last_segment.
  rewrite <- join_snoc, <- app_removelast_last by apply split_not_nil.
  symmetry. apply join_split.
Qed.

Lemma concat_empty_app (l1 l2 : list string) :
  String.concat EmptyString (l1 ++ l2)
  = String.concat EmptyString l1 +:+ String.concat EmptyString l2.
Proof.
  induction l1 as [| y l1 IH]; [reflexivity |].
  cbn [app]. rewrite !concat_empty_cons, IH. now rewrite append_assoc.
Qed.

Lemma before_last_segment_ends (sep : ascii) (s : string) :
  before_last_segment sep s = EmptyString
  \/ last_char (before_last_segment sep s) = Some sep.
Proof.
  unfold before_last_segment.
  destruct (removelast (PyStr.split sep s)) as [| y init] eqn:E using rev_ind; [now left |].
  right. rewrite map_app, concat_empty_app. cbn [map].
  rewrite concat_empty_cons. cbn [String.concat]. rewrite append_empty_r.
  apply last_char_append, last_char_append. reflexivity.
Qed.

(** X5. The account of a workspace is what follows the last hyphen of its
    name: it has no hyphen itself, so an environment whose name has one is
    never the one looked up. *)
Theorem account_follows_last_hyphen (tf_workspace : TfWorkspace) :
  ws_name tf_workspace
  = before_last_segment "-" (ws_name tf_workspace) +:+ account_of tf_workspace
  /\ (before_last_segment "-" (ws_name tf_workspace) = EmptyString
      \/ last_char (before_last_segment "-" (ws_name tf_workspace)) = Some "-"%char)
  /\ contains "-" (account_of tf_workspace) = false
  /\ forall environment, contains "-" environment = true ->
                         account_of tf_workspace <> environment.
Proof.
  split; [apply last_segment_suffix |].
  split; [apply before_last_segment_ends |].
  split; [apply last_segment_no_separator |].
  intros environment Henv Heq. rewrite <- Heq in Henv.
  unfold account_of in Henv. rewrite last_segment_no_separator in Henv. discriminate.
Qed.

(** ** Dictionaries built by a loop of assignments *)

Lemma fold_insert_lookup {A : Type} (key val : A -> string) (l : list A)
    (m : gmap string string) (k : string) :
  fold_left (fun m x => <[key x := val x]> m) l m !! k
  = match List.find (fun x => String.eqb (key x) k) (rev l) with
    | Some x => Some (val x)
    | None => m !! k
    end.
Proof.
  revert m. induction l as [| x l IH] using rev_ind; intros m; [reflexivity |].
  rewrite fold_left_app, rev_app_distr. cbn [fold_left rev app find].
  destruct (String.eqb (key x) k) eqn:E.
  - apply String.eqb_eq in E. subst k. apply lookup_insert_eq.
  - rewrite lookup_insert_ne; [apply IH |].
    intros Heq. rewrite Heq, String.eqb_refl in E. discriminate.
Qed.

(** X6. In the secrets of a workspace, a key has the value of the last
    parameter whose name ends in it, at whatever depth under the path. *)
Theorem secrets_last_parameter_wins (outside : Outside) (path key : string) :
  secrets_under outside path !! key
  = option_map snd
      (List.find (fun param => String.eqb (PyStr.last_segment "/" (fst param)) key)
         (rev (ssm_parameters outside path))).
Proof.
  unfold secrets_under.
  rewrite (fold_insert_lookup (fun param => PyStr.last_segment "/" (fst param)) snd).
  now destruct (List.find _ _).
Qed.

(** X7. No secret is filed under a key with a slash, so a sensitive variable
    with such a key raises [KeyError], whatever the store holds. *)
Theorem sensitive_key_with_slash_fails (outside : Outside) (path : string)
    (relationships : json) (v : TfVar) (W : World) :
  var_sensitive v = true ->
  contains "/" (var_key v) = true ->
  secrets_under outside path !! var_key v = None
  /\ migrate_variable outside (secrets_under outside path) relationships v W
     = (inl (KeyError (var_key v)), W).
Proof.
  intros Hsens Hslash.
  assert (Hnone : secrets_under outside path !! var_key v = None).
  { rewrite secrets_last_parameter_wins.
    destruct (List.find _ _) as [param |] eqn:Hfind; [| reflexivity].
    apply List.find_some in Hfind as [_ Heq]. apply String.eqb_eq in Heq.
    rewrite <- Heq, last_segment_no_separator in Hslash. discriminate. }
  split; [exact Hnone |].
  unfold migrate_variable. rewrite Hsens, Hnone. reflexivity.
Qed.

Lemma sensitive_key_with_slash_fails_witness :
  secrets_under Scenario.outside "/migration/orders-prod-acct1" !! var_key Cases.nested_key = None
  /\ migrate_variable Scenario.outside
       (secrets_under Scenario.outside "/migration/orders-prod-acct1")
       (workspace_relationship "workspaces-0") Cases.nested_key Scenario.start
     = (inl (KeyError (var_key Cases.nested_key)), Scenario.start).
Proof.
  apply (sensitive_key_with_slash_fails Scenario.outside "/migration/orders-prod-acct1"
           (workspace_relationship "workspaces-0") Cases.nested_key Scenario.start);
    reflexivity.
Defined.

(** ** The directories of the projects *)

(** X8. A project is found under the lower-cased last segment of a directory,
    and when two directories give the same key the one listed last is
    kept. *)
Theorem cdktf_paths_last_directory_wins (cfg : Config) (lib : Library) (project : string) :
  cdktf_paths cfg lib !! project
  = List.find (fun directory =>
                 String.eqb (str_lower lib (PyStr.last_segment "/" directory)) project)
      (rev (cdktf_directories cfg)).
Proof.
  unfold cdktf_paths, find_cdktf_paths.
  rewrite (fold_insert_lookup (fun directory => str_lower lib (PyStr.last_segment "/" directory))
             (fun directory => directory)).
  now destruct (List.find _ _).
Qed.

(** X9. The keys are lower-cased and the look-up of [migrate_cdktf] is not: a
    workspace whose first segment is not in lower case raises [KeyError]
    at the patch, with nothing written, whatever directories there are. *)
Theorem project_not_in_lower_case_fails (cfg : Config) (lib : Library)
    (workspace_name projectName envName accountLabel : string) (W : World) :
  (forall s, str_lower lib (str_lower lib s) = str_lower lib s) ->
  PyStr.split "-" workspace_name = [projectName; envName; accountLabel] ->
  str_lower lib projectName <> projectName ->
  migrate_cdktf cfg lib workspace_name W = (inl (KeyError projectName), W).
Proof.
  intros Hidem Hsplit Hcase.
  assert (Hnone : cdktf_paths cfg lib !! projectName = None).
  { destruct (cdktf_paths cfg lib !! projectName) as [dir |] eqn:Hdir; [| reflexivity].
    unfold cdktf_paths in Hdir. apply find_cdktf_paths_key in Hdir.
    contradiction Hcase. rewrite Hdir. apply Hidem. }
  unfold migrate_cdktf. rewrite Hsplit.
  unfold bind at 1. unfold get_world. cbv beta iota.
  destruct (decide (projectName ∈ migrated_cdktf_mains W)).
  - unfold bind, ret, patch_cdk_tf_json, cdktf_path_of. rewrite Hnone. reflexivity.
  - unfold bind, inject_main_ts, cdktf_path_of. rewrite Hnone. reflexivity.
Qed.

Lemma scenario_lower_idempotent (s : string) :
  Scenario.lower (Scenario.lower s) = Scenario.lower s.
Proof.
  induction s as [| c s IH]; [reflexivity |].
  cbn [Scenario.lower]. cbv zeta. rewrite IH. f_equal.
  destruct ((65 <=? N_of_ascii c)%N && (N_of_ascii c <=? 90)%N) eqn:E.
  - apply andb_true_iff in E as [E1 E2]. apply N.leb_le in E1, E2.
    rewrite N_ascii_embedding by lia.
    replace ((65 <=? N_of_ascii c + 32)%N && (N_of_ascii c + 32 <=? 90)%N) with false;
      [reflexivity |].
    symmetry. apply andb_false_iff. right. apply N.leb_gt. lia.
  - now rewrite E.
Qed.

Lemma project_not_in_lower_case_fails_witness :
  migrate_cdktf Scenario.cfg Scenario.lib "Billing-prod-acct1" Scenario.start
  = (inl (KeyError "Billing"), Scenario.start).
Proof.
  apply (project_not_in_lower_case_fails Scenario.cfg Scenario.lib "Billing-prod-acct1"
           "Billing" "prod" "acct1" Scenario.start scenario_lower_idempotent).
  - reflexivity.
  - vm_compute. discriminate.
Defined.

(** ** The two version tests *)

Lemma replace_without_marker (v : string) :
  contains "~" v = false -> PyStr.replace "~>" EmptyString v = v.
Proof.
  unfold PyStr.replace. induction v as [| c v IH]; [reflexivity |].
  cbn [contains]. intros H. apply orb_false_iff in H as [Hc Hv].
  cbn [PyStr.replace_from String.prefix].
  destruct (ascii_dec "~" c) as [<- | _]; [discriminate Hc |].
  f_equal. now apply IH.
Qed.

(** X10. On a version without [~] the two tests are the same comparison: a
    workspace the loop did not skip is never rejected for its version at
    creation. *)
Theorem unmarked_version_checked_alike (cfg : Config) (outside : Outside)
    (tf_workspace : TfWorkspace) (env : string) (W : World) :
  contains "~" (ws_terraform_version tf_workspace) = false ->
  eligible tf_workspace = true ->
  Dict.get (account_of tf_workspace) (environments cfg) = Some env ->
  version_unsupported (ws_terraform_version tf_workspace)
  = PyStr.gt (ws_terraform_version tf_workspace) "1.5.7"
  /\ create_workspace cfg outside tf_workspace W
     = write_scalr outside "workspaces" (workspace_document cfg tf_workspace env) W.
Proof.
  intros Hplain Hel Henv.
  assert (Hsame : version_unsupported (ws_terraform_version tf_workspace)
                  = PyStr.gt (ws_terraform_version tf_workspace) "1.5.7")
    by (unfold version_unsupported; now rewrite replace_without_marker).
  split; [exact Hsame |].
  unfold eligible in Hel. apply andb_true_iff in Hel as [Hel _].
  apply andb_true_iff in Hel as [Hel _]. apply negb_true_iff in Hel.
  rewrite Hsame in Hel.
  unfold create_workspace, environment_of. fold (account_of tf_workspace).
  rewrite Henv. unfold bind, ret. now rewrite Hel.
Qed.

Lemma unmarked_version_checked_alike_witness :
  version_unsupported (ws_terraform_version Scenario.orders_dev)
  = PyStr.gt (ws_terraform_version Scenario.orders_dev) "1.5.7"
  /\ create_workspace Scenario.cfg Scenario.outside Scenario.orders_dev Scenario.start
     = write_scalr Scenario.outside "workspaces"
         (workspace_document Scenario.cfg Scenario.orders_dev "env-2") Scenario.start.
Proof.
  apply (unmarked_version_checked_alike Scenario.cfg Scenario.outside Scenario.orders_dev
           "env-2" Scenario.start); reflexivity.
Defined.

(** X11. A version written with the pessimistic operator and a blank is never
    skipped by the loop and always rejected at creation, whatever the
    number after it: such a workspace can only fail. *)
Theorem pessimistic_version_passes_then_fails (cfg : Config) (outside : Outside)
    (tf_workspace : TfWorkspace) (number : string) (W : World) :
  ws_terraform_version tf_workspace = "~> " +:+ number ->
  version_unsupported (ws_terraform_version tf_workspace) = false
  /\ exists e, create_workspace cfg outside tf_workspace W = (inl e, W).
Proof.
  intros Hv. split.
  - unfold version_unsupported, PyStr.replace. rewrite Hv, !append_cons, append_empty.
    cbn [PyStr.replace_from String.prefix String.length Nat.sub].
    destruct (ascii_dec "~" "~") as [_ | Hne]; [| contradiction].
    destruct (ascii_dec ">" ">") as [_ | Hne]; [| contradiction].
    rewrite append_empty. cbn [PyStr.replace_from String.prefix].
    destruct (ascii_dec "~" " ") as [Heq | _]; [discriminate Heq |].
    reflexivity.
  - unfold create_workspace, environment_of, bind, ret, raise.
    destruct (Dict.get _ (environments cfg)) as [env |]; [| eexists; reflexivity].
    rewrite Hv, !append_cons. eexists. reflexivity.
Qed.

Lemma pessimistic_version_passes_then_fails_witness :
  version_unsupported (ws_terraform_version Cases.pessimistic) = false
  /\ exists e, create_workspace Scenario.cfg Scenario.outside Cases.pessimistic Scenario.start
               = (inl e, Scenario.start).
Proof.
  apply (pessimistic_version_passes_then_fails Scenario.cfg Scenario.outside Cases.pessimistic
           "1.5.0" Scenario.start).
  reflexivity.
Defined.

(** ** Names of three segments *)

(** X12. When the unpacking of [migrate_cdktf] succeeds, the name is the three
    segments with a hyphen between them, and no segment has a hyphen: the
    directory of the stack is the name after its project and hyphen. *)
Theorem three_segments_make_the_name (workspace_name projectName envName accountLabel : string) :
  PyStr.split "-" workspace_name = [projectName; envName; accountLabel] ->
  workspace_name = projectName +:+ "-" +:+ envName +:+ "-" +:+ accountLabel
  /\ contains "-" projectName = false
  /\ contains "-" envName = false
  /\ contains "-" accountLabel = false.
Proof.
  intros Hsplit.
  pose proof (join_split "-" workspace_name) as Hjoin.
  pose proof (split_segments_no_separator "-" workspace_name) as Hseg.
  rewrite Hsplit in Hjoin, Hseg.
  split; [now rewrite <- Hjoin |].
  inversion Hseg as [| ? ? Hp Hrest]; subst.
  inversion Hrest as [| ? ? He Hrest']; subst.
  inversion Hrest' as [| ? ? Ha _]; subst.
  auto.
Qed.

Lemma three_segments_make_the_name_witness :
  "orders-prod-acct1" = "orders" +:+ "-" +:+ "prod" +:+ "-" +:+ "acct1"
  /\ contains "-" "orders" = false
  /\ contains "-" "prod" = false
  /\ contains "-" "acct1" = false.
Proof.
  apply (three_segments_make_the_name "orders-prod-acct1" "orders" "prod" "acct1").
  reflexivity.
Defined.

(** ** Creation and the existence query *)

(** X13. A workspace [create_workspace] created is found by the existence query
    under its name and the environment of its account, so the body of the
    loop, run again for it, only reports that it exists. *)
Theorem created_workspace_is_found (cfg : Config) (outside : Outside) (lib : Library)
    (tf_workspace : TfWorkspace) (id : string) (W W' : World) :
  create_workspace cfg outside tf_workspace W = (inr id, W') ->
  exists env,
    Dict.get (account_of tf_workspace) (environments cfg) = Some env
    /\ scalr_find (ws_name tf_workspace) env (scalr_workspaces W') <> []
    /\ (eligible tf_workspace = true ->
        fault outside (List.length (trace W'))
          (ScalrGetWorkspaces (ws_name tf_workspace) env) = None ->
        migrate_one cfg outside lib tf_workspace W'
        = (inr tt,
           set_out (fun o => (o ++ [AlreadyExists (ws_name tf_workspace)])%list)
             (set_trace
                (fun t => (t ++ [ScalrGetWorkspaces (ws_name tf_workspace) env])%list) W'))).
Proof.
  intros Hcreate.
  apply create_workspace_result in Hcreate as (env & Henv & _ & Hwrite).
  apply write_scalr_workspaces_result in Hwrite as [Hstore _].
  assert (Hfound : scalr_find (ws_name tf_workspace) env (scalr_workspaces W') <> []).
  { rewrite Hstore. unfold scalr_find. rewrite List.filter_app. cbn [List.filter snd].
    rewrite workspace_document_matches.
    destruct (List.filter _ (scalr_workspaces W)); discriminate. }
  exists env. split; [exact Henv |]. split; [exact Hfound |].
  intros Hel Hfault. now apply migrate_one_existing.
Qed.

Lemma created_workspace_is_found_witness :
  exists env,
    Dict.get (account_of Scenario.orders_prod) (environments Scenario.cfg) = Some env
    /\ scalr_find (ws_name Scenario.orders_prod) env (scalr_workspaces Scenario.after_creation)
       <> []
    /\ (eligible Scenario.orders_prod = true ->
        fault Scenario.outside (List.length (trace Scenario.after_creation))
          (ScalrGetWorkspaces (ws_name Scenario.orders_prod) env) = None ->
        migrate_one Scenario.cfg Scenario.outside Scenario.lib Scenario.orders_prod
          Scenario.after_creation
        = (inr tt,
           set_out (fun o => (o ++ [AlreadyExists (ws_name Scenario.orders_prod)])%list)
             (set_trace
                (fun t => (t ++ [ScalrGetWorkspaces (ws_name Scenario.orders_prod) env])%list)
                Scenario.after_creation))).
Proof.
  apply (created_workspace_is_found Scenario.cfg Scenario.outside Scenario.lib
           Scenario.orders_prod "workspaces-0" Scenario.after_query Scenario.after_creation).
  vm_compute. reflexivity.
Defined.

(** ** A second run *)

Lemma second_run_changes_nothing_witness :
  same_resources
    (snd (migrate_loop Scenario.cfg Scenario.outside Scenario.lib
            [Scenario.orders_prod; Scenario.billing_prod; Scenario.orders_dev] Scenario.start))
    (snd (migrate_loop Scenario.cfg Scenario.outside Scenario.lib
            [Scenario.orders_prod; Scenario.billing_prod; Scenario.orders_dev]
            (snd (migrate_loop Scenario.cfg Scenario.outside Scenario.lib
                    [Scenario.orders_prod; Scenario.billing_prod; Scenario.orders_dev]
                    Scenario.start)))).
Proof.
  apply (second_run_changes_nothing Scenario.cfg Scenario.outside Scenario.lib
           [Scenario.orders_prod; Scenario.billing_prod; Scenario.orders_dev] Scenario.start).
  intros n c. reflexivity.
Defined.

(** ** What a step leaves in place *)

Section Respects.

Variable R : World -> World -> Prop.
Hypothesis R_refl : forall W, R W W.
Hypothesis R_trans : forall W1 W2 W3, R W1 W2 -> R W2 W3 -> R W1 W3.

Lemma respects_ret {A : Type} (a : A) : respects R (ret a).
Proof. intros W. apply R_refl. Qed.

Lemma respects_raise {A : Type} (e : exn) : respects R (@raise A e).
Proof. intros W. apply R_refl. Qed.

Lemma respects_lift {A : Type} (r : exn + A) : respects R (lift r).
Proof. intros W. apply R_refl. Qed.

Lemma respects_get_world : respects R get_world.
Proof. intros W. apply R_refl. Qed.

Lemma respects_bind {A B : Type} (m : M A) (f : A -> M B) :
  respects R m -> (forall a, respects R (f a)) -> respects R (bind m f).
Proof.
  intros Hm Hf W. unfold bind. specialize (Hm W).
  destruct (m W) as [[e | a] W1]; cbn [snd] in *; [exact Hm |].
  exact (R_trans _ _ _ Hm (Hf a W1)).
Qed.

Lemma respects_try_except {A : Type} (m : M A) (h : exn -> M A) :
  respects R m -> (forall e, respects R (h e)) -> respects R (try_except m h).
Proof.
  intros Hm Hh W. unfold try_except. specialize (Hm W).
  destruct (m W) as [[e | a] W1]; cbn [snd] in *; [| exact Hm].
  exact (R_trans _ _ _ Hm (Hh e W1)).
Qed.

Lemma respects_modify (f : World -> World) :
  (forall W, R W (f W)) -> respects R (modify f).
Proof. intros Hf W. apply Hf. Qed.

Lemma respects_request (outside : Outside) (c : Call) :
  (forall f W, R W (set_trace f W)) -> respects R (request outside c).
Proof. intros Hf W. unfold request. destruct (fault outside _ c); apply Hf. Qed.

End Respects.

Lemma source_untouched_refl (W : World) : source_untouched W W.
Proof. reflexivity. Qed.

Lemma source_untouched_trans (W1 W2 W3 : World) :
  source_untouched W1 W2 -> source_untouched W2 W3 -> source_untouched W1 W3.
Proof. unfold source_untouched. congruence. Qed.

Lemma target_extends_refl (W : World) : target_extends W W.
Proof. repeat split; exists []; symmetry; apply app_nil_r. Qed.

Lemma target_extends_trans (W1 W2 W3 : World) :
  target_extends W1 W2 -> target_extends W2 W3 -> target_extends W1 W3.
Proof.
  intros ([a1 A1] & [a2 A2] & [a3 A3]) ([b1 B1] & [b2 B2] & [b3 B3]).
  split; [| split].
  - exists (a1 ++ b1)%list. now rewrite B1, A1, app_assoc.
  - exists (a2 ++ b2)%list. now rewrite B2, A2, app_assoc.
  - exists (a3 ++ b3)%list. now rewrite B3, A3, app_assoc.
Qed.

(** A change of the world that touches none of the three stores of the
    target. *)
Lemma target_extends_same (W W' : World) :
  scalr_workspaces W' = scalr_workspaces W ->
  scalr_state_versions W' = scalr_state_versions W ->
  scalr_vars W' = scalr_vars W ->
  target_extends W W'.
Proof.
  intros H1 H2 H3. repeat split; exists []; rewrite app_nil_r; assumption.
Qed.

Create HintDb respects_frame.

#[local] Hint Resolve source_untouched_refl source_untouched_trans
  target_extends_refl target_extends_trans : respects_frame.

#[local] Hint Extern 1 (respects source_untouched (ret _)) =>
  apply (respects_ret _ source_untouched_refl) : respects_frame.
#[local] Hint Extern 1 (respects source_untouched (raise _)) =>
  apply (respects_raise _ source_untouched_refl) : respects_frame.
#[local] Hint Extern 1 (respects source_untouched (lift _)) =>
  apply (respects_lift _ source_untouched_refl) : respects_frame.
#[local] Hint Extern 1 (respects source_untouched get_world) =>
  apply (respects_get_world _ source_untouched_refl) : respects_frame.
#[local] Hint Extern 1 (respects source_untouched (request _ _)) =>
  apply respects_request; intros ? ?; reflexivity : respects_frame.
#[local] Hint Extern 1 (respects source_untouched (write_line _)) =>
  apply respects_modify; intros ?; reflexivity : respects_frame.
#[local] Hint Extern 1 (respects target_extends (ret _)) =>
  apply (respects_ret _ target_extends_refl) : respects_frame.
#[local] Hint Extern 1 (respects target_extends (raise _)) =>
  apply (respects_raise _ target_extends_refl) : respects_frame.
#[local] Hint Extern 1 (respects target_extends (lift _)) =>
  apply (respects_lift _ target_extends_refl) : respects_frame.
#[local] Hint Extern 1 (respects target_extends get_world) =>
  apply (respects_get_world _ target_extends_refl) : respects_frame.
#[local] Hint Extern 1 (respects target_extends (request _ _)) =>
  apply respects_request; intros ? ?; apply target_extends_same; reflexivity : respects_frame.
#[local] Hint Extern 1 (respects target_extends (write_line _)) =>
  apply respects_modify; intros ?; apply target_extends_same; reflexivity : respects_frame.

Ltac respect_bind :=
  match goal with
  | |- respects source_untouched (bind _ _) =>
      apply (respects_bind _ source_untouched_trans)
  | |- respects target_extends (bind _ _) =>
      apply (respects_bind _ target_extends_trans)
  | |- respects source_untouched (try_except _ _) =>
      apply (respects_try_except _ source_untouched_trans)
  | |- respects target_extends (try_except _ _) =>
      apply (respects_try_except _ target_extends_trans)
  end.

Ltac respect_modify :=
  apply respects_modify; intros ?;
  first
    [ reflexivity
    | apply target_extends_same; reflexivity
    | split; [| split]; cbn;
      first [ eexists; reflexivity | exists []; symmetry; apply app_nil_r ] ].

Ltac respect :=
  repeat first
    [ solve [auto with respects_frame]
    | progress cbv zeta
    | respect_bind
    | respect_modify
    | match goal with
      | |- forall _, _ => intro
      | |- respects _ (if ?b then _ else _) => destruct b
      | |- respects _ (match ?x with _ => _ end) => destruct x
      end ];
  auto with respects_frame.

Section Frames.

Variable cfg : Config.
Variable outside : Outside.
Variable lib : Library.

Lemma source_untouched_write_scalr (route : string) (data : json) :
  respects source_untouched (write_scalr outside route data).
Proof. unfold write_scalr. respect. Qed.

Lemma target_extends_write_scalr (route : string) (data : json) :
  respects target_extends (write_scalr outside route data).
Proof. unfold write_scalr. respect. Qed.

#[local] Hint Resolve source_untouched_write_scalr target_extends_write_scalr : respects_frame.

Lemma source_untouched_create_workspace (tf_workspace : TfWorkspace) :
  respects source_untouched (create_workspace cfg outside tf_workspace).
Proof. unfold create_workspace, environment_of. respect. Qed.

Lemma target_extends_create_workspace (tf_workspace : TfWorkspace) :
  respects target_extends (create_workspace cfg outside tf_workspace).
Proof. unfold create_workspace, environment_of. respect. Qed.

Lemma source_untouched_create_state (tfc_state : TfStateVersion) (workspace_id : string) :
  respects source_untouched (create_state outside lib tfc_state workspace_id).
Proof. unfold create_state, lineage_of. respect. Qed.

Lemma target_extends_create_state (tfc_state : TfStateVersion) (workspace_id : string) :
  respects target_extends (create_state outside lib tfc_state workspace_id).
Proof. unfold create_state, lineage_of. respect. Qed.

#[local] Hint Resolve source_untouched_create_state target_extends_create_state : respects_frame.

Lemma source_untouched_create_states (states : list TfStateVersion) (workspace_id : string) :
  respects source_untouched (create_states outside lib states workspace_id).
Proof. induction states; cbn [create_states]; respect. Qed.

Lemma target_extends_create_states (states : list TfStateVersion) (workspace_id : string) :
  respects target_extends (create_states outside lib states workspace_id).
Proof. induction states; cbn [create_states]; respect. Qed.

#[local] Hint Resolve source_untouched_create_states target_extends_create_states : respects_frame.

Lemma source_untouched_migrate_state (workspace_id workspace_name : string) :
  respects source_untouched (migrate_state cfg outside lib workspace_id workspace_name).
Proof. unfold migrate_state. respect. Qed.

Lemma target_extends_migrate_state (workspace_id workspace_name : string) :
  respects target_extends (migrate_state cfg outside lib workspace_id workspace_name).
Proof. unfold migrate_state. respect. Qed.

Lemma source_untouched_migrate_variable (secrets : gmap string string) (relationships : json)
    (v : TfVar) :
  respects source_untouched (migrate_variable outside secrets relationships v).
Proof. unfold migrate_variable, create_variable. respect. Qed.

Lemma target_extends_migrate_variable (secrets : gmap string string) (relationships : json)
    (v : TfVar) :
  respects target_extends (migrate_variable outside secrets relationships v).
Proof. unfold migrate_variable, create_variable. respect. Qed.

#[local] Hint Resolve source_untouched_migrate_variable target_extends_migrate_variable
  : respects_frame.

Lemma source_untouched_migrate_variable_list (secrets : gmap string string)
    (relationships : json) (vars : list TfVar) :
  respects source_untouched (migrate_variable_list outside secrets relationships vars).
Proof. induction vars; cbn [migrate_variable_list]; respect. Qed.

Lemma target_extends_migrate_variable_list (secrets : gmap string string)
    (relationships : json) (vars : list TfVar) :
  respects target_extends (migrate_variable_list outside secrets relationships vars).
Proof. induction vars; cbn [migrate_variable_list]; respect. Qed.

#[local] Hint Resolve source_untouched_migrate_variable_list target_extends_migrate_variable_list
  : respects_frame.

Lemma source_untouched_migrate_variables (workspace_id workspace_name : string) :
  respects source_untouched (migrate_variables cfg outside workspace_id workspace_name).
Proof. unfold migrate_variables, get_workspace_secrets. respect. Qed.

Lemma target_extends_migrate_variables (workspace_id workspace_name : string) :
  respects target_extends (migrate_variables cfg outside workspace_id workspace_name).
Proof. unfold migrate_variables, get_workspace_secrets. respect. Qed.

Lemma source_untouched_migrate_cdktf (workspace_name : string) :
  respects source_untouched (migrate_cdktf cfg lib workspace_name).
Proof.
  unfold migrate_cdktf, inject_main_ts, patch_cdk_tf_json, cdktf_path_of, open_rplus,
    find_synth_index, write_from_start, environment_of.
  respect.
Qed.

Lemma target_extends_migrate_cdktf (workspace_name : string) :
  respects target_extends (migrate_cdktf cfg lib workspace_name).
Proof.
  unfold migrate_cdktf, inject_main_ts, patch_cdk_tf_json, cdktf_path_of, open_rplus,
    find_synth_index, write_from_start, environment_of.
  respect.
Qed.

Lemma target_extends_lock_tfc_workspace (tf_workspace : TfWorkspace) :
  respects target_extends (lock_tfc_workspace cfg outside tf_workspace).
Proof. unfold lock_tfc_workspace, write_tfc. respect. Qed.

#[local] Hint Resolve source_untouched_create_workspace target_extends_create_workspace
  source_untouched_migrate_state target_extends_migrate_state
  source_untouched_migrate_variables target_extends_migrate_variables
  source_untouched_migrate_cdktf target_extends_migrate_cdktf
  target_extends_lock_tfc_workspace : respects_frame.

Lemma target_extends_migrate_one (tf_workspace : TfWorkspace) :
  respects target_extends (migrate_one cfg outside lib tf_workspace).
Proof. unfold migrate_one, migrate_new, fetch_scalr_workspaces, environment_of. respect. Qed.

Lemma target_extends_migrate_loop (workspaces : list TfWorkspace) :
  respects target_extends (migrate_loop cfg outside lib workspaces).
Proof.
  induction workspaces as [| w rest IH]; cbn [migrate_loop]; [respect |].
  respect_bind; [apply target_extends_migrate_one | intros _; exact IH].
Qed.

Lemma target_extends_fetch_workspace_pages (pages : list (list TfWorkspace)) :
  forall page, respects target_extends (fetch_workspace_pages cfg outside page pages).
Proof.
  induction pages as [| data more IH]; intros page; cbn [fetch_workspace_pages].
  - respect.
  - respect_bind; [respect |]. intros _.
    destruct more; [respect |].
    respect_bind; [apply IH | respect].
Qed.

(** X14. A run only adds to the target: the workspaces, the state versions and
    the variables the target held before are still there afterwards, in
    the same order and before anything new. *)
Theorem run_only_adds_to_target (W : World) :
  target_extends W (snd (migrate_workspaces cfg outside lib W)).
Proof.
  revert W. change (respects target_extends (migrate_workspaces cfg outside lib)).
  unfold migrate_workspaces.
  respect_bind; [apply target_extends_fetch_workspace_pages |].
  intros workspaces. apply target_extends_migrate_loop.
Qed.

Lemma lock_tfc_workspace_eq (tf_workspace : TfWorkspace) (W : World) :
  lock_tfc_workspace cfg outside tf_workspace W
  = if lock cfg && negb (ws_locked tf_workspace) then
      match fault outside (List.length (trace W))
              (TfcPost (fst (lock_action tf_workspace)) (snd (lock_action tf_workspace))) with
      | Some err =>
          (inl (CallFailed (TfcPost (fst (lock_action tf_workspace))
                              (snd (lock_action tf_workspace))) err),
           set_trace (fun t => (t ++ [TfcPost (fst (lock_action tf_workspace))
                                        (snd (lock_action tf_workspace))])%list) W)
      | None =>
          (inr tt,
           set_tfc_posts (fun l => (l ++ [lock_action tf_workspace])%list)
             (set_trace (fun t => (t ++ [TfcPost (fst (lock_action tf_workspace))
                                           (snd (lock_action tf_workspace))])%list) W))
      end
    else (inr tt, W).
Proof.
  unfold lock_tfc_workspace.
  destruct (lock cfg && negb (ws_locked tf_workspace)); [| reflexivity].
  unfold write_tfc, bind, lock_action. cbn [fst snd]. rewrite request_eq.
  destruct (fault outside _ _); reflexivity.
Qed.

(** X15. The steps of the [try] block post to the source at most once, the lock
    of the workspace, and only after the creation, the state and the
    variables all went through. *)
Theorem lock_follows_successful_transfer (tf_workspace : TfWorkspace) (W : World) :
  tfc_posts (snd (migrate_new cfg outside lib tf_workspace (ws_name tf_workspace) W))
  = tfc_posts W
  \/ (tfc_posts (snd (migrate_new cfg outside lib tf_workspace (ws_name tf_workspace) W))
      = (tfc_posts W ++ [lock_action tf_workspace])%list
      /\ lock cfg = true
      /\ ws_locked tf_workspace = false
      /\ exists workspace_id W1 W2 W3,
          create_workspace cfg outside tf_workspace W = (inr workspace_id, W1)
          /\ migrate_state cfg outside lib workspace_id (ws_name tf_workspace) W1 = (inr tt, W2)
          /\ migrate_variables cfg outside workspace_id (ws_name tf_workspace) W2
             = (inr tt, W3)).
Proof.
  remember (migrate_new cfg outside lib tf_workspace (ws_name tf_workspace) W) as r eqn:Hr.
  unfold migrate_new in Hr. unfold bind at 1 in Hr.
  pose proof (source_untouched_create_workspace tf_workspace W) as H1.
  unfold source_untouched in H1.
  destruct (create_workspace cfg outside tf_workspace W) as [[e | workspace_id] W1] eqn:Hc;
    cbn [snd] in H1; [subst r; now left |].
  unfold bind at 1 in Hr.
  pose proof (source_untouched_migrate_state workspace_id (ws_name tf_workspace) W1) as H2.
  unfold source_untouched in H2.
  destruct (migrate_state cfg outside lib workspace_id (ws_name tf_workspace) W1)
    as [[e | []] W2] eqn:Hs; cbn [snd] in H2; [subst r; left; cbn [snd]; congruence |].
  unfold bind at 1 in Hr.
  pose proof (source_untouched_migrate_variables workspace_id (ws_name tf_workspace) W2) as H3.
  unfold source_untouched in H3.
  destruct (migrate_variables cfg outside workspace_id (ws_name tf_workspace) W2)
    as [[e | []] W3] eqn:Hv; cbn [snd] in H3; [subst r; left; cbn [snd]; congruence |].
  unfold bind at 1 in Hr. rewrite lock_tfc_workspace_eq in Hr.
  destruct (lock cfg) eqn:Hlock; cbn [andb] in Hr.
  - destruct (ws_locked tf_workspace) eqn:Hlocked; cbn [negb] in Hr.
    + pose proof (source_untouched_migrate_cdktf (ws_name tf_workspace) W3) as H4.
      unfold source_untouched in H4. rewrite <- Hr in H4. left. congruence.
    + destruct (fault outside _ _).
      * subst r. left. cbn [snd tfc_posts set_trace]. congruence.
      * set (W4 := set_tfc_posts _ _) in Hr.
        pose proof (source_untouched_migrate_cdktf (ws_name tf_workspace) W4) as H4.
        unfold source_untouched in H4. rewrite <- Hr in H4. right.
        split; [| split; [reflexivity | split; [reflexivity |]]].
        -- rewrite H4. subst W4. cbn [tfc_posts set_tfc_posts set_trace].
           now rewrite H3, H2, H1.
        -- exists workspace_id, W1, W2, W3. now rewrite Hs, Hv.
  - pose proof (source_untouched_migrate_cdktf (ws_name tf_workspace) W3) as H4.
    unfold source_untouched in H4. rewrite <- Hr in H4. left. congruence.
Qed.

End Frames.

(** ** The listing of the source workspaces *)

Section Listing.

Variable cfg : Config.
Variable outside : Outside.
Variable lib : Library.

Lemma same_resources_set_trace (f : list Call -> list Call) (W W' : World) :
  same_resources W W' -> same_resources W (set_trace f W').
Proof. intros H. exact H. Qed.

Lemma fetch_workspace_pages_nil (page : nat) (W : World) :
  fetch_workspace_pages cfg outside page [] W
  = match fault outside (List.length (trace W))
            (TfcListWorkspaces (tf_organization cfg) (workspace_wildcard cfg) page) with
    | Some err =>
        (inl (CallFailed (TfcListWorkspaces (tf_organization cfg) (workspace_wildcard cfg) page)
                err),
         set_trace (fun t => (t ++ [TfcListWorkspaces (tf_organization cfg)
                                      (workspace_wildcard cfg) page])%list) W)
    | None =>
        (inr [],
         set_trace (fun t => (t ++ [TfcListWorkspaces (tf_organization cfg)
                                      (workspace_wildcard cfg) page])%list) W)
    end.
Proof.
  cbn [fetch_workspace_pages]. unfold bind. rewrite request_eq.
  now destruct (fault outside _ _).
Qed.

Lemma fetch_workspace_pages_last (page : nat) (data : list TfWorkspace) (W : World) :
  fetch_workspace_pages cfg outside page [data] W
  = match fault outside (List.length (trace W))
            (TfcListWorkspaces (tf_organization cfg) (workspace_wildcard cfg) page) with
    | Some err =>
        (inl (CallFailed (TfcListWorkspaces (tf_organization cfg) (workspace_wildcard cfg) page)
                err),
         set_trace (fun t => (t ++ [TfcListWorkspaces (tf_organization cfg)
                                      (workspace_wildcard cfg) page])%list) W)
    | None =>
        (inr data,
         set_trace (fun t => (t ++ [TfcListWorkspaces (tf_organization cfg)
                                      (workspace_wildcard cfg) page])%list) W)
    end.
Proof.
  cbn [fetch_workspace_pages]. unfold bind. rewrite request_eq.
  now destruct (fault outside _ _).
Qed.

Lemma fetch_workspace_pages_more (page : nat) (data data' : list TfWorkspace)
    (more : list (list TfWorkspace)) (W : World) :
  fetch_workspace_pages cfg outside page (data :: data' :: more) W
  = match fault outside (List.length (trace W))
            (TfcListWorkspaces (tf_organization cfg) (workspace_wildcard cfg) page) with
    | Some err =>
        (inl (CallFailed (TfcListWorkspaces (tf_organization cfg) (workspace_wildcard cfg) page)
                err),
         set_trace (fun t => (t ++ [TfcListWorkspaces (tf_organization cfg)
                                      (workspace_wildcard cfg) page])%list) W)
    | None =>
        match fetch_workspace_pages cfg outside (S page) (data' :: more)
                (set_trace (fun t => (t ++ [TfcListWorkspaces (tf_organization cfg)
                                              (workspace_wildcard cfg) page])%list) W) with
        | (inl e, W') => (inl e, W')
        | (inr rest, W') => (inr (data ++ rest)%list, W')
        end
    end.
Proof.
  change (fetch_workspace_pages cfg outside page (data :: data' :: more) W)
    with (bind (request outside (TfcListWorkspaces (tf_organization cfg)
                                   (workspace_wildcard cfg) page))
            (fun _ => bind (fetch_workspace_pages cfg outside (S page) (data' :: more))
                        (fun rest => ret (data ++ rest)%list)) W).
  unfold bind at 1. rewrite request_eq.
  destruct (fault outside _ _); [reflexivity |].
  unfold bind.
  now destruct (fetch_workspace_pages cfg outside (S page) (data' :: more) _) as [[e | rest] W'].
Qed.

(** The listing changes no resource and prints nothing. *)
Lemma listing_changes_nothing (pages : list (list TfWorkspace)) :
  forall page W,
    same_resources W (snd (fetch_workspace_pages cfg outside page pages W))
    /\ out (snd (fetch_workspace_pages cfg outside page pages W)) = out W.
Proof.
  induction pages as [| data more IH]; intros page W.
  - rewrite fetch_workspace_pages_nil.
    destruct (fault outside _ _); (split; [repeat split | reflexivity]).
  - destruct more as [| data' more'].
    + rewrite fetch_workspace_pages_last.
      destruct (fault outside _ _); (split; [repeat split | reflexivity]).
    + rewrite fetch_workspace_pages_more.
      destruct (fault outside _ _); [split; [repeat split | reflexivity] |].
      set (W1 := set_trace _ W).
      destruct (IH (S page) W1) as [Hsame Hout].
      destruct (fetch_workspace_pages cfg outside (S page) (data' :: more') W1)
        as [[e | rest] W2]; cbn [snd] in *; split; assumption.
Qed.

(** X16. A listing request that fails ends the run before any workspace is
    touched: the exception leaves [migrate_workspaces], no resource has
    changed and nothing was printed. *)
Theorem listing_failure_migrates_nothing (e : exn) (W : World) :
  fst (fetch_workspace_pages cfg outside 1 (tfc_workspace_pages outside) W) = inl e ->
  migrate_workspaces cfg outside lib W
  = (inl e, snd (fetch_workspace_pages cfg outside 1 (tfc_workspace_pages outside) W))
  /\ same_resources W (snd (migrate_workspaces cfg outside lib W))
  /\ out (snd (migrate_workspaces cfg outside lib W)) = out W.
Proof.
  intros Hfail.
  assert (Hrun : migrate_workspaces cfg outside lib W
                 = (inl e, snd (fetch_workspace_pages cfg outside 1
                                  (tfc_workspace_pages outside) W))).
  { unfold migrate_workspaces, bind.
    destruct (fetch_workspace_pages cfg outside 1 (tfc_workspace_pages outside) W)
      as [[e' | workspaces] W1]; cbn [fst snd] in *; [congruence | discriminate]. }
  rewrite Hrun. cbn [snd]. split; [reflexivity |].
  apply listing_changes_nothing.
Qed.

(** Without failing calls the listing asks for every page once, in order
    and at least for the first, and gives the workspaces of all pages in
    the order of the pages. *)
Lemma listing_gathers_pages (pages : list (list TfWorkspace)) :
  fault_free outside ->
  forall page W,
    fst (fetch_workspace_pages cfg outside page pages W) = inr (concat pages)
    /\ trace (snd (fetch_workspace_pages cfg outside page pages W))
       = (trace W ++ listing_requests cfg page (Nat.max 1 (List.length pages)))%list.
Proof.
  intros Hfree. induction pages as [| data more IH]; intros page W.
  - rewrite fetch_workspace_pages_nil, (Hfree _ _). split; reflexivity.
  - destruct more as [| data' more'].
    + rewrite fetch_workspace_pages_last, (Hfree _ _).
      cbn [concat]. rewrite app_nil_r. split; reflexivity.
    + rewrite fetch_workspace_pages_more, (Hfree _ _).
      set (W1 := set_trace _ W).
      destruct (IH (S page) W1) as [Hall Htrace].
      destruct (fetch_workspace_pages cfg outside (S page) (data' :: more') W1)
        as [[e | rest] W2]; cbn [fst snd] in *; [discriminate |].
      injection Hall as ->. split; [reflexivity |].
      rewrite Htrace. subst W1. cbn [trace set_trace].
      change (Nat.max 1 (List.length (data :: data' :: more')))
        with (S (Nat.max 1 (List.length (data' :: more')))).
      unfold listing_requests. cbn [seq map]. now rewrite <- app_assoc.
Qed.

(** X17. Without failing calls a run gathers the whole listing first, one
    request for each page in order, and then goes through the workspaces
    of all pages in the order of the listing. *)
Theorem run_processes_whole_listing (W : World) :
  fault_free outside ->
  migrate_workspaces cfg outside lib W
  = migrate_loop cfg outside lib (concat (tfc_workspace_pages outside))
      (snd (fetch_workspace_pages cfg outside 1 (tfc_workspace_pages outside) W))
  /\ trace (snd (fetch_workspace_pages cfg outside 1 (tfc_workspace_pages outside) W))
     = (trace W
          ++ listing_requests cfg 1 (Nat.max 1 (List.length (tfc_workspace_pages outside))))%list.
Proof.
  intros Hfree.
  destruct (listing_gathers_pages (tfc_workspace_pages outside) Hfree 1 W) as [Hall Htrace].
  split; [| exact Htrace].
  unfold migrate_workspaces, bind.
  destruct (fetch_workspace_pages cfg outside 1 (tfc_workspace_pages outside) W)
    as [[e | workspaces] W1]; cbn [fst snd] in *; [discriminate |].
  now injection Hall as ->.
Qed.

End Listing.

Lemma listing_failure_migrates_nothing_witness :
  migrate_workspaces Scenario.cfg Cases.outside_listing_down Scenario.lib Scenario.start
  = (inl (CallFailed (TfcListWorkspaces "acme" "*" 2) "503 Service Unavailable"),
     snd (fetch_workspace_pages Scenario.cfg Cases.outside_listing_down 1
            (tfc_workspace_pages Cases.outside_listing_down) Scenario.start))
  /\ same_resources Scenario.start
       (snd (migrate_workspaces Scenario.cfg Cases.outside_listing_down Scenario.lib
               Scenario.start))
  /\ out (snd (migrate_workspaces Scenario.cfg Cases.outside_listing_down Scenario.lib
                 Scenario.start))
     = out Scenario.start.
Proof.
  apply (listing_failure_migrates_nothing Scenario.cfg Cases.outside_listing_down Scenario.lib
           (CallFailed (TfcListWorkspaces "acme" "*" 2) "503 Service Unavailable")
           Scenario.start).
  reflexivity.
Defined.

Lemma run_processes_whole_listing_witness :
  migrate_workspaces Scenario.cfg Scenario.outside Scenario.lib Scenario.start
  = migrate_loop Scenario.cfg Scenario.outside Scenario.lib
      (concat (tfc_workspace_pages Scenario.outside))
      (snd (fetch_workspace_pages Scenario.cfg Scenario.outside 1
              (tfc_workspace_pages Scenario.outside) Scenario.start))
  /\ trace (snd (fetch_workspace_pages Scenario.cfg Scenario.outside 1
                   (tfc_workspace_pages Scenario.outside) Scenario.start))
     = (trace Scenario.start
          ++ listing_requests Scenario.cfg 1
               (Nat.max 1 (List.length (tfc_workspace_pages Scenario.outside))))%list.
Proof.
  apply (run_processes_whole_listing Scenario.cfg Scenario.outside Scenario.lib Scenario.start).
  intros n c. reflexivity.
Defined.

(** ** The transfer of the state versions *)

Section States.

Variable cfg : Config.
Variable outside : Outside.
Variable lib : Library.

Lemma write_scalr_state_versions_eq (data : json) (W : World) :
  write_scalr outside "state-versions" data W
  = match fault outside (List.length (trace W)) (ScalrPost "state-versions" data) with
    | Some err =>
        (inl (CallFailed (ScalrPost "state-versions" data) err),
         set_trace (fun t => (t ++ [ScalrPost "state-versions" data])%list) W)
    | None =>
        (inr (scalr_new_id outside "state-versions" (List.length (scalr_state_versions W))),
         set_scalr_state_versions (fun l => (l ++ [data])%list)
           (set_trace (fun t => (t ++ [ScalrPost "state-versions" data])%list) W))
    end.
Proof.
  unfold write_scalr, bind, request.
  destruct (fault outside _ _); reflexivity.
Qed.

(** [create_state] by cases: the download, then the payload, then the post. *)
Lemma create_state_eq (tfc_state : TfStateVersion) (workspace_id : string) (W : World) :
  let url := sv_hosted_state_download_url tfc_state in
  let W1 := set_trace (fun t => (t ++ [TfcDownload url])%list) W in
  create_state outside lib tfc_state workspace_id W
  = match fault outside (List.length (trace W)) (TfcDownload url) with
    | Some err => (inl (CallFailed (TfcDownload url) err), W1)
    | None =>
        match json_loads lib (tfc_download outside url) with
        | None => (inl JSONDecodeError, W1)
        | Some payload =>
            match Json.getitem "lineage" payload with
            | inl e => (inl e, W1)
            | inr lineage =>
                write_scalr outside "state-versions"
                  (state_version_document (sv_serial tfc_state)
                     (md5_hexdigest lib (tfc_download outside url)) lineage
                     (Base64.b2a_base64 (tfc_download outside url)) workspace_id) W1
            end
        end
    end.
Proof.
  intros url W1. unfold create_state. fold url.
  rewrite Base64Facts.a2b_b2a.
  unfold bind at 1. rewrite request_eq. fold W1.
  destruct (fault outside _ _); [reflexivity |].
  unfold bind, lineage_of.
  destruct (json_loads lib (tfc_download outside url)) as [payload |]; [| reflexivity].
  unfold lift. now destruct (Json.getitem "lineage" payload).
Qed.

(** X18. A state version whose payload is not JSON, or is JSON without a
    lineage, is not transferred: [create_state] raises after the download,
    with the decoder's error in the first case, and sends nothing to the
    target. *)
Theorem unreadable_state_is_not_posted (tfc_state : TfStateVersion) (workspace_id : string)
    (W : World) :
  spec_state_document outside lib workspace_id tfc_state = None ->
  let r := create_state outside lib tfc_state workspace_id W in
  (exists e, fst r = inl e)
  /\ trace (snd r) = (trace W ++ [TfcDownload (sv_hosted_state_download_url tfc_state)])%list
  /\ same_resources W (snd r)
  /\ (fault outside (List.length (trace W))
        (TfcDownload (sv_hosted_state_download_url tfc_state)) = None ->
      json_loads lib (tfc_download outside (sv_hosted_state_download_url tfc_state)) = None ->
      fst r = inl JSONDecodeError).
Proof.
  intros Hnone r. subst r. rewrite create_state_eq.
  unfold spec_state_document in Hnone.
  destruct (fault outside _ _) as [err |].
  - cbn [fst snd]. repeat split; eauto. discriminate.
  - destruct (json_loads lib _) as [payload |].
    + destruct (Json.getitem "lineage" payload) as [e | lineage]; [| discriminate].
      cbn [fst snd]. repeat split; eauto. discriminate.
    + cbn [fst snd]. repeat split; eauto.
Qed.

Lemma create_states_nil (workspace_id : string) (W : World) :
  create_states outside lib [] workspace_id W = (inr tt, W).
Proof. reflexivity. Qed.

Lemma create_states_cons (tfc_state : TfStateVersion) (rest : list TfStateVersion)
    (workspace_id : string) (W : World) :
  create_states outside lib (tfc_state :: rest) workspace_id W
  = match create_state outside lib tfc_state workspace_id W with
    | (inl e, W1) => (inl e, W1)
    | (inr _, W1) => create_states outside lib rest workspace_id W1
    end.
Proof.
  cbn [create_states]. unfold bind.
  now destruct (create_state outside lib tfc_state workspace_id W) as [[e | id] W1].
Qed.

Lemma create_states_documents (states : list TfStateVersion) (workspace_id : string) :
  fault_free outside ->
  forall W,
    scalr_state_versions (snd (create_states outside lib states workspace_id W))
    = (scalr_state_versions W ++ state_documents outside lib workspace_id states)%list
    /\ (fst (create_states outside lib states workspace_id W) = inr tt
        <-> List.length (state_documents outside lib workspace_id states)
            = List.length states).
Proof.
  intros Hfree. induction states as [| tfc_state rest IH]; intros W.
  - rewrite create_states_nil. cbn. rewrite app_nil_r. tauto.
  - rewrite create_states_cons, create_state_eq, (Hfree _ _).
    cbn [state_documents]. unfold spec_state_document.
    destruct (json_loads lib _) as [payload |].
    + destruct (Json.getitem "lineage" payload) as [e | lineage].
      * cbn. rewrite app_nil_r. split; [reflexivity | split; discriminate].
      * rewrite write_scalr_state_versions_eq, (Hfree _ _).
        destruct (IH (set_scalr_state_versions
                        (fun l => (l ++ [state_version_document (sv_serial tfc_state)
                                           (md5_hexdigest lib
                                              (tfc_download outside
                                                 (sv_hosted_state_download_url tfc_state)))
                                           lineage
                                           (Base64.b2a_base64
                                              (tfc_download outside
                                                 (sv_hosted_state_download_url tfc_state)))
                                           workspace_id])%list)
                        (set_trace (fun t => (t ++ [ScalrPost "state-versions"
                                                      (state_version_document
                                                         (sv_serial tfc_state)
                                                         (md5_hexdigest lib
                                                            (tfc_download outside
                                                               (sv_hosted_state_download_url
                                                                  tfc_state)))
                                                         lineage
                                                         (Base64.b2a_base64
                                                            (tfc_download outside
                                                               (sv_hosted_state_download_url
                                                                  tfc_state)))
                                                         workspace_id)])%list)
                           (set_trace (fun t => (t ++ [TfcDownload
                                                         (sv_hosted_state_download_url
                                                            tfc_state)])%list) W))))
          as [Hdocs Hok].
        rewrite Hdocs. cbn [scalr_state_versions set_scalr_state_versions set_trace].
        rewrite <- app_assoc. split; [reflexivity |].
        rewrite Hok. cbn [List.length]. split; [congruence | now intros [= ->]].
    + cbn. rewrite app_nil_r. split; [reflexivity | split; discriminate].
Qed.

(** X19. Without failing calls [migrate_state] transfers the listed state
    versions in the order of the listing and stops at the first whose
    payload gives no document: the target receives exactly
    [state_documents], and the call returns normally exactly when that is a
    document for every listed state version. *)
Theorem state_versions_posted_in_listing_order (workspace_id workspace_name : string)
    (W : World) :
  fault_free outside ->
  let r := migrate_state cfg outside lib workspace_id workspace_name W in
  let states := tfc_state_versions outside workspace_name in
  scalr_state_versions (snd r)
  = (scalr_state_versions W ++ state_documents outside lib workspace_id states)%list
  /\ (fst r = inr tt
      <-> List.length (state_documents outside lib workspace_id states) = List.length states).
Proof.
  intros Hfree r states. subst r. unfold migrate_state, bind.
  rewrite request_eq, (Hfree _ _).
  exact (create_states_documents states workspace_id Hfree _).
Qed.

End States.

Lemma unreadable_state_is_not_posted_witness :
  let r := create_state Cases.outside_without_lineage Scenario.lib Scenario.orders_prod_state
             "workspaces-0" Scenario.start in
  (exists e, fst r = inl e)
  /\ trace (snd r)
     = (trace Scenario.start
          ++ [TfcDownload (sv_hosted_state_download_url Scenario.orders_prod_state)])%list
  /\ same_resources Scenario.start (snd r)
  /\ (fault Cases.outside_without_lineage (List.length (trace Scenario.start))
        (TfcDownload (sv_hosted_state_download_url Scenario.orders_prod_state)) = None ->
      json_loads Scenario.lib
        (tfc_download Cases.outside_without_lineage
           (sv_hosted_state_download_url Scenario.orders_prod_state)) = None ->
      fst r = inl JSONDecodeError).
Proof.
  apply (unreadable_state_is_not_posted Cases.outside_without_lineage Scenario.lib
           Scenario.orders_prod_state "workspaces-0" Scenario.start).
  vm_compute. reflexivity.
Defined.

Lemma state_versions_posted_in_listing_order_witness :
  let r := migrate_state Scenario.cfg Scenario.outside Scenario.lib "workspaces-0"
             "orders-prod-acct1" Scenario.start in
  let states := tfc_state_versions Scenario.outside "orders-prod-acct1" in
  scalr_state_versions (snd r)
  = (scalr_state_versions Scenario.start
       ++ state_documents Scenario.outside Scenario.lib "workspaces-0" states)%list
  /\ (fst r = inr tt
      <-> List.length (state_documents Scenario.outside Scenario.lib "workspaces-0" states)
          = List.length states).
Proof.
  apply (state_versions_posted_in_listing_order Scenario.cfg Scenario.outside Scenario.lib
           "workspaces-0" "orders-prod-acct1" Scenario.start).
  intros n c. reflexivity.
Defined.

(** ** The entry point *)

Module MainFacts.

Import Main.

(** The call of [main] names every parameter of [__init__] but the last. *)
Lemma constructor_call_misses_prefix (args : Args) (tfe_token scalr_token : json) :
  bind_keywords init_parameters (constructor_call args tfe_token scalr_token)
  = inl (TypeError "missing required arguments: aws_ssm_prefix").
Proof. reflexivity. Qed.

(** With the prefix among the keywords the same call binds. *)
Lemma constructor_call_with_prefix (args : Args) (tfe_token scalr_token : json) :
  bind_keywords init_parameters
    (constructor_call args tfe_token scalr_token
       ++ [("aws_ssm_prefix", JStr (arg_aws_ssm_prefix args))])%list
  = inr (constructor_call args tfe_token scalr_token
           ++ [("aws_ssm_prefix", JStr (arg_aws_ssm_prefix args))])%list.
Proof. reflexivity. Qed.

Section Entry.

Variable lib : Library.
Variable credentials_file : string.
Variable construct_and_migrate : list (string * json) -> M unit.

(** X20. [main] never gets to construct the migrator: whatever the command
    line, the credentials file and the body of the constructor, it ends
    with an exception and the world as it was. *)
Theorem main_never_reaches_the_migration (args : Args) (W : World) :
  exists e, main lib credentials_file construct_and_migrate args W = (inl e, W).
Proof.
  unfold main, bind, get_world, raise, lift. cbv beta iota.
  destruct (files W !! credentials_file) as [raw |]; [| eauto].
  destruct (json_loads lib _) as [credentials |]; [| eauto].
  destruct (token_of (arg_tf_hostname args) credentials) as [e | tfe_token]; [eauto |].
  destruct (token_of (arg_scalr_hostname args) credentials) as [e | scalr_token]; [eauto |].
  rewrite constructor_call_misses_prefix. eauto.
Qed.

(** X21. With a credentials file that holds a token for both hosts, the
    exception is the [TypeError] of the call [Migrator(...)], which passes
    no [aws_ssm_prefix]. *)
Theorem main_stops_at_the_constructor (args : Args) (W : World) (raw : string)
    (credentials tfe_token scalr_token : json) :
  files W !! credentials_file = Some raw ->
  json_loads lib (PyStr.universal_newlines raw) = Some credentials ->
  token_of (arg_tf_hostname args) credentials = inr tfe_token ->
  token_of (arg_scalr_hostname args) credentials = inr scalr_token ->
  main lib credentials_file construct_and_migrate args W
  = (inl (TypeError "missing required arguments: aws_ssm_prefix"), W).
Proof.
  intros Hfile Hload Htf Hscalr.
  unfold main, bind, get_world, raise, lift. cbv beta iota.
  rewrite Hfile, Hload, Htf, Hscalr. reflexivity.
Qed.

End Entry.

Lemma main_stops_at_the_constructor_witness :
  main Scenario.lib "/home/me/.terraform.d/credentials.tfrc.json"
    (fun _ => migrate_workspaces Scenario.cfg Scenario.outside Scenario.lib)
    Cases.args Cases.home
  = (inl (TypeError "missing required arguments: aws_ssm_prefix"), Cases.home).
Proof.
  apply (main_stops_at_the_constructor Scenario.lib
           "/home/me/.terraform.d/credentials.tfrc.json"
           (fun _ => migrate_workspaces Scenario.cfg Scenario.outside Scenario.lib)
           Cases.args Cases.home (JsonText.dumps_indent2 Cases.credentials)
           Cases.credentials (JStr "tfc-token") (JStr "scalr-token"));
    vm_compute; reflexivity.
Defined.

End MainFacts.

(** ** The two files of a project *)

Lemma join_empty_cons (y : string) (l : list string) :
  PyStr.join EmptyString (y :: l) = y +:+ PyStr.join EmptyString l.
Proof.
  destruct l as [| z l]; cbn [PyStr.join].
  - symmetry. apply append_empty_r.
  - now rewrite append_empty.
Qed.

Lemma join_empty_app (l1 l2 : list string) :
  PyStr.join EmptyString (l1 ++ l2)
  = PyStr.join EmptyString l1 +:+ PyStr.join EmptyString l2.
Proof.
  induction l1 as [| y l1 IH]; [reflexivity |].
  cbn [app]. rewrite !join_empty_cons, IH. now rewrite append_assoc.
Qed.

(** The lines of a text, put together again, are the text. *)
Lemma join_readlines (s : string) : PyStr.join EmptyString (PyStr.readlines s) = s.
Proof.
  induction s as [| c s IH]; [reflexivity |].
  cbn [PyStr.readlines]. destruct (Ascii.eqb c "010") eqn:E.
  - apply Ascii.eqb_eq in E. subst c.
    rewrite join_empty_cons, IH. reflexivity.
  - destruct (PyStr.readlines s) as [| h t].
    + cbn [PyStr.join] in *. now subst s.
    + rewrite join_empty_cons in *. rewrite append_cons. now f_equal.
Qed.

(** Every line but the last ends with the line feed. *)
Lemma readlines_terminated (s : string) (before : list string) (line : string)
    (after : list string) :
  PyStr.readlines s = (before ++ line :: after)%list ->
  Forall (fun l => last_char l = Some "010"%char) before.
Proof.
  revert before. induction s as [| c s IH]; intros before H.
  - destruct before; discriminate.
  - cbn [PyStr.readlines] in H. destruct (Ascii.eqb c "010") eqn:E.
    + destruct before as [| b before]; [constructor |].
      injection H as <- H. constructor; [reflexivity | now apply IH].
    + destruct (PyStr.readlines s) as [| h t] eqn:Hs.
      * destruct before as [| b [| b' before]]; [constructor | discriminate | discriminate].
      * destruct before as [| b before]; [constructor |].
        injection H as <- H.
        pose proof (IH (h :: before) (f_equal (cons h) H)) as Hall.
        inversion Hall as [| ? ? Hh Hrest]; subst.
        constructor; [| exact Hrest].
        cbn [last_char]. destruct h; [discriminate | exact Hh].
Qed.

Lemma join_terminated (before : list string) :
  Forall (fun l => last_char l = Some "010"%char) before ->
  PyStr.join EmptyString before = EmptyString
  \/ last_char (PyStr.join EmptyString before) = Some "010"%char.
Proof.
  induction 1 as [| l before Hl _ IH]; [now left |].
  right. rewrite join_empty_cons. destruct IH as [-> | IH].
  - now rewrite append_empty_r.
  - now apply last_char_append.
Qed.

Lemma prefix_append (s t : string) : String.prefix s (s +:+ t) = true.
Proof.
  induction s as [| c s IH]; [now destruct t |].
  rewrite append_cons. cbn [String.prefix].
  destruct (ascii_dec c c); [exact IH | contradiction].
Qed.

Section Files.

Variable cfg : Config.
Variable lib : Library.

(** X22. A successful injection keeps the script: the text read from [main.ts]
    is cut in two where the first marker line starts, right after a line
    feed or at the very start, and what is written is the first part, the
    fragment, and the second part. The file then holds what
    [overwrite] makes of it, which is that text whenever reading did not
    shorten the file. *)
Theorem injection_keeps_the_script (project : string) (W W' : World) :
  inject_main_ts cfg lib project W = (inr tt, W') ->
  exists dir raw head tail,
    cdktf_paths cfg lib !! project = Some dir
    /\ files W !! (dir +:+ "/main.ts") = Some raw
    /\ PyStr.universal_newlines raw = head +:+ tail
    /\ String.prefix synth_line tail = true
    /\ (head = EmptyString \/ last_char head = Some "010"%char)
    /\ file_writes W'
       = (file_writes W ++ [(dir +:+ "/main.ts", head +:+ inject_js cfg +:+ tail)])%list
    /\ files W' !! (dir +:+ "/main.ts")
       = Some (overwrite raw (head +:+ inject_js cfg +:+ tail))
    /\ (PyStr.universal_newlines raw = raw ->
        files W' !! (dir +:+ "/main.ts") = Some (head +:+ inject_js cfg +:+ tail)).
Proof.
  intros Hrun.
  destruct (inject_main_ts_cases cfg lib project W)
    as [[e He] | (dir & raw & before & marker & after & Hdir & Hraw & Hlines & _ & Hm & He)];
    rewrite He in Hrun; [discriminate |].
  injection Hrun as <-.
  assert (Htext : PyStr.join EmptyString (before ++ inject_js cfg :: marker :: after)
                  = PyStr.join EmptyString before
                    +:+ inject_js cfg +:+ PyStr.join EmptyString (marker :: after)).
  { now rewrite join_empty_app, join_empty_cons. }
  assert (Hcut : PyStr.universal_newlines raw
                 = PyStr.join EmptyString before +:+ PyStr.join EmptyString (marker :: after)).
  { now rewrite <- join_empty_app, <- Hlines, join_readlines. }
  exists dir, raw, (PyStr.join EmptyString before), (PyStr.join EmptyString (marker :: after)).
  rewrite <- Htext.
  cbn [files file_writes set_file_writes set_files]. rewrite lookup_insert_eq.
  repeat split; try assumption; try reflexivity.
  - rewrite join_empty_cons.
    destruct Hm as [-> | [-> _]]; [rewrite append_assoc |]; apply prefix_append.
  - apply join_terminated. exact (readlines_terminated _ _ _ _ Hlines).
  - intros Hsame. f_equal. apply overwrite_longer.
    rewrite Htext. rewrite <- Hsame at 1. rewrite Hcut.
    rewrite !length_append. lia.
Qed.

(** *** The generated configuration *)

Lemma lookup_path_step (p : string) (ps : list string) (d : list (string * json)) :
  Json.lookup_path (p :: ps) (JObj d)
  = match Dict.get p d with
    | Some sub => Json.lookup_path ps sub
    | None => None
    end.
Proof. reflexivity. Qed.

(** After [j[p1]...[pn][k] = v] the value at that place is [v]. *)
Lemma setitem_at_lookup_same (path : list string) (k : string) (v : json) :
  forall j j', Json.setitem_at path k v j = inr j' ->
               Json.lookup_path (path ++ [k]) j' = Some v.
Proof.
  induction path as [| p ps IH]; intros j j' H; cbn [Json.setitem_at] in H.
  - destruct j; try discriminate. injection H as <-.
    cbn [app]. rewrite lookup_path_step, dict_get_set_same. reflexivity.
  - destruct j as [| | | | | d]; try discriminate.
    destruct (Dict.get p d) as [sub |]; [| discriminate].
    destruct (Json.setitem_at ps k v sub) as [e | sub'] eqn:Hsub; [discriminate |].
    injection H as <-. cbn [app]. rewrite lookup_path_step, dict_get_set_same.
    exact (IH _ _ Hsub).
Qed.

(** And every place on a path that parts from it holds what it held. *)
Lemma setitem_at_lookup_other (path : list string) (k : string) (v : json) :
  forall j j' q,
    Json.setitem_at path k v j = inr j' ->
    diverge q (path ++ [k]) = true ->
    Json.lookup_path q j' = Json.lookup_path q j.
Proof.
  induction path as [| p ps IH]; intros j j' q H Hq; cbn [Json.setitem_at] in H.
  - destruct j as [| | | | | d]; try discriminate. injection H as <-.
    destruct q as [| a q]; [discriminate |]. cbn [app diverge] in Hq.
    rewrite !lookup_path_step.
    destruct (String.eqb a k) eqn:E; [now destruct q |].
    apply String.eqb_neq in E. rewrite dict_get_set_other by congruence. reflexivity.
  - destruct j as [| | | | | d]; try discriminate.
    destruct (Dict.get p d) as [sub |] eqn:Hp; [| discriminate].
    destruct (Json.setitem_at ps k v sub) as [e | sub'] eqn:Hsub; [discriminate |].
    injection H as <-.
    destruct q as [| a q]; [discriminate |]. cbn [app diverge] in Hq.
    rewrite !lookup_path_step.
    destruct (String.eqb a p) eqn:E.
    + apply String.eqb_eq in E. subst a.
      rewrite dict_get_set_same, Hp. exact (IH _ _ _ Hsub Hq).
    + apply String.eqb_neq in E. rewrite dict_get_set_other by congruence. reflexivity.
Qed.

(** X23. A patch that succeeds writes the serialization of a document that has
    the target's host name and the environment of the account as the remote
    backend, the fixed override under the metadata, and at every place on a
    path that parts from these three what the document read from the file
    has there. *)
Theorem patch_sets_the_remote_backend (projectName envName accountLabel : string)
    (W W' : World) :
  patch_cdk_tf_json cfg lib projectName envName accountLabel W = (inr tt, W') ->
  exists dir raw cdktf patched env,
    cdktf_paths cfg lib !! projectName = Some dir
    /\ files W !! (dir +:+ "/cdktf.out/stacks/" +:+ envName +:+ "-" +:+ accountLabel
                     +:+ "/cdk.tf.json") = Some raw
    /\ json_loads lib (PyStr.universal_newlines raw) = Some cdktf
    /\ Dict.get accountLabel (environments cfg) = Some env
    /\ file_writes W'
       = (file_writes W
            ++ [(dir +:+ "/cdktf.out/stacks/" +:+ envName +:+ "-" +:+ accountLabel
                   +:+ "/cdk.tf.json", json_dumps_indent2 lib patched)])%list
    /\ Json.lookup_path ["terraform"; "backend"; "remote"; "hostname"] patched
       = Some (JStr (scalr_hostname cfg))
    /\ Json.lookup_path ["terraform"; "backend"; "remote"; "organization"] patched
       = Some (JStr env)
    /\ Json.lookup_path ["//"; "metadata"; "overrides"] patched
       = Some (JObj [("stack", JArr [JStr "terraform"])])
    /\ (forall q,
           diverge q ["terraform"; "backend"; "remote"; "hostname"] = true ->
           diverge q ["terraform"; "backend"; "remote"; "organization"] = true ->
           diverge q ["//"; "metadata"; "overrides"] = true ->
           Json.lookup_path q patched = Json.lookup_path q cdktf).
Proof.
  unfold patch_cdk_tf_json, cdktf_path_of, open_rplus, environment_of, write_from_start,
    bind, ret, raise, lift, get_world, modify.
  cbv beta iota zeta.
  destruct (cdktf_paths cfg lib !! projectName) as [dir |] eqn:Hdir; [| discriminate].
  cbv beta iota zeta.
  match goal with
  | |- context [files W !! ?p] => destruct (files W !! p) as [raw |] eqn:Hraw
  end; [| discriminate].
  cbv beta iota zeta.
  destruct (json_loads lib (PyStr.universal_newlines raw)) as [cdktf |] eqn:Hload;
    [| discriminate].
  cbv beta iota zeta.
  destruct (Json.setitem_at _ "hostname" _ cdktf) as [e | cdktf1] eqn:H1; [discriminate |].
  cbv beta iota zeta.
  destruct (Dict.get accountLabel (environments cfg)) as [env |] eqn:Henv; [| discriminate].
  cbv beta iota zeta.
  destruct (Json.setitem_at _ "organization" _ cdktf1) as [e | cdktf2] eqn:H2; [discriminate |].
  cbv beta iota zeta.
  destruct (Json.setitem_at _ "overrides" _ cdktf2) as [e | cdktf3] eqn:H3; [discriminate |].
  intros [= <-].
  exists dir, raw, cdktf, cdktf3, env.
  split; [reflexivity |]. split; [exact Hraw |]. split; [exact Hload |].
  split; [reflexivity |]. split; [reflexivity |].
  split; [| split; [| split]].
  - rewrite (setitem_at_lookup_other _ _ _ _ _
               ["terraform"; "backend"; "remote"; "hostname"] H3 eq_refl).
    rewrite (setitem_at_lookup_other _ _ _ _ _
               ["terraform"; "backend"; "remote"; "hostname"] H2 eq_refl).
    exact (setitem_at_lookup_same _ _ _ _ _ H1).
  - rewrite (setitem_at_lookup_other _ _ _ _ _
               ["terraform"; "backend"; "remote"; "organization"] H3 eq_refl).
    exact (setitem_at_lookup_same _ _ _ _ _ H2).
  - exact (setitem_at_lookup_same _ _ _ _ _ H3).
  - intros q Hq1 Hq2 Hq3.
    rewrite (setitem_at_lookup_other _ _ _ _ _ _ H3 Hq3).
    rewrite (setitem_at_lookup_other _ _ _ _ _ _ H2 Hq2).
    exact (setitem_at_lookup_other _ _ _ _ _ _ H1 Hq1).
Qed.

(** X24. A failure of [migrate_cdktf] never leaves the generated configuration
    written: either nothing has changed, or the build script alone was
    patched and its project recorded. *)
Theorem failed_patch_keeps_the_configuration (workspace_name : string) (e : exn)
    (W W' : World) :
  migrate_cdktf cfg lib workspace_name W = (inl e, W') ->
  W' = W
  \/ exists project dir raw text,
       cdktf_paths cfg lib !! project = Some dir
       /\ (project ∉ migrated_cdktf_mains W)
       /\ files W !! (dir +:+ "/main.ts") = Some raw
       /\ W' = set_migrated_cdktf_mains (fun done => done ∪ {[project]})
                 (set_file_writes (fun l => (l ++ [(dir +:+ "/main.ts", text)])%list)
                    (set_files (fun fs => <[dir +:+ "/main.ts" := overwrite raw text]> fs) W)).
Proof.
  unfold migrate_cdktf.
  destruct (PyStr.split "-" workspace_name) as [| p [| en [| ac [| x l]]]];
    try (intros [= _ <-]; now left).
  unfold bind at 1. unfold get_world. cbv beta iota.
  destruct (decide (p ∈ migrated_cdktf_mains W)) as [Hin | Hnew].
  - unfold bind, ret.
    destruct (patch_cdk_tf_json_cases cfg lib p en ac W)
      as [[e' He] | (dir & raw & text & _ & He)]; rewrite He; [| discriminate].
    intros [= _ <-]. now left.
  - destruct (inject_main_ts_cases cfg lib p W)
      as [[err He] | (dir & raw & before & marker & after & Hdir & Hraw & _ & _ & _ & He)];
      unfold bind; rewrite He; [intros [= _ <-]; now left |].
    unfold modify. cbv beta iota.
    match goal with
    | |- context [patch_cdk_tf_json cfg lib p en ac ?W1] =>
        destruct (patch_cdk_tf_json_cases cfg lib p en ac W1)
          as [[e' He'] | (dir' & raw' & text' & _ & He')]; rewrite He'; [| discriminate]
    end.
    intros [= _ <-]. right.
    exists p, dir, raw, (PyStr.join EmptyString (before ++ inject_js cfg :: marker :: after)).
    repeat split; assumption.
Qed.

End Files.

Lemma injection_keeps_the_script_witness :
  exists dir raw head tail,
    cdktf_paths Scenario.cfg Scenario.lib !! "orders" = Some dir
    /\ files Scenario.start !! (dir +:+ "/main.ts") = Some raw
    /\ PyStr.universal_newlines raw = head +:+ tail
    /\ String.prefix synth_line tail = true
    /\ (head = EmptyString \/ last_char head = Some "010"%char)
    /\ file_writes Cases.after_injection
       = (file_writes Scenario.start
            ++ [(dir +:+ "/main.ts", head +:+ inject_js Scenario.cfg +:+ tail)])%list
    /\ files Cases.after_injection !! (dir +:+ "/main.ts")
       = Some (overwrite raw (head +:+ inject_js Scenario.cfg +:+ tail))
    /\ (PyStr.universal_newlines raw = raw ->
        files Cases.after_injection !! (dir +:+ "/main.ts")
        = Some (head +:+ inject_js Scenario.cfg +:+ tail)).
Proof.
  apply (injection_keeps_the_script Scenario.cfg Scenario.lib "orders" Scenario.start
           Cases.after_injection).
  vm_compute. reflexivity.
Defined.

Lemma patch_sets_the_remote_backend_witness :
  exists dir raw cdktf patched env,
    cdktf_paths Scenario.cfg Scenario.lib !! "orders" = Some dir
    /\ files Scenario.start !! (dir +:+ "/cdktf.out/stacks/" +:+ "prod" +:+ "-" +:+ "acct1"
                                  +:+ "/cdk.tf.json") = Some raw
    /\ json_loads Scenario.lib (PyStr.universal_newlines raw) = Some cdktf
    /\ Dict.get "acct1" (environments Scenario.cfg) = Some env
    /\ file_writes Cases.after_patch
       = (file_writes Scenario.start
            ++ [(dir +:+ "/cdktf.out/stacks/" +:+ "prod" +:+ "-" +:+ "acct1"
                   +:+ "/cdk.tf.json", json_dumps_indent2 Scenario.lib patched)])%list
    /\ Json.lookup_path ["terraform"; "backend"; "remote"; "hostname"] patched
       = Some (JStr (scalr_hostname Scenario.cfg))
    /\ Json.lookup_path ["terraform"; "backend"; "remote"; "organization"] patched
       = Some (JStr env)
    /\ Json.lookup_path ["//"; "metadata"; "overrides"] patched
       = Some (JObj [("stack", JArr [JStr "terraform"])])
    /\ (forall q,
           diverge q ["terraform"; "backend"; "remote"; "hostname"] = true ->
           diverge q ["terraform"; "backend"; "remote"; "organization"] = true ->
           diverge q ["//"; "metadata"; "overrides"] = true ->
           Json.lookup_path q patched = Json.lookup_path q cdktf).
Proof.
  apply (patch_sets_the_remote_backend Scenario.cfg Scenario.lib "orders" "prod" "acct1"
           Scenario.start Cases.after_patch).
  vm_compute. reflexivity.
Defined.

Lemma failed_patch_keeps_the_configuration_witness :
  Cases.after_missing_stack = Scenario.start
  \/ exists project dir raw text,
       cdktf_paths Scenario.cfg Scenario.lib !! project = Some dir
       /\ (project ∉ migrated_cdktf_mains Scenario.start)
       /\ files Scenario.start !! (dir +:+ "/main.ts") = Some raw
       /\ Cases.after_missing_stack
          = set_migrated_cdktf_mains (fun done => done ∪ {[project]})
              (set_file_writes (fun l => (l ++ [(dir +:+ "/main.ts", text)])%list)
                 (set_files (fun fs => <[dir +:+ "/main.ts" := overwrite raw text]> fs)
                    Scenario.start)).
Proof.
  apply (failed_patch_keeps_the_configuration Scenario.cfg Scenario.lib "billing-dev-acct1"
           (FileNotFoundError "/repo/projects/Billing/cdktf.out/stacks/dev-acct1/cdk.tf.json")
           Scenario.start Cases.after_missing_stack).
  vm_compute. reflexivity.
Defined.
